(** * PersonaMem: memory retrieval, ranking and prompt assembly

    A shallow embedding of [app/memory_service.py] (relevance scorer),
    [app/retrieval.py] (per-user vector index, ranking engine) and
    [app/prompt_builder.py] (token-budgeted prompt assembler), with the
    properties of the design document proved or refuted on it.

    Modelling conventions.
    - Python [float] values are rationals ([Q]). The relevance scorer,
      which adds a few two-decimal constants, is computed exactly; the
      composite score of the ranking engine is computed on doubles
      ([binary64]: every operation rounds to the nearest double).
      [round(x, 4)] is rounding to the nearest multiple of 1/10000, ties
      to even.
    - Python [int] values are [Z]; [//] is floor division ([Z.div]).
    - Python [str] is [string], one [ascii] per character.
    - [datetime] values are microseconds since the epoch; the clock
      ([datetime.utcnow()]) is an explicit argument: one reading for a
      call of the scorer, and in the ranking loop one reading for every
      candidate.
    - The SQL table of memories is a list of rows; the two files kept per
      user (index blob and pickled identifier list) are two finite maps
      keyed by user identifier.
    - Code that touches the database or the files runs in a state and
      exception monad over that world. *)

From Stdlib Require Import ZArith QArith Qround Qminmax Qpower Lqa Lia List Bool Ascii String.
From Stdlib Require Import Sorted Permutation.
From stdpp Require Import base option list strings gmap.

Set Default Proof Using "Type".

(** ** Numbers *)

Module Num.

(** [a < b] on floats. *)
Definition Qltb (a b : Q) : bool := negb (Qle_bool b a).

(** [a > b] on floats. *)
Definition Qgtb (a b : Q) : bool := Qltb b a.

(** Nearest integer, ties to the even neighbour (Python's [round]). *)
Definition round_half_even (q : Q) : Z :=
  let f := Qfloor q in
  match (q - inject_Z f ?= 1 # 2)%Q with
  | Lt => f
  | Gt => (f + 1)%Z
  | Eq => if Z.even f then f else (f + 1)%Z
  end.

(** [round(x, 4)]. *)
Definition round4 (x : Q) : Q := round_half_even (x * 10000) # 10000.

End Num.
Export Num.

(** ** Binary floating point *)

(** A [float] is kept as the rational it holds. Where the source writes a
    decimal literal, or a value rounded with [round(x, 4)], the rational
    kept is the decimal, which stands for the double nearest to it; the
    arithmetic below reads its operands as doubles and rounds its result
    to the nearest double, ties to the even significand, as IEEE 754
    binary64 does. A magnitude of [2 ^ 1024] or more, where a double
    overflows, is out of reach of the values computed here. *)
Module binary64.

Local Open Scope Q_scope.

(** [floor(log2 x)] for a positive [x]: the exponent of its leading bit. *)
Definition binade (x : Q) : Z :=
  let e := (Z.log2 (Qnum x) - Z.log2 (Z.pos (Qden x)))%Z in
  if Qle_bool (2 ^ e) x then e else (e - 1)%Z.

(** The double nearest to a positive [x]: 53 significant bits, the last of
    weight [2 ^ (e - 52)] (never below [2 ^ -1074]), ties to the even
    significand. *)
Definition nearest_pos (x : Q) : Q :=
  let e := Z.max (binade x) (-1022) in
  let ulp := 2 ^ (e - 52) in
  inject_Z (round_half_even (x / ulp)) * ulp.

(** The double nearest to [x]. *)
Definition fl (x : Q) : Q :=
  match x ?= 0 with
  | Eq => 0
  | Gt => nearest_pos x
  | Lt => - nearest_pos (- x)
  end.

(** [a + b], [a * b] and [a / b] on floats. *)
Definition add (a b : Q) : Q := fl (fl a + fl b).
Definition mul (a b : Q) : Q := fl (fl a * fl b).
Definition div (a b : Q) : Q := fl (fl a / fl b).

(** [round(x, 4)] on a float: the exact value of the double is rounded to
    four decimals, ties to even. The decimal is kept; the float the call
    returns is the double nearest to it. *)
Definition round4 (x : Q) : Q := Num.round4 (fl x).

End binary64.

(** ** Strings and lists as Python has them *)

Module Py.

(** [len(s)] as an [int]. *)
Definition len (s : string) : Z := Z.of_nat (String.length s).

(** [s[:stop]]: a negative [stop] counts from the end. *)
Definition str_slice_to (s : string) (stop : Z) : string :=
  if (0 <=? stop)%Z then substring 0 (Z.to_nat stop) s
  else substring 0 (Z.to_nat (len s + stop)) s.

(** [l[:stop]] on lists. *)
Definition list_slice_to {A} (l : list A) (stop : Z) : list A :=
  if (0 <=? stop)%Z then firstn (Z.to_nat stop) l
  else firstn (Z.to_nat (Z.of_nat (length l) + stop)) l.

(** Truth value of a string: non-empty. *)
Definition truthy (s : string) : bool :=
  match s with EmptyString => false | String _ _ => true end.

Definition lower_char (c : ascii) : ascii :=
  let n := nat_of_ascii c in
  if ((65 <=? n) && (n <=? 90))%nat then ascii_of_nat (n + 32) else c.

Definition upper_char (c : ascii) : ascii :=
  let n := nat_of_ascii c in
  if ((97 <=? n) && (n <=? 122))%nat then ascii_of_nat (n - 32) else c.

Fixpoint map_chars (f : ascii -> ascii) (s : string) : string :=
  match s with
  | EmptyString => EmptyString
  | String c s' => String (f c) (map_chars f s')
  end.

(** [s.lower()] and [s.upper()], on the letters of ASCII. *)
Definition lower : string -> string := map_chars lower_char.
Definition upper : string -> string := map_chars upper_char.

(** [kw in s] on strings: [kw] occurs as a contiguous run of [s]. *)
Fixpoint contains (kw s : string) : bool :=
  String.prefix kw s ||
  match s with
  | EmptyString => false
  | String _ s' => contains kw s'
  end.

(** [sep.join(parts)]. *)
Definition join (sep : string) (parts : list string) : string :=
  String.concat sep parts.

(** The newline character. *)
Definition nl : string := String "010"%char EmptyString.

(** [sorted(l, key=key, reverse=True)]: a stable sort, largest key first.
    An element is placed in front of the first one whose key does not
    exceed its own, so equal keys keep their order of arrival. *)
Fixpoint insert_desc {A} (key : A -> Q) (x : A) (l : list A) : list A :=
  match l with
  | [] => [x]
  | y :: l' =>
      if Qle_bool (key y) (key x) then x :: y :: l'
      else y :: insert_desc key x l'
  end.

Fixpoint sort_desc {A} (key : A -> Q) (l : list A) : list A :=
  match l with
  | [] => []
  | x :: l' => insert_desc key x (sort_desc key l')
  end.

End Py.

(** ** [app/config.py] *)

Module settings.

Definition TOP_K_MEMORIES : Z := 5.
Definition MAX_CONTEXT_TOKENS : Z := 1800.
Definition WEIGHT_SEMANTIC : Q := 4 # 10.
Definition WEIGHT_RECENCY : Q := 2 # 10.
Definition WEIGHT_IMPORTANCE : Q := 2 # 10.
Definition WEIGHT_FREQUENCY : Q := 1 # 10.
Definition WEIGHT_PERSONAL : Q := 1 # 10.
Definition SESSION_WINDOW : Z := 6.

End settings.

(** ** [app/models.py] *)

(** Microseconds since the epoch. *)
Definition datetime : Type := Z.

(** [(a - b).total_seconds()]. *)
Definition total_seconds (delta : Z) : Q := delta # 1000000.

Module models.

(** A row of the [memories] table. *)
Record Memory : Type := {
  id : string;
  user_id : string;
  memory_type : string;
  content : string;
  importance_score : Q;
  last_accessed : datetime;
  reinforcement_count : Z;
  timestamp : datetime;
  faiss_index_id : option Z;
  session_id : option string;
  metadata_json : list (string * string)
}.

(** The fields of [user_profiles] the prompt builder reads. A column that
    holds [None] reads as the empty string or the empty list: the builder
    only tests these fields for truth. *)
Record UserProfile : Type := {
  display_name : string;
  expertise_level : string;
  communication_style : string;
  interests : list string;
  goals : list string
}.

End models.

(** ** The world: database table and index files *)

(** An embedding vector. *)
Definition vec : Type := list Q.

(** [faiss.IndexFlatIP]: the dimension and the stored vectors, slot [i]
    being the [i]-th vector added. *)
Record Index : Type := { d : Z; xb : list vec }.

Definition IndexFlatIP (dim : Z) : Index := {| d := dim; xb := [] |}.

(** [index.add(rows)]. *)
Definition index_add (index : Index) (rows : list vec) : Index :=
  {| d := d index; xb := xb index ++ rows |}.

(** [index.ntotal]. *)
Definition ntotal (index : Index) : Z := Z.of_nat (length (xb index)).

Record World : Type := {
  db : list models.Memory;
  index_files : gmap string Index;
  meta_files : gmap string (list string)
}.

(** The exceptions that are raised here: by list indexing, by the
    assertions of the index library, and by the embedding model or the
    index files when they fail. *)
Inductive exn : Type := IndexError | AssertionError | RuntimeError.

Inductive outcome (A : Type) : Type :=
| Return (a : A)
| Raise (e : exn).
Arguments Return {A} a.
Arguments Raise {A} e.

(** Computations that read and write the world and may raise. *)
Definition M (A : Type) : Type := World -> outcome A * World.

Definition ret {A} (a : A) : M A := fun w => (Return a, w).

Definition bind {A B} (m : M A) (k : A -> M B) : M B :=
  fun w =>
    match m w with
    | (Return a, w') => k a w'
    | (Raise e, w') => (Raise e, w')
    end.

Definition raise {A} (e : exn) : M A := fun w => (Raise e, w).

Definition get_world : M World := fun w => (Return w, w).

Definition put_world (w : World) : M unit := fun _ => (Return tt, w).

Notation "x <- m ;; k" := (bind m (fun x => k))
  (at level 100, m at next level, right associativity).
Notation "m ;;; k" := (bind m (fun _ => k))
  (at level 100, right associativity).

(** [l[i]] on a Python list: a negative index counts from the end, an index
    outside [-len, len) raises [IndexError]. *)
Definition list_getitem {A} (l : list A) (i : Z) : M A :=
  let n := Z.of_nat (length l) in
  let j := if (i <? 0)%Z then (i + n)%Z else i in
  if ((j <? 0) || (n <=? j))%Z then raise IndexError
  else match l !! Z.to_nat j with
       | Some x => ret x
       | None => raise IndexError
       end.

(** [for x in xs: body(x)]. *)
Fixpoint for_each {A} (xs : list A) (body : A -> M unit) : M unit :=
  match xs with
  | [] => ret tt
  | x :: xs' => body x ;;; for_each xs' body
  end.

(** [enumerate(l, start)] and [enumerate(l)]. *)
Fixpoint enumerate_from {A} (start : Z) (l : list A) : list (Z * A) :=
  match l with
  | [] => []
  | x :: l' => (start, x) :: enumerate_from (start + 1) l'
  end.

Definition enumerate {A} (l : list A) : list (Z * A) := enumerate_from 0 l.

(** [db.query(Memory).filter(...).first()]. *)
Definition query_first (p : models.Memory -> bool) : M (option models.Memory) :=
  w <- get_world ;; ret (find p (db w)).

(** The row [r] with its [faiss_index_id] column set to [i]. *)
Definition with_faiss_index_id (r : models.Memory) (i : Z) : models.Memory :=
  {| models.id := models.id r;
     models.user_id := models.user_id r;
     models.memory_type := models.memory_type r;
     models.content := models.content r;
     models.importance_score := models.importance_score r;
     models.last_accessed := models.last_accessed r;
     models.reinforcement_count := models.reinforcement_count r;
     models.timestamp := models.timestamp r;
     models.faiss_index_id := Some i;
     models.session_id := models.session_id r;
     models.metadata_json := models.metadata_json r |}.

(** [mem.faiss_index_id = i] on a mapped row, written back under the row's
    primary key. *)
Definition set_faiss_index_id (mem : models.Memory) (i : Z) : M unit :=
  w <- get_world ;;
  put_world
    {| db := map (fun r =>
                    if String.eqb (models.id r) (models.id mem)
                    then with_faiss_index_id r i else r) (db w);
       index_files := index_files w;
       meta_files := meta_files w |}.

(** [db.commit()]: the table of this model is the committed one. *)
Definition db_commit : M unit := ret tt.

(** ** [app/memory_service.py]: relevance scorer *)

Module memory_service.

Local Open Scope Q_scope.

Definition EMOTIONAL_KEYWORDS : list string :=
  ["love"; "hate"; "fear"; "happy"; "sad"; "excited"; "angry"; "worried";
   "important"; "critical"; "urgent"; "emergency"; "always"; "never";
   "prefer"; "goal"; "dream"; "wish"; "need"; "must"; "remember"]%string.

Definition FACTUAL_KEYWORDS : list string :=
  ["my name"; "i am"; "i work"; "i live"; "i study"; "i have";
   "my job"; "my career"; "my hobby"; "i like"; "i dislike";
   "i want"; "i need"; "my goal"; "my project"]%string.

(** [sum(1 for kw in keywords if kw in lower)]. *)
Definition hits (keywords : list string) (lower : string) : Z :=
  Z.of_nat (length (filter (fun kw => Py.contains kw lower = true) keywords)).

Definition compute_importance_score (content : string) (reinforcement_count : Z) : Q :=
  let score := 3 # 10 in
  let lower := Py.lower content in
  let emotional_hits := hits EMOTIONAL_KEYWORDS lower in
  let score := score + Qmin (inject_Z emotional_hits * (5 # 100)) (25 # 100) in
  let factual_hits := hits FACTUAL_KEYWORDS lower in
  let score := score + Qmin (inject_Z factual_hits * (8 # 100)) (24 # 100) in
  let score := if (100 <? Py.len content)%Z then score + (5 # 100) else score in
  let score := if (300 <? Py.len content)%Z then score + (5 # 100) else score in
  let score := score + Qmin (inject_Z (reinforcement_count - 1) * (2 # 100)) (1 # 10) in
  Qmin (round4 score) 1.

Definition compute_recency_score (utcnow timestamp : datetime) : Q :=
  let age_hours := total_seconds (utcnow - timestamp) / 3600 in
  if Qltb age_hours 1 then 1
  else if Qltb age_hours 24 then 85 # 100
  else if Qltb age_hours 168 then 65 # 100
  else if Qltb age_hours 720 then 45 # 100
  else if Qltb age_hours 8760 then 25 # 100
  else 1 # 10.

(** [get_memories_by_user]: the user's rows, optionally of one type, newest
    first, at most [limit] of them. Rows with equal timestamps keep their
    table order. *)
Definition get_memories_by_user
    (user_id : string) (memory_type : option string) (limit : Z)
  : M (list models.Memory) :=
  w <- get_world ;;
  let q := filter (fun m => models.user_id m = user_id) (db w) in
  let q := match memory_type with
           | Some t =>
               if Py.truthy t then filter (fun m => models.memory_type m = t) q
               else q
           | None => q
           end in
  ret (firstn (Z.to_nat limit)
         (Py.sort_desc (fun m => inject_Z (models.timestamp m)) q)).

End memory_service.

(** ** [app/retrieval.py]: vector index store and ranking engine *)

(** A ranked candidate, the dictionary built by the ranking loop. The
    [timestamp] entry is kept as the [datetime] it is formatted from. *)
Module candidate.

Record Candidate : Type := {
  id : string;
  content : string;
  memory_type : string;
  importance_score : Q;
  semantic_similarity : Q;
  recency_score : Q;
  composite_score : Q;
  timestamp : datetime;
  reinforcement_count : Z
}.

End candidate.

Module retrieval.

Local Open Scope Q_scope.

Section Retrieval.

(** The sentence-embedding model: [embed_text]. *)
Variable embed_text : string -> vec.

(** [index.search(query_vec, k)] for a [k] above 0, as the list
    [zip(distances[0], indices[0])]; for any other [k] the search raises
    [AssertionError], which [retrieve_relevant_memories] models. *)
Variable search : Index -> vec -> Z -> list (Q * Z).

Definition embed_texts (texts : list string) : list vec :=
  match texts with
  | [] => []
  | _ => map embed_text texts
  end.

(** [m.shape[1]] of a matrix given by its rows; the empty matrix of
    [embed_texts] has width 384. *)
Definition shape1 (m : list vec) : Z :=
  match m with
  | [] => 384%Z
  | row :: _ => Z.of_nat (length row)
  end.

Definition load_faiss_index (user_id : string) : M (option Index * list string) :=
  w <- get_world ;;
  match index_files w !! user_id, meta_files w !! user_id with
  | Some index, Some memory_ids => ret (Some index, memory_ids)
  | _, _ => ret (None, [])
  end.

(** [faiss.write_index(index, _index_path(user_id))]. *)
Definition write_index (user_id : string) (index : Index) : M unit :=
  w <- get_world ;;
  put_world {| db := db w;
               index_files := <[user_id := index]> (index_files w);
               meta_files := meta_files w |}.

(** [pickle.dump(memory_ids, open(_meta_path(user_id), "wb"))]. *)
Definition write_meta (user_id : string) (memory_ids : list string) : M unit :=
  w <- get_world ;;
  put_world {| db := db w;
               index_files := index_files w;
               meta_files := <[user_id := memory_ids]> (meta_files w) |}.

Definition save_faiss_index
    (user_id : string) (index : Index) (memory_ids : list string) : M unit :=
  write_index user_id index ;;;
  write_meta user_id memory_ids.

Definition add_memory_to_index (user_id memory_id content : string) : M Z :=
  loaded <- load_faiss_index user_id ;;
  let '(index, memory_ids) := loaded in
  let embedding := [embed_text content] in
  let dim := shape1 embedding in
  let '(index, memory_ids) :=
    match index with
    | None => (IndexFlatIP dim, [])
    | Some index => (index, memory_ids)
    end in
  let index := index_add index embedding in
  let faiss_id := Z.of_nat (length memory_ids) in
  let memory_ids := memory_ids ++ [memory_id] in
  save_faiss_index user_id index memory_ids ;;;
  ret faiss_id.

Definition rebuild_user_index (user_id : string) : M unit :=
  memories <- memory_service.get_memories_by_user user_id (Some "semantic"%string) 100 ;;
  match memories with
  | [] => ret tt
  | _ =>
      let texts := map models.content memories in
      let embeddings := embed_texts texts in
      let dim := shape1 embeddings in
      let index := index_add (IndexFlatIP dim) embeddings in
      let memory_ids := map models.id memories in
      for_each (enumerate memories)
        (fun im => set_faiss_index_id (snd im) (fst im)) ;;;
      db_commit ;;;
      save_faiss_index user_id index memory_ids
  end.

(** The dictionary appended for one resolved memory; [utcnow] is the
    reading of the clock that [compute_recency_score] takes for it. The
    sum is computed on doubles, left to right. *)
Definition make_candidate (utcnow : datetime) (dist : Q) (mem : models.Memory)
  : candidate.Candidate :=
  let semantic_sim := dist in
  let recency := memory_service.compute_recency_score utcnow (models.timestamp mem) in
  let importance := models.importance_score mem in
  let frequency :=
    Qmin (binary64.div (inject_Z (models.reinforcement_count mem)) 20) 1 in
  let personal :=
    if (String.eqb (models.memory_type mem) "profile"
        || String.eqb (models.memory_type mem) "episodic")%bool
    then 8 # 10 else 5 # 10 in
  let composite :=
    binary64.add
      (binary64.add
         (binary64.add
            (binary64.add
               (binary64.mul settings.WEIGHT_SEMANTIC semantic_sim)
               (binary64.mul settings.WEIGHT_RECENCY recency))
            (binary64.mul settings.WEIGHT_IMPORTANCE importance))
         (binary64.mul settings.WEIGHT_FREQUENCY frequency))
      (binary64.mul settings.WEIGHT_PERSONAL personal) in
  {| candidate.id := models.id mem;
     candidate.content := models.content mem;
     candidate.memory_type := models.memory_type mem;
     candidate.importance_score := importance;
     candidate.semantic_similarity := binary64.round4 semantic_sim;
     candidate.recency_score := binary64.round4 recency;
     candidate.composite_score := binary64.round4 composite;
     candidate.timestamp := models.timestamp mem;
     candidate.reinforcement_count := models.reinforcement_count mem |}.

(** The candidate loop: [for dist, idx in zip(distances[0], indices[0])].
    The clock is read once for every candidate built: [utcnow n] is the
    reading taken for the candidate appended when [n] have been built. *)
Fixpoint candidate_loop
    (utcnow : nat -> datetime) (user_id : string) (memory_ids : list string)
    (found : list (Q * Z)) (candidates : list candidate.Candidate)
  : M (list candidate.Candidate) :=
  match found with
  | [] => ret candidates
  | (dist, idx) :: rest =>
      if ((idx <? 0) || (Z.of_nat (length memory_ids) <=? idx))%Z
      then candidate_loop utcnow user_id memory_ids rest candidates
      else
        mem_id <- list_getitem memory_ids idx ;;
        mem <- query_first
                 (fun m => String.eqb (models.id m) mem_id
                           && String.eqb (models.user_id m) user_id)%bool ;;
        match mem with
        | None => candidate_loop utcnow user_id memory_ids rest candidates
        | Some mem =>
            candidate_loop utcnow user_id memory_ids rest
              (candidates ++ [make_candidate (utcnow (length candidates)) dist mem])
        end
  end.

(** The sort key [x["composite_score"]]: the double the entry holds. *)
Definition score_key (c : candidate.Candidate) : Q :=
  binary64.fl (candidate.composite_score c).

Definition retrieve_relevant_memories
    (utcnow : nat -> datetime) (user_id query : string) (top_k : option Z)
  : M (list candidate.Candidate) :=
  let top_k := match top_k with
               | None => settings.TOP_K_MEMORIES
               | Some top_k => top_k
               end in
  loaded <- load_faiss_index user_id ;;
  let '(index, memory_ids) := loaded in
  match index with
  | None => ret []
  | Some index =>
      if (ntotal index =? 0)%Z then ret []
      else
        let query_vec := embed_text query in
        let k := Z.min (top_k * 3) (ntotal index) in
        if (k <=? 0)%Z then raise AssertionError
        else
          let found := search index query_vec k in
          candidates <- candidate_loop utcnow user_id memory_ids found [] ;;
          let candidates := Py.sort_desc score_key candidates in
          ret (Py.list_slice_to candidates top_k)
  end.

End Retrieval.

(** A reference [IndexFlatIP.search]: inner products against every stored
    vector, best first, [k] results, missing ones padded with label [-1]. *)
Definition inner_product (a b : vec) : Q :=
  fold_right Qplus 0 (zip_with Qmult a b).

Definition flat_ip_search (index : Index) (query_vec : vec) (k : Z) : list (Q * Z) :=
  let scored := imap (fun i row => (inner_product query_vec row, Z.of_nat i)) (xb index) in
  let best := firstn (Z.to_nat k) (Py.sort_desc fst scored) in
  best ++ repeat (- (1000000 # 1), (-1)%Z) (Z.to_nat k - length best).

End retrieval.

(** ** [app/prompt_builder.py]: token-budgeted prompt assembler *)

(** A session turn, the dictionary [{"role": ..., "content": ...}]. *)
Module message.

Record Message : Type := { role : string; content : string }.

End message.

Module prompt_builder.

Local Open Scope Z_scope.

Definition estimate_tokens (text : string) : Z :=
  Z.max 1 (Py.len text / 4).

Definition truncate_to_tokens (text : string) (max_tokens : Z) : string :=
  let max_chars := max_tokens * 4 in
  if Py.len text <=? max_chars then text
  else Py.str_slice_to text max_chars +:+ "...".

(** The one character of the instruction outside ASCII, an em dash, is
    the single character of code 151 here, so that [len] agrees. *)
Definition em_dash : string := String "151"%char EmptyString.

Definition SYSTEM_INSTRUCTION : string :=
  "You are PersonaMem, an intelligent AI assistant with persistent memory about the user. " +:+ Py.nl +:+
  "You remember past conversations, personal details, and preferences. " +:+ Py.nl +:+
  "Use the provided context to give personalized, helpful responses." +:+ Py.nl +:+
  "Be concise, clear, and adapt your tone to the user's style." +:+ Py.nl +:+
  "Never mention that you are reading from stored memory " +:+ em_dash +:+
  " just respond naturally.".

Definition build_profile_summary (profile : option models.UserProfile) : string :=
  match profile with
  | None => ""
  | Some profile =>
      let parts := [] in
      let parts :=
        if Py.truthy (models.display_name profile)
        then parts ++ ["Name: " +:+ models.display_name profile] else parts in
      let parts :=
        if Py.truthy (models.expertise_level profile)
        then parts ++ ["Expertise: " +:+ models.expertise_level profile] else parts in
      let parts :=
        if Py.truthy (models.communication_style profile)
        then parts ++ ["Style: " +:+ models.communication_style profile] else parts in
      let parts :=
        match models.interests profile with
        | [] => parts
        | _ =>
            let interests_str :=
              Py.join ", " (Py.list_slice_to (models.interests profile) 5) in
            parts ++ ["Interests: " +:+ interests_str]
        end in
      let parts :=
        match models.goals profile with
        | [] => parts
        | _ =>
            let goals_str :=
              Py.join "; " (Py.list_slice_to (models.goals profile) 3) in
            parts ++ ["Goals: " +:+ goals_str]
        end in
      match parts with
      | [] => ""
      | _ => "USER PROFILE:" +:+ Py.nl +:+ Py.join Py.nl parts
      end
  end.

Definition build_memory_context (retrieved_memories : list candidate.Candidate) : string :=
  match retrieved_memories with
  | [] => ""
  | _ =>
      let lines :=
        "RELEVANT MEMORIES:" ::
        map (fun mem =>
               let tag := "[" +:+ Py.upper (candidate.memory_type mem) +:+ "]" in
               tag +:+ " " +:+ candidate.content mem)
            retrieved_memories in
      Py.join Py.nl lines
  end.

Definition build_session_summary (session_messages : list message.Message) : string :=
  match session_messages with
  | [] => ""
  | _ =>
      let lines :=
        "RECENT CONVERSATION:" ::
        map (fun msg =>
               let role_label :=
                 if String.eqb (message.role msg) "user" then "User" else "Assistant" in
               let content := Py.str_slice_to (message.content msg) 300 in
               role_label +:+ ": " +:+ content)
            session_messages in
      Py.join Py.nl lines
  end.

Definition build_prompt
    (user_query : string) (profile : option models.UserProfile)
    (retrieved_memories : list candidate.Candidate)
    (session_messages : list message.Message) (max_tokens : Z) : string :=
  let system_part := SYSTEM_INSTRUCTION in
  let query_part := Py.nl +:+ "User: " +:+ user_query +:+ Py.nl +:+ "Assistant:" in
  let reserved := estimate_tokens system_part + estimate_tokens query_part + 50 in
  let remaining := max_tokens - reserved in
  let profile_text := build_profile_summary profile in
  let profile_tokens := estimate_tokens profile_text in
  let profile_text :=
    if profile_tokens >? remaining / 4
    then truncate_to_tokens profile_text (remaining / 4) else profile_text in
  let profile_tokens := estimate_tokens profile_text in
  let remaining := remaining - profile_tokens in
  let memory_text := build_memory_context retrieved_memories in
  let memory_tokens := estimate_tokens memory_text in
  let memory_budget := remaining / 2 in
  let memory_text :=
    if memory_tokens >? memory_budget
    then truncate_to_tokens memory_text memory_budget else memory_text in
  let memory_tokens := estimate_tokens memory_text in
  let remaining := remaining - memory_tokens in
  let session_text := build_session_summary session_messages in
  let session_text :=
    if estimate_tokens session_text >? remaining
    then truncate_to_tokens session_text remaining else session_text in
  let sections := [system_part] in
  let sections := if Py.truthy profile_text then sections ++ [profile_text] else sections in
  let sections := if Py.truthy memory_text then sections ++ [memory_text] else sections in
  let sections := if Py.truthy session_text then sections ++ [session_text] else sections in
  let sections := sections ++ [query_part] in
  Py.join (Py.nl +:+ Py.nl) sections.

End prompt_builder.

(** ** Vocabulary of the design document *)

Module Spec.

Local Open Scope Q_scope.

(** Age in hours of [timestamp] at time [utcnow]. *)
Definition age_hours (utcnow timestamp : datetime) : Q :=
  total_seconds (utcnow - timestamp) / 3600.

(** A timestamp [h] hours before [utcnow], for [h] a multiple of a tenth
    of an hour. *)
Definition tenths_of_hour_before (utcnow : datetime) (tenths : Z) : datetime :=
  (utcnow - tenths * 360000000)%Z.

(** The recency step function of the design document: [r] is the score
    it gives to an age of [age] hours. *)
Definition recency_step (age r : Q) : Prop :=
  (age < 1 -> r = 1) /\
  (1 <= age < 24 -> r = 85 # 100) /\
  (24 <= age < 168 -> r = 65 # 100) /\
  (168 <= age < 720 -> r = 45 # 100) /\
  (720 <= age < 8760 -> r = 25 # 100) /\
  (8760 <= age -> r = 1 # 10).

(** Clamping to the unit interval. *)
Definition clamp01 (x : Q) : Q := Qmax 0 (Qmin x 1).

(** The length bonus: 0.05 above 100 characters, 0.05 more above 300. *)
Definition length_bonus (content : string) : Q :=
  (if (100 <? Py.len content)%Z then 5 # 100 else 0)
  + (if (300 <? Py.len content)%Z then 5 # 100 else 0).

(** The importance formula as the design document words it. *)
Definition importance_formula (content : string) (n : Z) : Q :=
  let emotional := memory_service.hits memory_service.EMOTIONAL_KEYWORDS (Py.lower content) in
  let factual := memory_service.hits memory_service.FACTUAL_KEYWORDS (Py.lower content) in
  round4 (clamp01 ((3 # 10)
                   + Qmin (inject_Z emotional * (5 # 100)) (25 # 100)
                   + Qmin (inject_Z factual * (8 # 100)) (24 # 100)
                   + length_bonus content
                   + Qmin (inject_Z (n - 1) * (2 # 100)) (1 # 10))).

(** A list ordered by [key], largest first. *)
Definition descending {A} (key : A -> Q) : list A -> Prop :=
  StronglySorted (fun a b => key b <= key a).

(** The elements whose key is [s], in list order. *)
Definition with_key {A} (key : A -> Q) (s : Q) (l : list A) : list A :=
  List.filter (fun a => Qeq_bool (key a) s) l.

(** The weighted sum of the design document, with the default weights. *)
Definition weighted_sum (similarity recency importance frequency personal : Q) : Q :=
  (4 # 10) * similarity + (2 # 10) * recency + (2 # 10) * importance
  + (1 # 10) * frequency + (1 # 10) * personal.

(** Frequency saturates at 20 reinforcements. *)
Definition frequency (reinforcement_count : Z) : Q :=
  Qmin (inject_Z reinforcement_count / 20) 1.

(** Personal relevance: 0.8 for profile and episodic memories, else 0.5. *)
Definition personal (memory_type : string) : Q :=
  if decide (memory_type = "profile"%string \/ memory_type = "episodic"%string)
  then 8 # 10 else 5 # 10.

(** Composite score of memory [mem] found at similarity [dist]. *)
Definition composite (utcnow : datetime) (dist : Q) (mem : models.Memory) : Q :=
  weighted_sum dist
    (memory_service.compute_recency_score utcnow (models.timestamp mem))
    (models.importance_score mem)
    (frequency (models.reinforcement_count mem))
    (personal (models.memory_type mem)).

(** The same sum on doubles: every product and every sum, taken from left
    to right, is rounded to the nearest double. *)
Definition weighted_sum_float
    (similarity recency importance frequency personal : Q) : Q :=
  binary64.add
    (binary64.add
       (binary64.add
          (binary64.add (binary64.mul (4 # 10) similarity)
                        (binary64.mul (2 # 10) recency))
          (binary64.mul (2 # 10) importance))
       (binary64.mul (1 # 10) frequency))
    (binary64.mul (1 # 10) personal).

Definition frequency_float (reinforcement_count : Z) : Q :=
  Qmin (binary64.div (inject_Z reinforcement_count) 20) 1.

Definition composite_float (utcnow : datetime) (dist : Q) (mem : models.Memory) : Q :=
  weighted_sum_float dist
    (memory_service.compute_recency_score utcnow (models.timestamp mem))
    (models.importance_score mem)
    (frequency_float (models.reinforcement_count mem))
    (personal (models.memory_type mem)).

(** The count a ranking call works with: 5 when none is given. *)
Definition count_given (top_k : option Z) : Z :=
  match top_k with
  | None => settings.TOP_K_MEMORIES
  | Some top_k => top_k
  end.

(** An ordinal that is a position of the identifier list. *)
Definition in_range (memory_ids : list string) (idx : Z) : bool :=
  ((0 <=? idx) && (idx <? Z.of_nat (length memory_ids)))%Z.

(** The stored record of user [user_id] with identifier [mem_id]. *)
Definition stored (w : World) (user_id mem_id : string) : option models.Memory :=
  find (fun m => String.eqb (models.id m) mem_id
                 && String.eqb (models.user_id m) user_id)%bool (db w).

(** The record a search result leads to: its ordinal is a position of the
    identifier list and the identifier there is still stored. *)
Definition resolve (w : World) (user_id : string) (memory_ids : list string)
    (found : Q * Z) : option (Q * models.Memory) :=
  if in_range memory_ids (snd found) then
    match memory_ids !! Z.to_nat (snd found) with
    | Some mem_id =>
        match stored w user_id mem_id with
        | Some mem => Some (fst found, mem)
        | None => None
        end
    | None => None
    end
  else None.

(** The user's index is absent (one of its two files is missing) or holds
    no vector. *)
Definition absent_or_empty (w : World) (user_id : string) : Prop :=
  index_files w !! user_id = None \/
  meta_files w !! user_id = None \/
  exists index, index_files w !! user_id = Some index /\ ntotal index = 0%Z.

(** The candidates of the search results that resolve, in search order,
    when [start] candidates were built before: the one at position [n]
    is built at the clock reading [utcnow (start + n)]. *)
Definition resolved_candidates (utcnow : nat -> datetime) (start : nat)
    (w : World) (user_id : string)
    (memory_ids : list string) (found : list (Q * Z)) : list candidate.Candidate :=
  imap (fun n dm => retrieval.make_candidate (utcnow (start + n)%nat) (fst dm) (snd dm))
       (omap (resolve w user_id memory_ids) found).

(** The index is there and holds vectors, but the count handed to the
    search, [min(3 * top_k, ntotal)], is not above 0: the search refuses
    it. *)
Definition search_refused (w : World) (user_id : string) (top_k : Z) : bool :=
  match index_files w !! user_id, meta_files w !! user_id with
  | Some index, Some _ =>
      (negb (ntotal index =? 0) && (Z.min (top_k * 3) (ntotal index) <=? 0))%Z
  | _, _ => false
  end.

(** The candidates a ranking call works on, in similarity-search order:
    none when the index is absent or empty, otherwise those of the
    [min(3 * top_k, ntotal)] nearest neighbours that resolve. *)
Definition search_order_candidates
    (embed_text : string -> vec) (search : Index -> vec -> Z -> list (Q * Z))
    (utcnow : nat -> datetime) (w : World) (user_id query : string) (top_k : Z)
  : list candidate.Candidate :=
  match index_files w !! user_id, meta_files w !! user_id with
  | Some index, Some memory_ids =>
      if (ntotal index =? 0)%Z then []
      else resolved_candidates utcnow 0 w user_id memory_ids
             (search index (embed_text query) (Z.min (top_k * 3) (ntotal index)))
  | _, _ => []
  end.

(** The identifier list and the vectors a load of the user's index sees:
    empty when one of the two files is missing. *)
Definition loaded_ids (w : World) (user_id : string) : list string :=
  match index_files w !! user_id, meta_files w !! user_id with
  | Some _, Some memory_ids => memory_ids
  | _, _ => []
  end.

Definition loaded_vectors (w : World) (user_id : string) : list vec :=
  match index_files w !! user_id, meta_files w !! user_id with
  | Some index, Some _ => xb index
  | _, _ => []
  end.

(** The parallel-structure invariant: as many vectors as identifiers, so
    the ordinals [0 .. n-1] are the positions of both. *)
Definition aligned (w : World) (user_id : string) : Prop :=
  length (loaded_vectors w user_id) = length (loaded_ids w user_id).

(** The memories a rebuild works on: the user's semantic memories, newest
    first, at most 100. *)
Definition semantic_memories (w : World) (user_id : string) : list models.Memory :=
  firstn 100
    (Py.sort_desc (fun m => inject_Z (models.timestamp m))
       (filter (fun m => models.memory_type m = "semantic"%string)
          (filter (fun m => models.user_id m = user_id) (db w)))).

(** What the re-stamping loop of a rebuild makes of row [r]: the memory at
    position [i] of [memories] stamps ordinal [start + i] on the rows that
    carry its identifier. *)
Fixpoint restamp_row (start : Z) (memories : list models.Memory) (r : models.Memory)
  : models.Memory :=
  match memories with
  | [] => r
  | mem :: memories' =>
      restamp_row (start + 1) memories'
        (if String.eqb (models.id r) (models.id mem)
         then with_faiss_index_id r start else r)
  end.

(** Two rows that differ at most in their [faiss_index_id] column. *)
Definition same_memory (r r' : models.Memory) : Prop :=
  models.id r' = models.id r /\
  models.user_id r' = models.user_id r /\
  models.memory_type r' = models.memory_type r /\
  models.content r' = models.content r /\
  models.timestamp r' = models.timestamp r.

(** The token measure of the design document: [ceil(len(text) / 4)]. *)
Definition tokens (text : string) : Z := (Py.len text + 3) / 4.

(** The continuation marker. *)
Definition marker : string := "...".

(** The query section of a prompt. *)
Definition query_section (user_query : string) : string :=
  Py.nl +:+ "User: " +:+ user_query +:+ Py.nl +:+ "Assistant:".

(** Tokens set aside before any section is budgeted: the system
    instruction, the query section and the safety buffer of 50. *)
Definition reserved_tokens (user_query : string) : Z :=
  prompt_builder.estimate_tokens prompt_builder.SYSTEM_INSTRUCTION
  + prompt_builder.estimate_tokens (query_section user_query) + 50.

(** A section cut to a budget the way [build_prompt] does it. *)
Definition capped (text : string) (budget : Z) : string :=
  if (prompt_builder.estimate_tokens text >? budget)%Z
  then prompt_builder.truncate_to_tokens text budget else text.

End Spec.

(** ** Sample data *)

Module Examples.

Local Open Scope Q_scope.

(** Two unit vectors of the plane; their inner product is 399/401. *)
Definition unit_x : vec := [1; 0].
Definition near_x : vec := [399 # 401; 40 # 401].

(** An embedding provider for the sample texts. *)
Definition embed_text (text : string) : vec :=
  if String.eqb text "my name, i am" then near_x else unit_x.

(** Three emotional keywords: importance 0.45. *)
Definition mem_a : models.Memory :=
  {| models.id := "a";
     models.user_id := "u";
     models.memory_type := "semantic";
     models.content := "love hate fear";
     models.importance_score :=
       memory_service.compute_importance_score "love hate fear" 1;
     models.last_accessed := 0%Z;
     models.reinforcement_count := 1;
     models.timestamp := 0%Z;
     models.faiss_index_id := Some 0%Z;
     models.session_id := None;
     models.metadata_json := [] |}.

(** Two factual patterns: importance 0.46. *)
Definition mem_b : models.Memory :=
  {| models.id := "b";
     models.user_id := "u";
     models.memory_type := "semantic";
     models.content := "my name, i am";
     models.importance_score :=
       memory_service.compute_importance_score "my name, i am" 1;
     models.last_accessed := 0%Z;
     models.reinforcement_count := 1;
     models.timestamp := 0%Z;
     models.faiss_index_id := Some 1%Z;
     models.session_id := None;
     models.metadata_json := [] |}.

(** User "u" with both memories indexed in table order. *)
Definition world : World :=
  {| db := [mem_a; mem_b];
     index_files := {[ "u"%string := {| d := 2; xb := [unit_x; near_x] |} ]};
     meta_files := {[ "u"%string := ["a"; "b"]%string ]} |}.

(** Nothing stored, nothing indexed. *)
Definition empty_world : World :=
  {| db := []; index_files := ∅; meta_files := ∅ |}.

(** Two hours after the sample memories were stamped. *)
Definition two_hours_later : datetime := 7200000000%Z.

(** A clock whose readings, from two hours after, are a millisecond
    apart. *)
Definition clock (n : nat) : datetime := (two_hours_later + 1000 * Z.of_nat n)%Z.

End Examples.

(** ** [app/memory_service.py]: memory rows *)

(** The functions that create, touch and delete rows of the memories table.
    [gen_uuid()] and the clock are read by the caller: a new row's
    identifier and the time of the call are arguments. *)
Module memory_crud.

(** The row a [Memory(...)] constructor makes, with the column defaults
    ([reinforcement_count] 1, both timestamps now). *)
Definition new_memory (new_id : string) (utcnow : datetime)
    (user_id memory_type content : string) (importance : Q)
    (session_id : option string) (faiss_index_id : option Z)
    (metadata_json : list (string * string)) : models.Memory :=
  {| models.id := new_id;
     models.user_id := user_id;
     models.memory_type := memory_type;
     models.content := content;
     models.importance_score := importance;
     models.last_accessed := utcnow;
     models.reinforcement_count := 1;
     models.timestamp := utcnow;
     models.faiss_index_id := faiss_index_id;
     models.session_id := session_id;
     models.metadata_json := metadata_json |}.

(** [db.add(mem)]: the row goes to the end of the table. *)
Definition db_add (mem : models.Memory) : M unit :=
  w <- get_world ;;
  put_world {| db := db w ++ [mem];
               index_files := index_files w;
               meta_files := meta_files w |}.

(** [db.delete(mem)]: the row of that primary key goes. *)
Definition db_delete (mem : models.Memory) : M unit :=
  w <- get_world ;;
  put_world {| db := List.filter
                       (fun r => negb (String.eqb (models.id r) (models.id mem)))
                       (db w);
               index_files := index_files w;
               meta_files := meta_files w |}.

Definition create_memory (new_id : string) (utcnow : datetime)
    (user_id memory_type content : string)
    (session_id : option string) (metadata : option (list (string * string)))
    (faiss_index_id : option Z) : M models.Memory :=
  let importance := memory_service.compute_importance_score content 1 in
  let mem := new_memory new_id utcnow user_id memory_type content importance
               session_id faiss_index_id
               (match metadata with Some md => md | None => [] end) in
  db_add mem ;;;
  db_commit ;;;
  ret mem.

Definition get_memory_by_id (memory_id user_id : string) : M (option models.Memory) :=
  query_first (fun m => String.eqb (models.id m) memory_id
                        && String.eqb (models.user_id m) user_id)%bool.

(** The row [r] after the three assignments of [update_memory_access] to
    the mapped object [memory]. *)
Definition accessed (utcnow : datetime) (memory r : models.Memory) : models.Memory :=
  let count := (models.reinforcement_count memory + 1)%Z in
  {| models.id := models.id r;
     models.user_id := models.user_id r;
     models.memory_type := models.memory_type r;
     models.content := models.content r;
     models.importance_score :=
       memory_service.compute_importance_score (models.content memory) count;
     models.last_accessed := utcnow;
     models.reinforcement_count := count;
     models.timestamp := models.timestamp r;
     models.faiss_index_id := models.faiss_index_id r;
     models.session_id := models.session_id r;
     models.metadata_json := models.metadata_json r |}.

Definition update_memory_access (utcnow : datetime) (memory : models.Memory) : M unit :=
  w <- get_world ;;
  put_world {| db := map (fun r =>
                            if String.eqb (models.id r) (models.id memory)
                            then accessed utcnow memory r else r) (db w);
               index_files := index_files w;
               meta_files := meta_files w |} ;;;
  db_commit.

Definition delete_memory (memory_id user_id : string) : M bool :=
  mem <- get_memory_by_id memory_id user_id ;;
  match mem with
  | None => ret false
  | Some mem => db_delete mem ;;; db_commit ;;; ret true
  end.

(** [content.lower()[:120]], the key near-duplicates are found by. *)
Definition content_key (content : string) : string :=
  Py.str_slice_to (Py.lower content) 120.

Definition upsert_memory_by_content (new_id : string) (utcnow : datetime)
    (user_id memory_type content : string)
    (session_id : option string) (metadata : option (list (string * string)))
  : M models.Memory :=
  w <- get_world ;;
  let existing :=
    List.filter (fun m => String.eqb (models.user_id m) user_id
                          && String.eqb (models.memory_type m) memory_type)%bool
                (db w) in
  let content_lower := content_key content in
  match find (fun mem => String.eqb (content_key (models.content mem)) content_lower)
             existing with
  | Some mem =>
      update_memory_access utcnow mem ;;;
      ret (accessed utcnow mem mem)
  | None =>
      create_memory new_id utcnow user_id memory_type content session_id metadata None
  end.

End memory_crud.

(** ** [app/retrieval.py]: storing one memory *)

Module retrieval_store.

Section Store.

Variable embed_text : string -> vec.

(** The environment: [fails mem] when reading the user's index files or
    embedding the content of [mem] raises. [add_memory_to_index] does both
    before it writes, so a call that fails leaves the world as it was.
    Failures while the files are written or the row is committed are not
    modelled. *)
Variable fails : models.Memory -> bool.

Definition embed_and_store_memory (user_id : string) (mem : models.Memory) : M unit :=
  faiss_id <- (if fails mem then raise RuntimeError
               else retrieval.add_memory_to_index embed_text user_id
                      (models.id mem) (models.content mem)) ;;
  set_faiss_index_id mem faiss_id ;;;
  db_commit.

End Store.

End retrieval_store.

(** ** [app/chat_service.py]: indexing the new memories of a chat turn *)

Module chat_indexing.

Section Indexing.

Variable embed_text : string -> vec.
Variable fails : models.Memory -> bool.

(** [try: body except Exception: pass]: what the body wrote before it
    raised stays written. *)
Definition try_pass (body : M unit) : M unit :=
  fun w =>
    match body w with
    | (Return tt, w') => (Return tt, w')
    | (Raise _, w') => (Return tt, w')
    end.

(** The last step of [process_chat_stream]: the user's semantic memories
    that have no slot yet, in table order, embedded and stored one by
    one. *)
Definition embed_new_semantic_memories (user_id : string) : M unit :=
  w <- get_world ;;
  let new_semantic_mems :=
    List.filter
      (fun m => String.eqb (models.user_id m) user_id
                && String.eqb (models.memory_type m) "semantic"
                && match models.faiss_index_id m with
                   | None => true
                   | Some _ => false
                   end)%bool
      (db w) in
  for_each new_semantic_mems
    (fun mem => try_pass
                  (retrieval_store.embed_and_store_memory embed_text fails user_id mem)).

End Indexing.

End chat_indexing.

(** ** More of Python's strings and lists *)

Module Py2.

(** [c.isspace()] on the characters of ASCII. *)
Definition isspace (c : ascii) : bool :=
  let n := nat_of_ascii c in
  (((9 <=? n) && (n <=? 13)) || ((28 <=? n) && (n <=? 32)))%nat.

Fixpoint lstrip_chars (l : list ascii) : list ascii :=
  match l with
  | [] => []
  | c :: l' => if isspace c then lstrip_chars l' else l
  end.

(** [s.strip()]. *)
Definition strip (s : string) : string :=
  string_of_list_ascii
    (rev (lstrip_chars (rev (lstrip_chars (list_ascii_of_string s))))).

(** [l[start:]]: a negative [start] counts from the end. *)
Definition list_slice_from {A} (l : list A) (start : Z) : list A :=
  if (0 <=? start)%Z then skipn (Z.to_nat start) l
  else skipn (Z.to_nat (Z.of_nat (length l) + start)) l.

(** A stable sort, smallest key first ([ORDER BY key] of a relationship). *)
Definition sort_asc {A} (key : A -> Q) (l : list A) : list A :=
  Py.sort_desc (fun a => - key a)%Q l.

End Py2.

(** ** [app/models.py]: users, sessions and messages *)

Module user_row.

Record User : Type := {
  id : string;
  username : string;
  email : string;
  hashed_password : string;
  created_at : datetime;
  is_active : bool
}.

End user_row.

Module session_row.

Record ChatSession : Type := {
  id : string;
  user_id : string;
  title : string;
  created_at : datetime;
  updated_at : datetime;
  is_active : bool
}.

End session_row.

Module message_row.

Record ChatMessage : Type := {
  id : string;
  session_id : string;
  role : string;
  content : string;
  timestamp : datetime
}.

End message_row.

(** A value of a profile column: text, a JSON list of texts or a time. *)
Inductive value : Type :=
| VStr (s : string)
| VList (l : list string)
| VTime (t : datetime).

(** The application tables next to the memories: a profile row is kept as
    the map from its column names to their values, since [update_profile]
    assigns columns by name. *)
Record AppDb : Type := {
  users : list user_row.User;
  profiles : list (gmap string value);
  sessions : list session_row.ChatSession;
  messages : list message_row.ChatMessage
}.

(** [raise HTTPException(status_code, detail)]. *)
Inductive http_error : Type :=
| HTTPException (status_code : Z) (detail : string).

Inductive response (A : Type) : Type :=
| Ok (a : A)
| Failed (e : http_error).
Arguments Ok {A} a.
Arguments Failed {A} e.

(** ** [app/chat_service.py] and [get_session_context]: sessions and turns *)

(** Identifiers ([gen_uuid()]) and the clock are arguments, as for the
    memory rows; functions take the tables and return their answer with
    the tables after the call. *)
Module chat_service.

(** [session.messages]: the session's messages, oldest first. *)
Definition messages_of (db : AppDb) (session_id : string) : list message_row.ChatMessage :=
  Py2.sort_asc (fun m => inject_Z (message_row.timestamp m))
    (List.filter (fun m => String.eqb (message_row.session_id m) session_id)
       (messages db)).

Definition get_or_create_session (new_id : string) (utcnow : datetime)
    (db : AppDb) (user_id : string) (session_id : option string)
  : session_row.ChatSession * AppDb :=
  let found :=
    match session_id with
    | Some sid =>
        if Py.truthy sid
        then find (fun s => String.eqb (session_row.id s) sid
                            && String.eqb (session_row.user_id s) user_id)%bool
                  (sessions db)
        else None
    | None => None
    end in
  match found with
  | Some session => (session, db)
  | None =>
      let session :=
        {| session_row.id := new_id;
           session_row.user_id := user_id;
           session_row.title := "New Conversation";
           session_row.created_at := utcnow;
           session_row.updated_at := utcnow;
           session_row.is_active := true |} in
      (session,
       {| users := users db;
          profiles := profiles db;
          sessions := sessions db ++ [session];
          messages := messages db |})
  end.

Definition save_message (new_id : string) (utcnow : datetime)
    (db : AppDb) (session_id role content : string)
  : message_row.ChatMessage * AppDb :=
  let msg :=
    {| message_row.id := new_id;
       message_row.session_id := session_id;
       message_row.role := role;
       message_row.content := content;
       message_row.timestamp := utcnow |} in
  (msg,
   {| users := users db;
      profiles := profiles db;
      sessions := sessions db;
      messages := messages db ++ [msg] |}).

Definition update_session_title (utcnow : datetime)
    (db : AppDb) (session : session_row.ChatSession) (first_message : string)
  : AppDb :=
  if String.eqb (session_row.title session) "New Conversation" then
    let title := Py2.strip (Py.str_slice_to first_message 60) in
    let title := if (60 <? Py.len first_message)%Z then title +:+ "..." else title in
    {| users := users db;
       profiles := profiles db;
       sessions :=
         map (fun s =>
                if String.eqb (session_row.id s) (session_row.id session)
                then {| session_row.id := session_row.id s;
                        session_row.user_id := session_row.user_id s;
                        session_row.title := title;
                        session_row.created_at := session_row.created_at s;
                        session_row.updated_at := utcnow;
                        session_row.is_active := session_row.is_active s |}
                else s) (sessions db);
       messages := messages db |}
  else db.

(** The dictionary [get_session_detail] returns; timestamps are kept as
    the [datetime] they are formatted from. *)
Record SessionDetail : Type := {
  detail_id : string;
  detail_title : string;
  detail_created_at : datetime;
  detail_messages : list message_row.ChatMessage
}.

Definition get_session_detail (db : AppDb) (session_id user_id : string)
  : option SessionDetail :=
  match find (fun s => String.eqb (session_row.id s) session_id
                       && String.eqb (session_row.user_id s) user_id)%bool
             (sessions db) with
  | None => None
  | Some session =>
      Some {| detail_id := session_row.id session;
              detail_title := session_row.title session;
              detail_created_at := session_row.created_at session;
              detail_messages := messages_of db (session_row.id session) |}
  end.

(** [memory_service.get_session_context]. *)
Definition get_session_context (db : AppDb) (session_id : string) (window : Z)
  : list message.Message :=
  match find (fun s => String.eqb (session_row.id s) session_id) (sessions db) with
  | None => []
  | Some session =>
      let messages :=
        Py2.list_slice_from (messages_of db (session_row.id session)) (- window) in
      map (fun m => {| message.role := message_row.role m;
                       message.content := message_row.content m |}) messages
  end.

End chat_service.

(** ** [app/memory_service.py]: profile rows *)

Module profile_service.

(** The row [UserProfile(user_id=..., display_name=...)] inserts, with the
    column defaults. *)
Definition new_profile (new_id : string) (utcnow : datetime)
    (user_id display_name : string) : gmap string value :=
  list_to_map
    [("id", VStr new_id);
     ("user_id", VStr user_id);
     ("display_name", VStr display_name);
     ("expertise_level", VStr "intermediate");
     ("goals", VList []);
     ("interests", VList []);
     ("preferred_language", VStr "en");
     ("personality_tags", VList []);
     ("communication_style", VStr "conversational");
     ("timezone", VStr "UTC");
     ("updated_at", VTime utcnow)]%string.

(** [UserProfile.user_id == user_id]. *)
Definition owned_by (user_id : string) (row : gmap string value) : bool :=
  match row !! "user_id"%string with
  | Some (VStr u) => String.eqb u user_id
  | _ => false
  end.

(** Two rows of the same primary key. *)
Definition same_row (a b : gmap string value) : bool :=
  match a !! "id"%string, b !! "id"%string with
  | Some (VStr x), Some (VStr y) => String.eqb x y
  | _, _ => false
  end.

Definition get_or_create_profile (new_id : string) (utcnow : datetime)
    (db : AppDb) (user_id : string) : gmap string value * AppDb :=
  match find (owned_by user_id) (profiles db) with
  | Some profile => (profile, db)
  | None =>
      let profile := new_profile new_id utcnow user_id "" in
      (profile,
       {| users := users db;
          profiles := profiles db ++ [profile];
          sessions := sessions db;
          messages := messages db |})
  end.

Definition allowed_fields : list string :=
  ["display_name"; "expertise_level"; "goals"; "interests";
   "preferred_language"; "personality_tags"; "communication_style"; "timezone"]%string.

(** [for k, v in updates.items(): if k in allowed_fields: setattr(profile, k, v)]. *)
Fixpoint apply_updates (updates : list (string * value)) (profile : gmap string value)
  : gmap string value :=
  match updates with
  | [] => profile
  | (k, v) :: rest =>
      apply_updates rest
        (if bool_decide (k ∈ allowed_fields) then <[k := v]> profile else profile)
  end.

Definition update_profile (new_id : string) (utcnow : datetime)
    (db : AppDb) (user_id : string) (updates : list (string * value))
  : gmap string value * AppDb :=
  let '(profile, db) := get_or_create_profile new_id utcnow db user_id in
  let updated := <["updated_at"%string := VTime utcnow]> (apply_updates updates profile) in
  (updated,
   {| users := users db;
      profiles := map (fun row => if same_row row profile then updated else row)
                      (profiles db);
      sessions := sessions db;
      messages := messages db |}).

End profile_service.

(** ** [app/auth.py] *)

Module auth.

Record SignupRequest : Type := {
  signup_username : string;
  signup_email : string;
  signup_password : string
}.

Record LoginRequest : Type := {
  login_username : string;
  login_password : string
}.

Record TokenResponse : Type := {
  access_token : string;
  token_type : string;
  token_user_id : string;
  token_username : string
}.

Section Auth.

(** The password hashing context and the token library. *)
Variable hash_password : string -> string.
Variable verify_password : string -> string -> bool.

(** [jwt.encode(claims + {"exp": expire}, SECRET_KEY, algorithm)]. *)
Variable jwt_encode : list (string * string) -> datetime -> string.

(** [jwt.decode(token, SECRET_KEY, algorithms)] at the time of the call:
    the text claims, or nothing when the library raises [JWTError]. *)
Variable jwt_decode : datetime -> string -> option (list (string * string)).

Definition ACCESS_TOKEN_EXPIRE_MINUTES : Z := 1440.

Definition create_access_token (utcnow : datetime) (data : list (string * string))
    (expires_delta : option Z) : string :=
  let delta := match expires_delta with
               | Some dt => dt
               | None => (ACCESS_TOKEN_EXPIRE_MINUTES * 60 * 1000000)%Z
               end in
  let expire := (utcnow + delta)%Z in
  jwt_encode data expire.

Definition credentials_exception : http_error :=
  HTTPException 401 "Could not validate credentials".

(** [payload.get(key)]. *)
Fixpoint payload_get (payload : list (string * string)) (key : string) : option string :=
  match payload with
  | [] => None
  | (k, v) :: rest => if String.eqb k key then Some v else payload_get rest key
  end.

Definition get_current_user (utcnow : datetime) (token : string) (db : AppDb)
  : response user_row.User :=
  match jwt_decode utcnow token with
  | None => Failed credentials_exception
  | Some payload =>
      match payload_get payload "sub" with
      | None => Failed credentials_exception
      | Some user_id =>
          match find (fun u => String.eqb (user_row.id u) user_id) (users db) with
          | None => Failed credentials_exception
          | Some user =>
              if negb (user_row.is_active user) then Failed credentials_exception
              else Ok user
          end
      end
  end.

Definition signup_user (new_user_id new_profile_id : string) (utcnow : datetime)
    (request : SignupRequest) (db : AppDb) : response user_row.User * AppDb :=
  match find (fun u => String.eqb (user_row.username u) (signup_username request))
             (users db) with
  | Some _ => (Failed (HTTPException 400 "Username already registered"), db)
  | None =>
      match find (fun u => String.eqb (user_row.email u) (signup_email request))
                 (users db) with
      | Some _ => (Failed (HTTPException 400 "Email already registered"), db)
      | None =>
          let user :=
            {| user_row.id := new_user_id;
               user_row.username := signup_username request;
               user_row.email := signup_email request;
               user_row.hashed_password := hash_password (signup_password request);
               user_row.created_at := utcnow;
               user_row.is_active := true |} in
          let profile :=
            profile_service.new_profile new_profile_id utcnow
              (user_row.id user) (signup_username request) in
          (Ok user,
           {| users := users db ++ [user];
              profiles := profiles db ++ [profile];
              sessions := sessions db;
              messages := messages db |})
      end
  end.

Definition login_user (utcnow : datetime) (request : LoginRequest) (db : AppDb)
  : response TokenResponse :=
  match find (fun u => String.eqb (user_row.username u) (login_username request))
             (users db) with
  | None => Failed (HTTPException 401 "Invalid credentials")
  | Some user =>
      if negb (verify_password (login_password request) (user_row.hashed_password user))
      then Failed (HTTPException 401 "Invalid credentials")
      else
        let token := create_access_token utcnow [("sub"%string, user_row.id user)] None in
        Ok {| access_token := token;
              token_type := "bearer";
              token_user_id := user_row.id user;
              token_username := user_row.username user |}
  end.

End Auth.

End auth.

(** ** [app/memory_service.py]: fact extraction *)

Module fact_extraction.

Section Extraction.

(** [re.findall(pattern, text)] for a pattern with one group: the texts the
    group matched, in order. *)
Variable findall : string -> string -> list string.

Definition IDENTITY_PATTERNS : list string :=
  ["my name is (.+?)[\.\,\!]";
   "i(?:'m| am) (.+?)[\.\,\!]";
   "i work (?:at|for|as) (.+?)[\.\,\!]";
   "i live in (.+?)[\.\,\!]";
   "i(?:'m| am) studying (.+?)[\.\,\!]";
   "i(?:'m| am) learning (.+?)[\.\,\!]";
   "my (?:goal|dream|aim) is (.+?)[\.\,\!]";
   "i (?:love|hate|enjoy|prefer) (.+?)[\.\,\!]";
   "i(?:'ve| have) (?:been|worked) (.+?)[\.\,\!]"]%string.

Definition PREFERENCE_KEYWORDS : list string :=
  ["i prefer"; "i like"; "i dislike"; "i want"; "i need"]%string.

(** One pattern on one message: the message is a fact, once, if some match
    has more than three characters when stripped. *)
Definition pattern_facts (content lower pattern : string) : list string :=
  let matches := findall pattern lower in
  if existsb (fun m => (3 <? Py.len (Py2.strip m))%Z) matches
  then [Py2.strip content] else [].

(** The facts one message contributes, in the order they are appended. *)
Definition message_facts (msg : message.Message) : list string :=
  if negb (String.eqb (message.role msg) "user") then []
  else
    let content := message.content msg in
    let lower := Py.lower content in
    flat_map (pattern_facts content lower) IDENTITY_PATTERNS
    ++ (if existsb (fun kw => Py.contains kw lower) PREFERENCE_KEYWORDS
        then if (Py.len content <? 500)%Z then [Py2.strip content] else []
        else []).

(** [f[:80].lower()]. *)
Definition fact_key (f : string) : string := Py.lower (Py.str_slice_to f 80).

(** The deduplication loop, with the set of keys seen so far. *)
Fixpoint unique_facts (seen : gset string) (facts : list string) : list string :=
  match facts with
  | [] => []
  | f :: rest =>
      let key := fact_key f in
      if bool_decide (key ∈ seen) then unique_facts seen rest
      else f :: unique_facts ({[key]} ∪ seen) rest
  end.

Definition extract_facts_from_conversation (messages : list message.Message)
  : list string :=
  let facts := flat_map message_facts messages in
  Py.list_slice_to (unique_facts ∅ facts) 10.

End Extraction.

End fact_extraction.

(** ** [app/analytics.py] *)

Module analytics.

Local Open Scope Z_scope.

Record Overview : Type := {
  total_sessions : Z;
  total_messages : Z;
  recent_messages_7d : Z;
  total_memories : Z;
  avg_importance_score : Q;
  profile_completeness_pct : Z
}.

Record TopMemory : Type := {
  top_id : string;
  top_content : string;
  top_memory_type : string;
  top_importance_score : Q;
  top_reinforcement_count : Z
}.

(** The dictionary [get_user_metrics] returns; a day is kept as the
    [datetime] its date is formatted from. *)
Record Metrics : Type := {
  overview : Overview;
  memory_breakdown : list (string * Z);
  top_memories : list TopMemory;
  sessions_per_day_30d : list (datetime * Z)
}.

(** [func.count(...)] over the rows that pass a filter. *)
Definition count {A} (p : A -> bool) (l : list A) : Z :=
  Z.of_nat (length (List.filter p l)).

(** [timedelta(days=n)] in microseconds. *)
Definition days (n : Z) : Z := n * 86400000000.

(** [int(x)]: towards zero. *)
Definition py_int (x : Q) : Z := Z.quot (Qnum x) (Z.pos (Qden x)).

(** [func.avg(column)]: nothing over no rows. *)
Definition avg (values : list Q) : option Q :=
  match values with
  | [] => None
  | _ => Some (fold_right Qplus 0%Q values / inject_Z (Z.of_nat (length values)))%Q
  end.

(** Truth of a column value. *)
Definition value_truthy (v : option value) : bool :=
  match v with
  | Some (VStr s0) => Py.truthy s0
  | Some (VList l) => match l with [] => false | _ => true end
  | Some (VTime _) => true
  | None => false
  end.

(** [column != text]. *)
Definition value_differs (v : option value) (text : string) : bool :=
  match v with
  | Some (VStr s0) => negb (String.eqb s0 text)
  | _ => true
  end.

Definition MEMORY_TYPES : list string :=
  ["session"; "episodic"; "semantic"; "profile"]%string.

(** The clock is read twice: [utcnow] for the last seven days, [utcnow']
    for the last thirty. *)
Definition get_user_metrics (utcnow utcnow' : datetime) (memories : list models.Memory)
    (db : AppDb) (user_id : string) : Metrics :=
  let total_sessions :=
    count (fun s => String.eqb (session_row.user_id s) user_id) (sessions db) in
  let joined :=
    flat_map (fun m =>
                map (fun s => (m, s))
                    (List.filter
                       (fun s => String.eqb (message_row.session_id m) (session_row.id s))
                       (sessions db)))
             (messages db) in
  let total_messages :=
    count (fun ms => String.eqb (session_row.user_id (snd ms)) user_id) joined in
  let week_ago := utcnow - days 7 in
  let recent_messages :=
    count (fun ms => String.eqb (session_row.user_id (snd ms)) user_id
                     && (week_ago <=? message_row.timestamp (fst ms)))%bool joined in
  let memory_counts :=
    map (fun mtype =>
           (mtype,
            count (fun m => String.eqb (models.user_id m) user_id
                            && String.eqb (models.memory_type m) mtype)%bool memories))
        MEMORY_TYPES in
  let total_memories := fold_right Z.add 0 (map snd memory_counts) in
  let avg_importance :=
    avg (map models.importance_score
           (List.filter (fun m => String.eqb (models.user_id m) user_id) memories)) in
  let avg_importance :=
    match avg_importance with
    | Some a => if Qeq_bool a 0 then 0%Q else round4 a
    | None => 0%Q
    end in
  let top_memories :=
    firstn 5
      (Py.sort_desc (fun m => inject_Z (models.reinforcement_count m))
         (List.filter (fun m => String.eqb (models.user_id m) user_id) memories)) in
  let profile := find (profile_service.owned_by user_id) (profiles db) in
  let profile_completeness :=
    match profile with
    | None => 0
    | Some profile =>
        let fields :=
          [value_truthy (profile !! "display_name"%string);
           value_differs (profile !! "expertise_level"%string) "intermediate";
           value_truthy (profile !! "goals"%string);
           value_truthy (profile !! "interests"%string);
           value_differs (profile !! "communication_style"%string) "conversational"] in
        py_int ((inject_Z (Z.of_nat (length (List.filter (fun f => f) fields)))
                 / inject_Z (Z.of_nat (length fields))) * 100)%Q
    end in
  let month_ago := utcnow' - days 30 in
  let sessions_per_day :=
    map (fun i =>
           let day_start := month_ago + days i in
           let day_end := day_start + days 1 in
           (day_start,
            count (fun s => String.eqb (session_row.user_id s) user_id
                            && (day_start <=? session_row.created_at s)
                            && (session_row.created_at s <? day_end))%bool
                  (sessions db)))
        (map Z.of_nat (seq 0 30)) in
  {| overview :=
       {| total_sessions := total_sessions;
          total_messages := total_messages;
          recent_messages_7d := recent_messages;
          total_memories := total_memories;
          avg_importance_score := avg_importance;
          profile_completeness_pct := profile_completeness |};
     memory_breakdown := memory_counts;
     top_memories :=
       map (fun m =>
              {| top_id := models.id m;
                 top_content :=
                   Py.str_slice_to (models.content m) 100
                   +:+ (if 100 <? Py.len (models.content m) then "..." else "");
                 top_memory_type := models.memory_type m;
                 top_importance_score := models.importance_score m;
                 top_reinforcement_count := models.reinforcement_count m |})
           top_memories;
     sessions_per_day_30d := sessions_per_day |}.

End analytics.

(** ** Vocabulary for the remaining functions *)

Module Laws.

(** The data-model invariant of a row: its importance is the importance
    function of its content and reinforcement count. *)
Definition importance_consistent (r : models.Memory) : Prop :=
  models.importance_score r
  = memory_service.compute_importance_score
      (models.content r) (models.reinforcement_count r).

(** Identifiers are primary keys: no two rows share one. *)
Definition unique_ids (w : World) : Prop :=
  NoDup (map models.id (db w)).

(** A near-duplicate of [content] among a user's memories of one type:
    same owner, same type, same lower-cased first 120 characters. *)
Definition near_duplicate (user_id memory_type content : string) (r : models.Memory)
  : bool :=
  (String.eqb (models.user_id r) user_id
   && String.eqb (models.memory_type r) memory_type
   && String.eqb (memory_crud.content_key (models.content r))
                 (memory_crud.content_key content))%bool.

(** The rows [get_memories_by_user] selects from: the user's, of the given
    type when one is given and it is not the empty string. *)
Definition selected (user_id : string) (memory_type : option string)
    (m : models.Memory) : Prop :=
  models.user_id m = user_id /\
  match memory_type with
  | Some t => t = EmptyString \/ models.memory_type m = t
  | None => True
  end.

#[global] Instance selected_dec user_id memory_type m :
  Decision (selected user_id memory_type m).
Proof. unfold selected. destruct memory_type; apply _. Defined.

(** A semantic memory of the user that no slot has been given to. *)
Definition unindexed (user_id : string) (m : models.Memory) : bool :=
  (String.eqb (models.user_id m) user_id
   && String.eqb (models.memory_type m) "semantic"
   && match models.faiss_index_id m with
      | None => true
      | Some _ => false
      end)%bool.

(** A semantic memory of the user. *)
Definition semantic_of (user_id : string) (m : models.Memory) : Prop :=
  models.user_id m = user_id /\ models.memory_type m = "semantic"%string.

#[global] Instance semantic_of_dec user_id m : Decision (semantic_of user_id m).
Proof. unfold semantic_of. apply _. Defined.

(** The profile with its interests cut to the first five and its goals to
    the first three. *)
Definition clipped_profile (p : models.UserProfile) : models.UserProfile :=
  {| models.display_name := models.display_name p;
     models.expertise_level := models.expertise_level p;
     models.communication_style := models.communication_style p;
     models.interests := firstn 5 (models.interests p);
     models.goals := firstn 3 (models.goals p) |}.

(** A profile none of whose five summarised fields is set. *)
Definition blank_profile (p : models.UserProfile) : Prop :=
  models.display_name p = EmptyString /\
  models.expertise_level p = EmptyString /\
  models.communication_style p = EmptyString /\
  models.interests p = [] /\
  models.goals p = [].

(** The turn a stored message is handed to the prompt as. *)
Definition turn_of (m : message_row.ChatMessage) : message.Message :=
  {| message.role := message_row.role m;
     message.content := message_row.content m |}.

(** The session row of identifier [session_id] exists. *)
Definition session_exists (db : AppDb) (session_id : string) : Prop :=
  exists s, s ∈ sessions db /\ session_row.id s = session_id.

(** The value the last binding of [key] in [updates] gives it. *)
Fixpoint last_binding (updates : list (string * value)) (key : string) : option value :=
  match updates with
  | [] => None
  | (k, v) :: rest =>
      match last_binding rest key with
      | Some v' => Some v'
      | None => if String.eqb k key then Some v else None
      end
  end.

(** User names and e-mail addresses are unique. *)
Definition unique_names (db : AppDb) : Prop :=
  NoDup (map user_row.username (users db)) /\
  NoDup (map user_row.email (users db)).

(** One of the four memory types the metrics count. *)
Definition known_type (memory_type : string) : bool :=
  (String.eqb memory_type "session" || String.eqb memory_type "episodic"
   || String.eqb memory_type "semantic" || String.eqb memory_type "profile")%bool.

(** How many of the five fields the completeness figure looks at are set:
    a display name, an expertise level other than "intermediate", goals,
    interests, a communication style other than "conversational". *)
Definition fields_set (profile : gmap string value) : Z :=
  Z.b2z (analytics.value_truthy (profile !! "display_name"%string))
  + Z.b2z (analytics.value_differs (profile !! "expertise_level"%string) "intermediate")
  + Z.b2z (analytics.value_truthy (profile !! "goals"%string))
  + Z.b2z (analytics.value_truthy (profile !! "interests"%string))
  + Z.b2z (analytics.value_differs (profile !! "communication_style"%string)
             "conversational").

End Laws.

(** ** More sample data *)

Module Samples.

(** A third memory of user "u", which no slot has been given to. *)
Definition mem_c : models.Memory :=
  {| models.id := "c";
     models.user_id := "u";
     models.memory_type := "semantic";
     models.content := "i like tea";
     models.importance_score :=
       memory_service.compute_importance_score "i like tea" 1;
     models.last_accessed := 0%Z;
     models.reinforcement_count := 1;
     models.timestamp := 0%Z;
     models.faiss_index_id := None;
     models.session_id := None;
     models.metadata_json := [] |}.

(** The sample world after a chat turn stored [mem_c]. *)
Definition world_after_turn : World :=
  {| db := [Examples.mem_a; Examples.mem_b; mem_c];
     index_files := index_files Examples.world;
     meta_files := meta_files Examples.world |}.

(** A newer semantic memory of user "u": a rebuild puts it first. *)
Definition mem_d : models.Memory :=
  {| models.id := "d";
     models.user_id := "u";
     models.memory_type := "semantic";
     models.content := "i want a dog";
     models.importance_score :=
       memory_service.compute_importance_score "i want a dog" 1;
     models.last_accessed := 3600000000%Z;
     models.reinforcement_count := 1;
     models.timestamp := 3600000000%Z;
     models.faiss_index_id := None;
     models.session_id := None;
     models.metadata_json := [] |}.

Definition world_with_newer : World :=
  {| db := [Examples.mem_a; Examples.mem_b; mem_d];
     index_files := index_files Examples.world;
     meta_files := meta_files Examples.world |}.

(** A second memory without a slot, which the embedding model rejects. *)
Definition mem_e : models.Memory :=
  {| models.id := "e";
     models.user_id := "u";
     models.memory_type := "semantic";
     models.content := "i need rest";
     models.importance_score :=
       memory_service.compute_importance_score "i need rest" 1;
     models.last_accessed := 0%Z;
     models.reinforcement_count := 1;
     models.timestamp := 0%Z;
     models.faiss_index_id := None;
     models.session_id := None;
     models.metadata_json := [] |}.

Definition world_after_two_turns : World :=
  {| db := [Examples.mem_a; Examples.mem_b; mem_e; mem_c];
     index_files := index_files Examples.world;
     meta_files := meta_files Examples.world |}.

Definition rejects (mem : models.Memory) : bool :=
  String.eqb (models.content mem) "i need rest".

(** A profile, a ranked memory and a session history of eight turns for
    the prompt assembler. *)
Definition profile : models.UserProfile :=
  {| models.display_name := "Alice";
     models.expertise_level := "expert";
     models.communication_style := "concise";
     models.interests := ["tea"; "chess"]%string;
     models.goals := ["learn Rocq"]%string |}.

Definition ranked_memory : candidate.Candidate :=
  {| candidate.id := "a";
     candidate.content := "love hate fear";
     candidate.memory_type := "semantic";
     candidate.importance_score := 45 # 100;
     candidate.semantic_similarity := 1;
     candidate.recency_score := 85 # 100;
     candidate.composite_score := 715 # 1000;
     candidate.timestamp := 0%Z;
     candidate.reinforcement_count := 1 |}.

Definition long_session : list message.Message :=
  repeat {| message.role := "user";
            message.content := "0123456789012345678901234567890123456789" |} 8.

(** A password context that tags the password, and a token library whose
    token is the subject it was made for. *)
Definition hash_password (password : string) : string := "h:" +:+ password.

Definition verify_password (plain hashed : string) : bool :=
  String.eqb hashed (hash_password plain).

Definition jwt_encode (claims : list (string * string)) (expire : datetime) : string :=
  match claims with
  | (_, subject) :: _ => subject
  | [] => EmptyString
  end.

Definition jwt_decode (utcnow : datetime) (token : string)
  : option (list (string * string)) :=
  Some [("sub"%string, token)].

(** A pattern matcher that finds nothing. *)
Definition findall (pattern text : string) : list string := [].

Definition alice : user_row.User :=
  {| user_row.id := "u1";
     user_row.username := "alice";
     user_row.email := "alice@example.org";
     user_row.hashed_password := hash_password "secret";
     user_row.created_at := 0%Z;
     user_row.is_active := true |}.

Definition bob : user_row.User :=
  {| user_row.id := "u2";
     user_row.username := "bob";
     user_row.email := "bob@example.org";
     user_row.hashed_password := hash_password "hunter2";
     user_row.created_at := 50%Z;
     user_row.is_active := true |}.

Definition bob_request : auth.SignupRequest :=
  {| auth.signup_username := "bob";
     auth.signup_email := "bob@example.org";
     auth.signup_password := "hunter2" |}.

Definition session1 : session_row.ChatSession :=
  {| session_row.id := "s1";
     session_row.user_id := "u1";
     session_row.title := "New Conversation";
     session_row.created_at := 0%Z;
     session_row.updated_at := 0%Z;
     session_row.is_active := true |}.

Definition message1 : message_row.ChatMessage :=
  {| message_row.id := "m1";
     message_row.session_id := "s1";
     message_row.role := "user";
     message_row.content := "hello";
     message_row.timestamp := 10%Z |}.

Definition message2 : message_row.ChatMessage :=
  {| message_row.id := "m2";
     message_row.session_id := "s1";
     message_row.role := "assistant";
     message_row.content := "hi";
     message_row.timestamp := 20%Z |}.

(** One user with her profile, one session, two turns. *)
Definition app_db : AppDb :=
  {| users := [alice];
     profiles := [profile_service.new_profile "p1" 0%Z "u1" "alice"];
     sessions := [session1];
     messages := [message1; message2] |}.

End Samples.

(** * Properties *)

(** ** Rounding and comparison *)

Ltac Qcompare_hyps :=
  repeat match goal with
  | H : (_ ?= _)%Q = Eq |- _ => apply Qeq_alt in H
  | H : (_ ?= _)%Q = Lt |- _ => rewrite <- Qlt_alt in H
  | H : (_ ?= _)%Q = Gt |- _ => rewrite <- Qgt_alt in H
  end.

Lemma Qltb_lt a b : Qltb a b = true <-> (a < b)%Q.
Proof.
  unfold Qltb. rewrite negb_true_iff, <- not_true_iff_false, Qle_bool_iff.
  split; [apply Qnot_le_lt | apply Qlt_not_le].
Qed.

Lemma Qltb_ge a b : Qltb a b = false <-> (b <= a)%Q.
Proof.
  unfold Qltb. rewrite negb_false_iff. apply Qle_bool_iff.
Qed.

Lemma round_half_even_bounds q :
  (Qfloor q <= round_half_even q <= Qfloor q + 1)%Z.
Proof.
  unfold round_half_even.
  destruct (_ ?= _)%Q; [destruct (Z.even _) | |]; lia.
Qed.

Lemma round_half_even_mono p q :
  (p <= q)%Q -> (round_half_even p <= round_half_even q)%Z.
Proof.
  intros Hpq. pose proof (Qfloor_resp_le _ _ Hpq) as Hf.
  destruct (Z.eq_dec (Qfloor p) (Qfloor q)) as [Heq | Hne].
  - unfold round_half_even. rewrite Heq.
    destruct (p - inject_Z (Qfloor q) ?= 1 # 2)%Q eqn:Hp;
      destruct (q - inject_Z (Qfloor q) ?= 1 # 2)%Q eqn:Hq;
      try destruct (Z.even (Qfloor q)); try lia; exfalso;
      Qcompare_hyps; lra.
  - pose proof (round_half_even_bounds p). pose proof (round_half_even_bounds q).
    lia.
Qed.

Lemma round_half_even_Z z : round_half_even (inject_Z z) = z.
Proof.
  unfold round_half_even. rewrite Qfloor_Z.
  assert (H : (inject_Z z - inject_Z z ?= 1 # 2)%Q = Lt).
  { rewrite <- Qlt_alt. lra. }
  now rewrite H.
Qed.

Lemma round_half_even_comp p q : p == q -> round_half_even p = round_half_even q.
Proof.
  intros H. apply Z.le_antisymm; apply round_half_even_mono; lra.
Qed.

Lemma round4_mono p q : (p <= q)%Q -> (round4 p <= round4 q)%Q.
Proof.
  intros H. unfold round4, Qle. simpl.
  apply Z.mul_le_mono_nonneg_r; [lia |].
  apply round_half_even_mono. lra.
Qed.

Lemma round4_comp p q : p == q -> round4 p == round4 q.
Proof.
  intros H. unfold round4.
  rewrite (round_half_even_comp (p * 10000) (q * 10000)); [reflexivity | lra].
Qed.

(** A value that already has at most four decimals is left alone. *)
Lemma round4_fixed z : round4 (z # 10000) == z # 10000.
Proof.
  unfold round4.
  rewrite (round_half_even_comp _ (inject_Z z)); [now rewrite round_half_even_Z |].
  unfold Qeq, inject_Z. simpl. lia.
Qed.

Lemma round4_0 : round4 0 == 0.
Proof. apply (round4_fixed 0). Qed.

Lemma round4_1 : round4 1 == 1.
Proof. rewrite (round4_comp 1 (10000 # 10000)) by reflexivity. now rewrite round4_fixed. Qed.

Lemma Qmin_range a b : (0 <= a)%Q -> (0 <= b)%Q -> (0 <= Qmin a b <= b)%Q.
Proof.
  intros Ha Hb. split; [apply Q.min_glb; assumption | apply Q.le_min_r].
Qed.

(** ** Rounding to the nearest double *)

Section Binary64.

Import binary64.
Local Open Scope Q_scope.

Lemma pow2_pos e : 0 < 2 ^ e.
Proof. apply Qpower_0_lt. reflexivity. Qed.

Lemma pow2_plus a b : 2 ^ (a + b) == 2 ^ a * 2 ^ b.
Proof. apply Qpower_plus. discriminate. Qed.

Lemma pow2_le a b : (a <= b)%Z -> 2 ^ a <= 2 ^ b.
Proof. intros H. apply Qpower_le_compat_l; [exact H | discriminate]. Qed.

Lemma pow2_lt_inv a b : 2 ^ a < 2 ^ b -> (a < b)%Z.
Proof. intros H. apply (Qpower_lt_compat_l_inv 2); [exact H | reflexivity]. Qed.

Lemma pow2_Z n : (0 <= n)%Z -> inject_Z (2 ^ n) == 2 ^ n.
Proof. intros H. now rewrite Zpower_Qpower. Qed.

(** The binade of a positive rational holds it. *)
Lemma binade_spec x : 0 < x -> 2 ^ binade x <= x < 2 ^ (binade x + 1).
Proof.
  intros Hx. destruct x as [n d]. unfold binade. cbn [Qnum Qden].
  assert (Hn : (0 < n)%Z) by (unfold Qlt in Hx; cbn in Hx; lia).
  set (a := Z.log2 n). set (b := Z.log2 (Z.pos d)).
  destruct (Z.log2_spec n Hn) as [Ha1 Ha2]. fold a in Ha1, Ha2.
  destruct (Z.log2_spec (Z.pos d) ltac:(lia)) as [Hb1 Hb2]. fold b in Hb1, Hb2.
  assert (Ha0 : (0 <= a)%Z) by apply Z.log2_nonneg.
  assert (Hb0 : (0 <= b)%Z) by apply Z.log2_nonneg.
  assert (Hx' : n # d == inject_Z n / inject_Z (Z.pos d)).
  { rewrite Qmake_Qdiv. reflexivity. }
  assert (Hd : 0 < inject_Z (Z.pos d)) by (unfold Qlt; cbn; lia).
  assert (Hlow : 2 ^ (a - b - 1) < n # d).
  { rewrite Hx'. apply Qlt_shift_div_l; [exact Hd |].
    apply Qlt_le_trans with (2 ^ (a - b - 1) * 2 ^ (b + 1)).
    - apply Qmult_lt_l; [apply pow2_pos |].
      rewrite <- pow2_Z by lia. rewrite <- Zlt_Qlt. replace (b + 1)%Z with (Z.succ b) by lia.
      exact Hb2.
    - rewrite <- pow2_plus. replace (a - b - 1 + (b + 1))%Z with a by lia.
      rewrite <- pow2_Z by lia. now rewrite <- Zle_Qle. }
  assert (Hhigh : n # d < 2 ^ (a - b + 1)).
  { rewrite Hx'. apply Qlt_shift_div_r; [exact Hd |].
    apply Qlt_le_trans with (2 ^ (a + 1)).
    - rewrite <- pow2_Z by lia. rewrite <- Zlt_Qlt. replace (a + 1)%Z with (Z.succ a) by lia.
      exact Ha2.
    - replace (a + 1)%Z with (a - b + 1 + b)%Z by lia. rewrite pow2_plus.
      apply Qmult_le_l; [apply pow2_pos |].
      rewrite <- pow2_Z by lia. now rewrite <- Zle_Qle. }
  destruct (Qle_bool (2 ^ (a - b)) (n # d)) eqn:E.
  - apply Qle_bool_iff in E. split; [exact E | exact Hhigh].
  - assert (Hlt : n # d < 2 ^ (a - b)).
    { apply Qnot_le_lt. intros H. apply Qle_bool_iff in H. congruence. }
    split; [apply Qlt_le_weak; exact Hlow |].
    now replace (a - b - 1 + 1)%Z with (a - b)%Z by lia.
Qed.

Lemma binade_mono x y : 0 < x -> x <= y -> (binade x <= binade y)%Z.
Proof.
  intros Hx Hxy.
  destruct (binade_spec x Hx) as [Hx1 _].
  destruct (binade_spec y ltac:(lra)) as [_ Hy2].
  assert (H : 2 ^ binade x < 2 ^ (binade y + 1)) by lra.
  apply pow2_lt_inv in H. lia.
Qed.

Lemma nearest_pos_bounds x :
  0 < x ->
  0 <= nearest_pos x <= 2 ^ (Z.max (binade x) (-1022) + 1) /\
  ((-1022 <= binade x)%Z -> 2 ^ binade x <= nearest_pos x).
Proof.
  intros Hx. unfold nearest_pos. cbv zeta.
  destruct (binade_spec x Hx) as [Hlo Hhi].
  set (E := Z.max (binade x) (-1022)).
  set (u := 2 ^ (E - 52)).
  assert (Hu : 0 < u) by apply pow2_pos.
  assert (Hq0 : 0 <= x / u) by (apply Qle_shift_div_l; [exact Hu | lra]).
  assert (Hq53 : x / u <= inject_Z (2 ^ 53)).
  { apply Qle_shift_div_r; [exact Hu |].
    rewrite pow2_Z by lia. unfold u. rewrite <- pow2_plus.
    apply Qle_trans with (2 ^ (binade x + 1)); [lra |].
    apply pow2_le. lia. }
  assert (Hm0 : (0 <= round_half_even (x / u))%Z).
  { rewrite <- (round_half_even_Z 0). now apply round_half_even_mono. }
  assert (Hm53 : (round_half_even (x / u) <= 2 ^ 53)%Z).
  { rewrite <- (round_half_even_Z (2 ^ 53)). now apply round_half_even_mono. }
  split; [split |].
  - apply Qmult_le_0_compat; [| lra]. now rewrite <- (Zle_Qle 0).
  - apply Qle_trans with (inject_Z (2 ^ 53) * u).
    + apply Qmult_le_r; [exact Hu |]. now rewrite <- Zle_Qle.
    + rewrite pow2_Z by lia. unfold u. rewrite <- pow2_plus.
      apply pow2_le. lia.
  - intros Hn. assert (HE : E = binade x) by (unfold E; lia).
    assert (Hq52 : inject_Z (2 ^ 52) <= x / u).
    { apply Qle_shift_div_l; [exact Hu |].
      rewrite pow2_Z by lia. unfold u. rewrite <- pow2_plus.
      rewrite HE. now replace (52 + (binade x - 52))%Z with (binade x) by lia. }
    assert (Hm52 : (2 ^ 52 <= round_half_even (x / u))%Z).
    { rewrite <- (round_half_even_Z (2 ^ 52)) at 1. now apply round_half_even_mono. }
    apply Qle_trans with (inject_Z (2 ^ 52) * u).
    + rewrite pow2_Z by lia. unfold u. rewrite <- pow2_plus.
      rewrite HE. apply pow2_le. lia.
    + apply Qmult_le_r; [exact Hu |]. now rewrite <- Zle_Qle.
Qed.

Lemma nearest_pos_mono x y : 0 < x -> x <= y -> nearest_pos x <= nearest_pos y.
Proof.
  intros Hx Hxy. assert (Hy : 0 < y) by lra.
  pose proof (binade_mono x y Hx Hxy) as Hb.
  destruct (nearest_pos_bounds x Hx) as [[_ Hxu] _].
  destruct (nearest_pos_bounds y Hy) as [_ Hyl].
  destruct (Z.eq_dec (Z.max (binade x) (-1022)) (Z.max (binade y) (-1022))) as [He | Hne].
  - unfold nearest_pos. cbv zeta. rewrite He.
    set (u := 2 ^ (Z.max (binade y) (-1022) - 52)).
    assert (Hu : 0 < u) by apply pow2_pos.
    apply Qmult_le_r; [exact Hu |]. rewrite <- Zle_Qle.
    apply round_half_even_mono.
    apply Qle_shift_div_l; [exact Hu |].
    assert (Heq : x / u * u == x) by (field; lra). lra.
  - assert (Hlt : (Z.max (binade x) (-1022) + 1 <= binade y)%Z) by lia.
    apply Qle_trans with (2 ^ (Z.max (binade x) (-1022) + 1)); [exact Hxu |].
    apply Qle_trans with (2 ^ binade y); [now apply pow2_le | apply Hyl; lia].
Qed.

Lemma nearest_pos_nonneg x : 0 < x -> 0 <= nearest_pos x.
Proof. intros Hx. now destruct (nearest_pos_bounds x Hx) as [[H _] _]. Qed.

(** Rounding to the nearest double is monotone. *)
Lemma fl_mono x y : x <= y -> fl x <= fl y.
Proof.
  intros Hxy. unfold fl.
  destruct (x ?= 0) eqn:Ex; destruct (y ?= 0) eqn:Ey; Qcompare_hyps;
    try lra.
  - pose proof (nearest_pos_nonneg y Ey). lra.
  - pose proof (nearest_pos_nonneg (- x) ltac:(lra)). lra.
  - apply Qopp_le_compat. apply nearest_pos_mono; lra.
  - pose proof (nearest_pos_nonneg (- x) ltac:(lra)).
    pose proof (nearest_pos_nonneg y Ey). lra.
  - apply nearest_pos_mono; lra.
Qed.

Lemma fl_comp x y : x == y -> fl x == fl y.
Proof. intros H. apply Qle_antisym; apply fl_mono; lra. Qed.


Example fl_tenth : fl (1 # 10) == 3602879701896397 # 36028797018963968.
Proof. vm_compute. reflexivity. Qed.

(** The sum [0.1 + 0.2] on doubles is not the double nearest to 0.3. *)
Example add_tenth_fifth :
  add (1 # 10) (2 # 10) == 1351079888211149 # 4503599627370496 /\
  ~ add (1 # 10) (2 # 10) == fl (3 # 10).
Proof. split; vm_compute; [reflexivity | discriminate]. Qed.

End Binary64.

(** ** The Python helpers on small inputs *)

Example slice_negative_stop : Py.str_slice_to "abcdefghij" (-4) = "abcdef"%string.
Proof. reflexivity. Qed.

Example slice_stop_beyond_start : Py.str_slice_to "abc" (-7) = ""%string.
Proof. reflexivity. Qed.

Example getitem_from_the_end :
  fst (list_getitem ["a"; "b"; "c"]%string (-1) Examples.empty_world) = Return "c"%string.
Proof. reflexivity. Qed.

Example getitem_out_of_range :
  fst (list_getitem ["a"; "b"; "c"]%string 3 Examples.empty_world) = Raise IndexError.
Proof. reflexivity. Qed.

Example sort_desc_keeps_ties_in_order :
  Py.sort_desc fst [(1 # 2, "a"); (3 # 4, "b"); (1 # 2, "c"); (3 # 4, "d")]%string
  = [(3 # 4, "b"); (3 # 4, "d"); (1 # 2, "a"); (1 # 2, "c")]%string.
Proof. reflexivity. Qed.

Example round4_down : round4 (123449 # 1000000) = 1234 # 10000.
Proof. reflexivity. Qed.

Example round4_up : round4 (123451 # 1000000) = 1235 # 10000.
Proof. reflexivity. Qed.

Example hits_emotional :
  memory_service.hits memory_service.EMOTIONAL_KEYWORDS
    (Py.lower "I need to Remember. Never!") = 3%Z.
Proof. reflexivity. Qed.

Example estimate_tokens_of_empty : prompt_builder.estimate_tokens "" = 1%Z.
Proof. reflexivity. Qed.

Example truncate_within_budget :
  prompt_builder.truncate_to_tokens "abcdefghij" 3 = "abcdefghij"%string.
Proof. reflexivity. Qed.

Example truncate_over_budget :
  prompt_builder.truncate_to_tokens "abcdefghij" 2 = "abcdefgh..."%string.
Proof. reflexivity. Qed.

Example truncate_negative_budget :
  prompt_builder.truncate_to_tokens "abcdefghij" (-1) = "abcdef..."%string.
Proof. reflexivity. Qed.

Example system_instruction_length :
  Py.len prompt_builder.SYSTEM_INSTRUCTION = 362%Z.
Proof. reflexivity. Qed.

(** ** Relevance scorer *)

Section Scorer.

Import memory_service Spec.
Local Open Scope Q_scope.

Lemma age_tenths utcnow tenths :
  age_hours utcnow (tenths_of_hour_before utcnow tenths) == tenths # 10.
Proof.
  unfold age_hours, tenths_of_hour_before, total_seconds.
  replace (utcnow - (utcnow - tenths * 360000000))%Z with (tenths * 360000000)%Z by lia.
  unfold Qdiv, Qeq, Qmult, Qinv. simpl. lia.
Qed.

Ltac recency_cases :=
  unfold compute_recency_score; fold_age;
  repeat match goal with
  | |- context [Qltb ?a ?b] =>
      let H := fresh "H" in
      destruct (Qltb a b) eqn:H;
      [apply Qltb_lt in H | apply Qltb_ge in H]
  end
with fold_age :=
  repeat match goal with
  | |- context [total_seconds (?n - ?t) / 3600] =>
      change (total_seconds (n - t) / 3600) with (age_hours n t)
  end.

Lemma recency_is_step utcnow timestamp :
  recency_step (age_hours utcnow timestamp) (compute_recency_score utcnow timestamp).
Proof.
  unfold recency_step.
  repeat split; intros; recency_cases; try reflexivity; exfalso; lra.
Qed.

Lemma recency_antitone now1 ts1 now2 ts2 :
  age_hours now1 ts1 <= age_hours now2 ts2 ->
  compute_recency_score now2 ts2 <= compute_recency_score now1 ts1.
Proof.
  intros Hage.
  destruct (recency_is_step now1 ts1) as (A1 & A2 & A3 & A4 & A5 & A6).
  destruct (recency_is_step now2 ts2) as (B1 & B2 & B3 & B4 & B5 & B6).
  set (a := age_hours now1 ts1) in *. set (b := age_hours now2 ts2) in *.
  assert (Ha : a < 1 \/ 1 <= a < 24 \/ 24 <= a < 168 \/ 168 <= a < 720
               \/ 720 <= a < 8760 \/ 8760 <= a).
  { destruct (Qlt_le_dec a 1); [auto |].
    destruct (Qlt_le_dec a 24); [auto |].
    destruct (Qlt_le_dec a 168); [auto 6 |].
    destruct (Qlt_le_dec a 720); [auto 7 |].
    destruct (Qlt_le_dec a 8760); [auto 8 | auto 9]. }
  assert (Hb : b < 1 \/ 1 <= b < 24 \/ 24 <= b < 168 \/ 168 <= b < 720
               \/ 720 <= b < 8760 \/ 8760 <= b).
  { destruct (Qlt_le_dec b 1); [auto |].
    destruct (Qlt_le_dec b 24); [auto |].
    destruct (Qlt_le_dec b 168); [auto 6 |].
    destruct (Qlt_le_dec b 720); [auto 7 |].
    destruct (Qlt_le_dec b 8760); [auto 8 | auto 9]. }
  destruct Ha as [Ha | [Ha | [Ha | [Ha | [Ha | Ha]]]]];
    destruct Hb as [Hb | [Hb | [Hb | [Hb | [Hb | Hb]]]]];
    try (exfalso; lra);
    first [ rewrite (A1 Ha) | rewrite (A2 Ha) | rewrite (A3 Ha)
          | rewrite (A4 Ha) | rewrite (A5 Ha) | rewrite (A6 Ha) ];
    first [ rewrite (B1 Hb) | rewrite (B2 Hb) | rewrite (B3 Hb)
          | rewrite (B4 Hb) | rewrite (B5 Hb) | rewrite (B6 Hb) ];
    unfold Qle; simpl; lia.
Qed.

(** C3. The recency score is the step function of the age in hours
    (1.0 below 1h, 0.85 below 24h, 0.65 below 168h, 0.45 below 720h, 0.25
    below 8760h, 0.1 from there on); it never increases with age; each
    bucket contains its lower bound (24h exactly scores 0.65); and the ages
    0.5h, 2h, 100h, 500h, 2000h and 20000h score 1.0, 0.85, 0.65, 0.45,
    0.25 and 0.1. *)
Theorem C3_recency_step_function :
  (forall utcnow timestamp,
      recency_step (age_hours utcnow timestamp)
                   (compute_recency_score utcnow timestamp)) /\
  (forall now1 ts1 now2 ts2,
      age_hours now1 ts1 <= age_hours now2 ts2 ->
      compute_recency_score now2 ts2 <= compute_recency_score now1 ts1) /\
  (forall utcnow timestamp,
      age_hours utcnow timestamp == 24 ->
      compute_recency_score utcnow timestamp = 65 # 100) /\
  (forall utcnow,
      compute_recency_score utcnow (tenths_of_hour_before utcnow 5) = 1 /\
      compute_recency_score utcnow (tenths_of_hour_before utcnow 20) = 85 # 100 /\
      compute_recency_score utcnow (tenths_of_hour_before utcnow 1000) = 65 # 100 /\
      compute_recency_score utcnow (tenths_of_hour_before utcnow 5000) = 45 # 100 /\
      compute_recency_score utcnow (tenths_of_hour_before utcnow 20000) = 25 # 100 /\
      compute_recency_score utcnow (tenths_of_hour_before utcnow 200000) = 1 # 10).
Proof.
  split; [exact recency_is_step |].
  split; [exact recency_antitone |].
  split.
  - intros utcnow timestamp H.
    destruct (recency_is_step utcnow timestamp) as (_ & _ & A3 & _).
    apply A3. lra.
  - intros utcnow.
    repeat split;
      match goal with
      | |- compute_recency_score _ (tenths_of_hour_before _ ?t) = _ =>
          pose proof (age_tenths utcnow t) as Hage;
          destruct (recency_is_step utcnow (tenths_of_hour_before utcnow t))
            as (A1 & A2 & A3 & A4 & A5 & A6)
      end;
      first [ apply A1 | apply A2 | apply A3 | apply A4 | apply A5 | apply A6 ];
      rewrite Hage; unfold Qlt, Qle; simpl; lia.
Qed.

(** A memory stamped exactly one day ago scores 0.65. *)
Lemma C3_recency_witness :
  compute_recency_score 86400000000%Z 0%Z = 65 # 100.
Proof.
  apply (proj1 (proj2 (proj2 C3_recency_step_function)) 86400000000%Z 0%Z).
  reflexivity.
Defined.

Lemma importance_sum_eq content n :
  let emotional := hits EMOTIONAL_KEYWORDS (Py.lower content) in
  let factual := hits FACTUAL_KEYWORDS (Py.lower content) in
  compute_importance_score content n =
  Qmin (round4 ((let s := (3 # 10)
                   + Qmin (inject_Z emotional * (5 # 100)) (25 # 100)
                   + Qmin (inject_Z factual * (8 # 100)) (24 # 100) in
                 let s := if (100 <? Py.len content)%Z then s + (5 # 100) else s in
                 if (300 <? Py.len content)%Z then s + (5 # 100) else s)
                + Qmin (inject_Z (n - 1) * (2 # 100)) (1 # 10))) 1.
Proof. reflexivity. Qed.

Lemma hits_nonneg keywords lower : (0 <= hits keywords lower)%Z.
Proof. unfold hits. lia. Qed.

Lemma inject_Z_nonneg z : (0 <= z)%Z -> 0 <= inject_Z z.
Proof. intros H. unfold Qle, inject_Z. simpl. lia. Qed.

(** The raw score before rounding, with the bounds it lies between. *)
Lemma raw_score_range content n :
  (1 <= n)%Z ->
  let emotional := hits EMOTIONAL_KEYWORDS (Py.lower content) in
  let factual := hits FACTUAL_KEYWORDS (Py.lower content) in
  let raw := (3 # 10)
             + Qmin (inject_Z emotional * (5 # 100)) (25 # 100)
             + Qmin (inject_Z factual * (8 # 100)) (24 # 100)
             + length_bonus content
             + Qmin (inject_Z (n - 1) * (2 # 100)) (1 # 10) in
  3 # 10 <= raw /\ raw <= 99 # 100.
Proof.
  intros Hn emotional factual raw. subst raw.
  pose proof (inject_Z_nonneg _ (hits_nonneg EMOTIONAL_KEYWORDS (Py.lower content))) as He.
  pose proof (inject_Z_nonneg _ (hits_nonneg FACTUAL_KEYWORDS (Py.lower content))) as Hf.
  assert (Hr : 0 <= inject_Z (n - 1)) by (apply inject_Z_nonneg; lia).
  fold emotional in He. fold factual in Hf.
  destruct (Qmin_range (inject_Z emotional * (5 # 100)) (25 # 100)) as [? ?]; [nra | lra |].
  destruct (Qmin_range (inject_Z factual * (8 # 100)) (24 # 100)) as [? ?]; [nra | lra |].
  destruct (Qmin_range (inject_Z (n - 1) * (2 # 100)) (1 # 10)) as [? ?]; [nra | lra |].
  unfold length_bonus.
  destruct (100 <? Py.len content)%Z, (300 <? Py.len content)%Z; split; lra.
Qed.

Lemma code_raw_eq content n :
  let emotional := hits EMOTIONAL_KEYWORDS (Py.lower content) in
  let factual := hits FACTUAL_KEYWORDS (Py.lower content) in
  (let s := (3 # 10)
            + Qmin (inject_Z emotional * (5 # 100)) (25 # 100)
            + Qmin (inject_Z factual * (8 # 100)) (24 # 100) in
   let s := if (100 <? Py.len content)%Z then s + (5 # 100) else s in
   if (300 <? Py.len content)%Z then s + (5 # 100) else s)
  + Qmin (inject_Z (n - 1) * (2 # 100)) (1 # 10)
  == (3 # 10)
     + Qmin (inject_Z emotional * (5 # 100)) (25 # 100)
     + Qmin (inject_Z factual * (8 # 100)) (24 # 100)
     + length_bonus content
     + Qmin (inject_Z (n - 1) * (2 # 100)) (1 # 10).
Proof.
  intros emotional factual. unfold length_bonus. cbv zeta.
  destruct (100 <? Py.len content)%Z, (300 <? Py.len content)%Z; ring.
Qed.

Lemma importance_monotone content n m :
  (n <= m)%Z ->
  compute_importance_score content n <= compute_importance_score content m.
Proof.
  intros Hnm. rewrite !importance_sum_eq. cbv zeta.
  apply Q.min_le_compat_r, round4_mono.
  apply Qplus_le_r, Q.min_le_compat_r.
  apply Qmult_le_compat_r; [| discriminate].
  unfold Qle, inject_Z. simpl. lia.
Qed.

Lemma importance_rounded_raw content n :
  (1 <= n)%Z ->
  compute_importance_score content n == importance_formula content n.
Proof.
  intros Hn. rewrite importance_sum_eq. cbv zeta. unfold importance_formula.
  destruct (raw_score_range content n Hn) as [Hlo Hhi]. cbv zeta in Hlo, Hhi.
  set (raw := (3 # 10) + _ + _ + length_bonus content + _) in *.
  assert (Hclamp : clamp01 raw == raw).
  { unfold clamp01. rewrite Q.max_r; rewrite Q.min_l; lra. }
  rewrite (round4_comp _ raw) by apply code_raw_eq.
  rewrite (round4_comp (clamp01 raw) raw) by exact Hclamp.
  apply Q.min_l. rewrite <- round4_1. apply round4_mono. lra.
Qed.

(** C4. For a reinforcement count of at least 1 the importance score is the
    documented sum (baseline 0.3, capped keyword and fact bonuses, length
    bonus, capped reinforcement bonus) clamped to the unit interval and
    rounded to four decimals; it lies between 0 and 1; and it does not
    decrease when the reinforcement count grows. *)
Theorem C4_importance_score :
  forall (content : string) (n : Z),
    (1 <= n)%Z ->
    compute_importance_score content n == importance_formula content n /\
    0 <= compute_importance_score content n <= 1 /\
    (forall m, (n <= m)%Z ->
               compute_importance_score content n
               <= compute_importance_score content m).
Proof.
  intros content n Hn.
  split; [now apply importance_rounded_raw |].
  split; [| intros m; apply importance_monotone].
  rewrite importance_rounded_raw by assumption. unfold importance_formula. cbv zeta.
  destruct (raw_score_range content n Hn) as [Hlo Hhi]. cbv zeta in Hlo, Hhi.
  set (raw := (3 # 10) + _ + _ + length_bonus content + _) in *.
  assert (Hclamp : clamp01 raw == raw).
  { unfold clamp01. rewrite Q.max_r; rewrite Q.min_l; lra. }
  rewrite (round4_comp (clamp01 raw) raw) by exact Hclamp.
  split.
  - rewrite <- round4_0. apply round4_mono. lra.
  - rewrite <- round4_1. apply round4_mono. lra.
Qed.

(** "I love my hobby", seen twice: 0.3 + 0.05 + 0.08 + 0.02 = 0.45. *)
Lemma C4_importance_witness :
  compute_importance_score "I love my hobby" 2 == 45 # 100 /\
  0 <= compute_importance_score "I love my hobby" 2 <= 1.
Proof.
  destruct (C4_importance_score "I love my hobby" 2 ltac:(lia)) as (Heq & Hrange & _).
  split; [| exact Hrange].
  rewrite Heq. vm_compute. reflexivity.
Defined.

End Scorer.

(** ** The stable descending sort *)

Section Sorting.

Import Spec.
Context {A : Type} (key : A -> Q).
Local Open Scope Q_scope.

Lemma insert_desc_perm x l : Permutation (Py.insert_desc key x l) (x :: l).
Proof.
  induction l as [| y l IH]; simpl; [reflexivity |].
  destruct (Qle_bool (key y) (key x)); [reflexivity |].
  rewrite IH. apply perm_swap.
Qed.

Lemma sort_desc_perm l : Permutation (Py.sort_desc key l) l.
Proof.
  induction l as [| x l IH]; simpl; [reflexivity |].
  rewrite insert_desc_perm. now constructor.
Qed.

Lemma sort_desc_length l : length (Py.sort_desc key l) = length l.
Proof. apply Permutation_length, sort_desc_perm. Qed.

Lemma insert_desc_descending x l :
  descending key l -> descending key (Py.insert_desc key x l).
Proof.
  unfold descending. induction 1 as [| y l Hs IH Hy]; simpl.
  - repeat constructor.
  - destruct (Qle_bool (key y) (key x)) eqn:Hle.
    + apply Qle_bool_iff in Hle.
      constructor; [now constructor |].
      constructor; [assumption |].
      eapply Forall_impl; [exact Hy |]. simpl. intros z Hz. lra.
    + assert (Hlt : key x < key y).
      { apply Qnot_le_lt. intros Hc. apply Qle_bool_iff in Hc. congruence. }
      constructor; [assumption |].
      rewrite (insert_desc_perm x l). constructor; [lra | assumption].
Qed.

Lemma sort_desc_descending l : descending key (Py.sort_desc key l).
Proof.
  induction l as [| x l IH]; simpl; [constructor | now apply insert_desc_descending].
Qed.

Lemma insert_desc_with_key s x l :
  with_key key s (Py.insert_desc key x l) = with_key key s (x :: l).
Proof.
  induction l as [| y l IH]; [reflexivity |].
  cbn [Py.insert_desc]. destruct (Qle_bool (key y) (key x)) eqn:Hle; [reflexivity |].
  assert (Hlt : key x < key y).
  { apply Qnot_le_lt. intros Hc. apply Qle_bool_iff in Hc. congruence. }
  unfold with_key in *. cbn [List.filter] in *. rewrite IH.
  destruct (Qeq_bool (key y) s) eqn:Hy, (Qeq_bool (key x) s) eqn:Hx; try reflexivity.
  apply Qeq_bool_iff in Hy, Hx. exfalso. lra.
Qed.

(** Stability: among equal keys the order of arrival is kept. *)
Lemma sort_desc_stable s l : with_key key s (Py.sort_desc key l) = with_key key s l.
Proof.
  induction l as [| x l IH]; [reflexivity |].
  cbn [Py.sort_desc]. rewrite insert_desc_with_key.
  unfold with_key in *. cbn [List.filter]. now rewrite IH.
Qed.

Lemma descending_firstn n l : descending key l -> descending key (firstn n l).
Proof.
  unfold descending. intros H. revert n.
  induction H as [| x l Hs IH Hx]; intros [| n]; simpl; try constructor.
  - apply IH.
  - now apply Forall_take.
Qed.

Lemma with_key_firstn_prefix s n l :
  with_key key s (firstn n l) `prefix_of` with_key key s l.
Proof.
  exists (with_key key s (skipn n l)).
  rewrite <- (firstn_skipn n l) at 1. unfold with_key. apply List.filter_app.
Qed.

End Sorting.

(** ** Ranking engine *)

Section Ranking.

Import Spec retrieval.
Local Open Scope Q_scope.

Variable embed_text : string -> vec.
Variable search : Index -> vec -> Z -> list (Q * Z).

Lemma personal_eqb memory_type :
  (if (String.eqb memory_type "profile" || String.eqb memory_type "episodic")%bool
   then 8 # 10 else 5 # 10)
  = personal memory_type.
Proof.
  clear embed_text search. unfold personal.
  destruct (decide _) as [[-> | ->] | Hn]; [reflexivity | reflexivity |].
  destruct (String.eqb_spec memory_type "profile"); [tauto |].
  destruct (String.eqb_spec memory_type "episodic"); [tauto |].
  reflexivity.
Qed.

(** The composite score of a candidate is the weighted sum on doubles,
    rounded to four decimals. *)
Lemma make_candidate_composite utcnow dist mem :
  candidate.composite_score (make_candidate utcnow dist mem)
  = binary64.round4 (composite_float utcnow dist mem).
Proof.
  unfold make_candidate, composite_float, weighted_sum_float, frequency_float.
  cbv zeta. cbn [candidate.composite_score].
  rewrite personal_eqb. reflexivity.
Qed.

Lemma make_candidate_id utcnow dist mem :
  candidate.id (make_candidate utcnow dist mem) = models.id mem.
Proof. reflexivity. Qed.

Lemma in_range_guard memory_ids idx :
  ((idx <? 0) || (Z.of_nat (length memory_ids) <=? idx))%Z
  = negb (in_range memory_ids idx).
Proof. unfold in_range. lia. Qed.

Lemma list_getitem_in_range {A} (l : list A) idx w :
  (0 <= idx < Z.of_nat (length l))%Z ->
  exists x, l !! Z.to_nat idx = Some x /\ list_getitem l idx w = (Return x, w).
Proof.
  intros Hr. unfold list_getitem.
  destruct (idx <? 0)%Z eqn:E1; [lia |].
  destruct ((idx <? 0) || (Z.of_nat (length l) <=? idx))%Z eqn:E2; [lia |].
  destruct (lookup_lt_is_Some_2 l (Z.to_nat idx)) as [x Hx]; [lia |].
  exists x. split; [exact Hx |].
  now rewrite Hx.
Qed.

Lemma bind_run {A B} (m : M A) (k : A -> M B) w a w' :
  m w = (Return a, w') -> bind m k w = k a w'.
Proof. intros H. unfold bind. now rewrite H. Qed.

Lemma query_first_run p w : query_first p w = (Return (find p (db w)), w).
Proof. reflexivity. Qed.

Lemma imap_shift {A B} (F : nat -> A -> B) (start : nat) (x : A) (l : list A) :
  imap (fun n => F (start + n)%nat) (x :: l)
  = F start x :: imap (fun n => F (S start + n)%nat) l.
Proof.
  clear embed_text search. cbn [imap]. rewrite Nat.add_0_r. f_equal.
  apply imap_ext. intros n y _. unfold compose. cbv beta.
  now rewrite Nat.add_succ_r.
Qed.

Lemma resolved_candidates_cons utcnow start w user_id memory_ids hit rest :
  resolved_candidates utcnow start w user_id memory_ids (hit :: rest)
  = match resolve w user_id memory_ids hit with
    | Some dm =>
        make_candidate (utcnow start) (fst dm) (snd dm)
        :: resolved_candidates utcnow (S start) w user_id memory_ids rest
    | None => resolved_candidates utcnow start w user_id memory_ids rest
    end.
Proof.
  unfold resolved_candidates. cbn [omap list_omap].
  destruct (resolve w user_id memory_ids hit) as [dm |]; [| reflexivity].
  exact (imap_shift (fun n dm => make_candidate (utcnow n) (fst dm) (snd dm)) start dm _).
Qed.

(** Search results whose ordinal is out of range contribute nothing. *)
Lemma resolved_candidates_in_range utcnow start w user_id memory_ids found :
  resolved_candidates utcnow start w user_id memory_ids found
  = resolved_candidates utcnow start w user_id memory_ids
      (List.filter (fun hit => in_range memory_ids (snd hit)) found).
Proof.
  revert start. induction found as [| hit rest IH]; intros start; [reflexivity |].
  cbn [List.filter]. rewrite resolved_candidates_cons.
  destruct (in_range memory_ids hit.2) eqn:Hr.
  - rewrite resolved_candidates_cons.
    destruct (resolve w user_id memory_ids hit); [| apply IH].
    rewrite <- IH. reflexivity.
  - unfold resolve. rewrite Hr. apply IH.
Qed.

Lemma candidate_loop_spec utcnow user_id memory_ids found candidates w :
  candidate_loop utcnow user_id memory_ids found candidates w
  = (Return (candidates
             ++ resolved_candidates utcnow (length candidates) w user_id memory_ids found),
     w).
Proof.
  revert candidates.
  induction found as [| [dist idx] rest IH]; intros candidates.
  - unfold resolved_candidates. cbn [candidate_loop omap list_omap imap].
    now rewrite app_nil_r.
  - cbn [candidate_loop]. rewrite in_range_guard, resolved_candidates_cons.
    unfold resolve. cbn [snd fst].
    destruct (in_range memory_ids idx) eqn:Hr; cbn [negb].
    + assert (Hidx : (0 <= idx < Z.of_nat (length memory_ids))%Z)
        by (unfold in_range in Hr; lia).
      destruct (list_getitem_in_range memory_ids idx w Hidx) as (mem_id & Hlook & Hget).
      rewrite (bind_run _ _ _ _ _ Hget), Hlook.
      rewrite (bind_run _ _ _ _ _ (query_first_run _ w)).
      change (find _ (db w)) with (stored w user_id mem_id).
      destruct (stored w user_id mem_id) as [mem |].
      * rewrite IH, length_app, Nat.add_1_r. cbn [fst snd length].
        rewrite <- app_assoc. reflexivity.
      * apply IH.
    + apply IH.
Qed.

Lemma load_faiss_index_run user_id w :
  load_faiss_index user_id w
  = (Return (match index_files w !! user_id, meta_files w !! user_id with
             | Some index, Some memory_ids => (Some index, memory_ids)
             | _, _ => (None, [])
             end), w).
Proof.
  unfold load_faiss_index, bind, get_world.
  destruct (index_files w !! user_id); [| reflexivity].
  now destruct (meta_files w !! user_id).
Qed.

(** The whole of [retrieve_relevant_memories] as one expression. *)
Lemma retrieve_spec utcnow user_id query top_k w :
  retrieve_relevant_memories embed_text search utcnow user_id query top_k w
  = (if search_refused w user_id (count_given top_k) then Raise AssertionError
     else Return
            (Py.list_slice_to
               (Py.sort_desc score_key
                  (search_order_candidates embed_text search utcnow w user_id query
                     (count_given top_k)))
               (count_given top_k)), w).
Proof.
  unfold retrieve_relevant_memories, search_order_candidates, search_refused.
  cbv zeta. fold (count_given top_k). set (k := count_given top_k).
  rewrite (bind_run _ _ _ _ _ (load_faiss_index_run _ _)).
  assert (Hnil : Py.list_slice_to (Py.sort_desc score_key []) k = []).
  { unfold Py.list_slice_to. cbn [Py.sort_desc length].
    now destruct (0 <=? k)%Z, (Z.to_nat _). }
  destruct (index_files w !! user_id) as [index |];
    [| now rewrite Hnil].
  destruct (meta_files w !! user_id) as [memory_ids |];
    [| now rewrite Hnil].
  destruct (ntotal index =? 0)%Z; [now rewrite Hnil |].
  cbn [negb andb].
  destruct (Z.min (k * 3) (ntotal index) <=? 0)%Z; [reflexivity |].
  now rewrite (bind_run _ _ _ _ _ (candidate_loop_spec _ _ _ _ _ _)).
Qed.

Lemma ntotal_nonneg index : (0 <= ntotal index)%Z.
Proof. unfold ntotal. lia. Qed.

(** A count of at least 1 is never refused. *)
Lemma search_refused_false w user_id k :
  (1 <= k)%Z -> search_refused w user_id k = false.
Proof.
  clear embed_text search. intros Hk. unfold search_refused.
  destruct (index_files w !! user_id) as [index |]; [| reflexivity].
  destruct (meta_files w !! user_id); [| reflexivity].
  pose proof (ntotal_nonneg index).
  destruct (ntotal index =? 0)%Z eqn:E; [reflexivity |]. cbn [negb andb]. lia.
Qed.

(** A count below 1 is refused whenever there is something to search. *)
Lemma search_refused_true w user_id k :
  (k <= 0)%Z -> ~ absent_or_empty w user_id -> search_refused w user_id k = true.
Proof.
  clear embed_text search. intros Hk Hpresent. unfold search_refused.
  destruct (index_files w !! user_id) as [index |] eqn:Hi;
    [| exfalso; apply Hpresent; now left].
  destruct (meta_files w !! user_id) eqn:Hm;
    [| exfalso; apply Hpresent; right; now left].
  destruct (ntotal index =? 0)%Z eqn:E.
  - exfalso. apply Hpresent. right. right. exists index. split; [exact Hi | lia].
  - cbn [negb andb]. lia.
Qed.

(** C5. When the user's index is absent or holds no vector, ranking
    returns the empty list, raises nothing and leaves the world alone. *)
Theorem C5_empty_index_yields_empty_ranking :
  forall utcnow user_id query top_k w,
    absent_or_empty w user_id ->
    retrieve_relevant_memories embed_text search utcnow user_id query top_k w
    = (Return [], w).
Proof.
  intros utcnow user_id query top_k w Habs.
  unfold retrieve_relevant_memories.
  rewrite (bind_run _ _ _ _ _ (load_faiss_index_run _ _)).
  destruct Habs as [-> | [Hm | (index & -> & Hn)]]; [reflexivity | |].
  - rewrite Hm. now destruct (index_files w !! user_id).
  - destruct (meta_files w !! user_id); [| reflexivity].
    now rewrite Hn.
Qed.

(** C6. Ranking is read-only: after the call the table of memories (and so
    every reinforcement count, timestamp, last-access time and importance
    score), the persisted index and the persisted identifier list are what
    they were before. *)
Theorem C6_ranking_is_read_only :
  forall utcnow user_id query top_k w,
    let w' := snd (retrieve_relevant_memories
                     embed_text search utcnow user_id query top_k w) in
    w' = w /\
    db w' = db w /\
    index_files w' = index_files w /\
    meta_files w' = meta_files w.
Proof.
  intros utcnow user_id query top_k w. rewrite retrieve_spec. cbn [snd]. auto.
Qed.

(** C10. In the candidate loop a search result whose ordinal is negative or
    not below the length of the identifier list is skipped: the loop gives
    what it gives on the results with such ordinals removed, and it never
    raises, whatever the search returned and however many vectors the
    index holds. So ranking as a whole never raises [IndexError]: it
    returns normally when the count is at least 1 (or left to its default),
    and the one exception it raises, for a count below 1 on an index that
    holds vectors, is the assertion of the search itself. *)
Theorem C10_out_of_range_ordinals_are_skipped :
  forall utcnow user_id memory_ids found candidates query top_k w,
    candidate_loop utcnow user_id memory_ids found candidates w
    = candidate_loop utcnow user_id memory_ids
        (List.filter (fun hit => in_range memory_ids (snd hit)) found) candidates w /\
    (exists out,
        candidate_loop utcnow user_id memory_ids found candidates w = (Return out, w)) /\
    fst (retrieve_relevant_memories embed_text search utcnow user_id query top_k w)
    <> Raise IndexError /\
    ((1 <= count_given top_k)%Z ->
     exists out,
       retrieve_relevant_memories embed_text search utcnow user_id query top_k w
       = (Return out, w)) /\
    ((count_given top_k <= 0)%Z ->
     ~ absent_or_empty w user_id ->
     retrieve_relevant_memories embed_text search utcnow user_id query top_k w
     = (Raise AssertionError, w)).
Proof.
  intros utcnow user_id memory_ids found candidates query top_k w.
  split; [| split; [| split; [| split]]].
  - rewrite !candidate_loop_spec.
    rewrite <- resolved_candidates_in_range. reflexivity.
  - rewrite candidate_loop_spec. eauto.
  - rewrite retrieve_spec. now destruct (search_refused _ _ _).
  - intros Hk. rewrite retrieve_spec, (search_refused_false _ _ _ Hk). eauto.
  - intros Hk Hpresent. now rewrite retrieve_spec, (search_refused_true _ _ _ Hk Hpresent).
Qed.

Lemma stored_sound w user_id mem_id mem :
  stored w user_id mem_id = Some mem ->
  mem ∈ db w /\ models.id mem = mem_id /\ models.user_id mem = user_id.
Proof.
  unfold stored. intros H. apply find_some in H as [Hin Hp].
  apply andb_true_iff in Hp as [H1 H2].
  apply String.eqb_eq in H1, H2. split; [| auto].
  now apply list_elem_of_In.
Qed.

(** The candidate at position [n] of the search order comes from a search
    result: the similarity is the one the search reported, the ordinal
    leads through the identifier list to a record stored for the user,
    and the clock reading is the [n]-th. *)
Lemma search_order_candidates_sound utcnow w user_id query top_k n c :
  search_order_candidates embed_text search utcnow w user_id query top_k !! n = Some c ->
  exists index memory_ids dist idx mem,
    index_files w !! user_id = Some index /\
    meta_files w !! user_id = Some memory_ids /\
    (dist, idx) ∈ search index (embed_text query) (Z.min (top_k * 3) (ntotal index)) /\
    (0 <= idx)%Z /\
    memory_ids !! Z.to_nat idx = Some (models.id mem) /\
    mem ∈ db w /\ models.user_id mem = user_id /\
    c = make_candidate (utcnow n) dist mem.
Proof.
  unfold search_order_candidates.
  destruct (index_files w !! user_id) as [index |];
    [| intros H; rewrite lookup_nil in H; discriminate].
  destruct (meta_files w !! user_id) as [memory_ids |];
    [| intros H; rewrite lookup_nil in H; discriminate].
  destruct (ntotal index =? 0)%Z; [intros H; rewrite lookup_nil in H; discriminate |].
  unfold resolved_candidates. intros H. rewrite list_lookup_imap in H.
  destruct (omap _ _ !! n) as [[dist mem] |] eqn:Hn; [| discriminate].
  cbn [fmap option_fmap option_map Nat.add fst snd] in H. injection H as <-.
  apply list_elem_of_lookup_2 in Hn. apply list_elem_of_omap in Hn as ([d idx] & Hhit & Hres).
  unfold resolve in Hres. cbn [fst snd] in Hres.
  destruct (in_range memory_ids idx) eqn:Hr; [| discriminate].
  destruct (memory_ids !! Z.to_nat idx) as [mem_id |] eqn:Hl; [| discriminate].
  destruct (stored w user_id mem_id) as [mem' |] eqn:Hs; [| discriminate].
  injection Hres as <- <-.
  apply stored_sound in Hs as (Hin & Hid & Hu).
  exists index, memory_ids, d, idx, mem'.
  rewrite Hid. unfold in_range in Hr.
  assert (Hidx : (0 <= idx)%Z) by lia.
  exact (conj eq_refl (conj eq_refl (conj Hhit (conj Hidx (conj Hl
           (conj Hin (conj Hu eq_refl))))))).
Qed.

(** C1, as the code has it. For a requested count of at least 1, ranking
    returns at most that many candidates. Each of them stands at some
    position [n] of the similarity-search order and comes from a result
    [(dist, idx)] of the search: [idx] is a position of the identifier list
    and the identifier there is that of a record stored for the user; its
    similarity entry is [dist] rounded to four decimals; and its composite
    score is the weighted sum 0.4 similarity + 0.2 recency + 0.2
    importance + 0.1 frequency + 0.1 personal (recency at the [n]-th
    reading of the clock, frequency = min(count / 20, 1), personal = 0.8
    for profile and episodic records and 0.5 otherwise), computed on
    doubles and rounded to four decimals. The list is in non-increasing
    order of that rounded score, and candidates with the same rounded
    score keep their similarity-search order. *)
Theorem C1_ranking_by_rounded_composite :
  forall utcnow user_id query (k : Z) w,
    (1 <= k)%Z ->
    exists out,
      retrieve_relevant_memories embed_text search utcnow user_id query (Some k) w
      = (Return out, w) /\
      (Z.of_nat (length out) <= k)%Z /\
      (forall c, c ∈ out ->
         exists n index memory_ids dist idx mem,
           search_order_candidates embed_text search utcnow w user_id query k !! n
           = Some c /\
           index_files w !! user_id = Some index /\
           meta_files w !! user_id = Some memory_ids /\
           (dist, idx) ∈ search index (embed_text query) (Z.min (k * 3) (ntotal index)) /\
           (0 <= idx)%Z /\
           memory_ids !! Z.to_nat idx = Some (models.id mem) /\
           mem ∈ db w /\
           models.id mem = candidate.id c /\
           models.user_id mem = user_id /\
           candidate.semantic_similarity c = binary64.round4 dist /\
           candidate.composite_score c
           = binary64.round4 (composite_float (utcnow n) dist mem)) /\
      descending score_key out /\
      (forall s,
          with_key score_key s out
          `prefix_of`
          with_key score_key s
            (search_order_candidates embed_text search utcnow w user_id query k)).
Proof.
  intros utcnow user_id query k w Hk.
  rewrite retrieve_spec. cbn [count_given]. rewrite (search_refused_false _ _ _ Hk).
  set (cands := search_order_candidates embed_text search utcnow w user_id query k).
  unfold Py.list_slice_to. replace (0 <=? k)%Z with true by lia.
  eexists. split; [reflexivity |].
  split; [| split; [| split]].
  - rewrite length_take. lia.
  - intros c Hc. apply elem_of_take in Hc as (i & Hc & _).
    apply list_elem_of_lookup_2 in Hc.
    rewrite (sort_desc_perm score_key cands) in Hc.
    apply list_elem_of_lookup in Hc as [n Hn].
    destruct (search_order_candidates_sound _ _ _ _ _ _ _ Hn)
      as (index & memory_ids & dist & idx & mem
          & Hi & Hm & Hfound & Hidx & Hlook & Hin & Hu & Hc).
    subst c. exists n, index, memory_ids, dist, idx, mem.
    rewrite make_candidate_composite.
    exact (conj Hn (conj Hi (conj Hm (conj Hfound (conj Hidx (conj Hlook
             (conj Hin (conj eq_refl (conj Hu (conj eq_refl eq_refl)))))))))).
  - apply descending_firstn, sort_desc_descending.
  - intros s. rewrite <- (sort_desc_stable score_key s cands).
    apply with_key_firstn_prefix.
Qed.

End Ranking.

(** *** Ranking on the sample data *)

(** C1 as stated fails: both sample memories round to the composite score
    0.7150, so the first search result stays first, although its weighted
    sum is below that of the second, computed exactly (0.715 against
    0.715005) or on doubles. *)
Lemma C1_counterexample_rounding_hides_order :
  fst (retrieval.retrieve_relevant_memories
         Examples.embed_text retrieval.flat_ip_search
         Examples.clock "u" "what do i love" (Some 5%Z) Examples.world)
  = Return [retrieval.make_candidate (Examples.clock 0)
              (retrieval.inner_product Examples.unit_x Examples.unit_x) Examples.mem_a;
            retrieval.make_candidate (Examples.clock 1)
              (retrieval.inner_product Examples.unit_x Examples.near_x) Examples.mem_b]
  /\
  (Spec.composite (Examples.clock 0)
     (retrieval.inner_product Examples.unit_x Examples.unit_x) Examples.mem_a
   < Spec.composite (Examples.clock 1)
       (retrieval.inner_product Examples.unit_x Examples.near_x) Examples.mem_b)%Q
  /\
  (Spec.composite_float (Examples.clock 0)
     (retrieval.inner_product Examples.unit_x Examples.unit_x) Examples.mem_a
   < Spec.composite_float (Examples.clock 1)
       (retrieval.inner_product Examples.unit_x Examples.near_x) Examples.mem_b)%Q.
Proof.
  split; [| split]; vm_compute; reflexivity.
Qed.

(** Rounding happens on the double, not on the exact sum: at similarity
    33/64 the exact sum of the first sample memory is 0.52125, a tie that
    would round to 0.5212; the sum on doubles is above the tie and rounds
    to 0.5213. *)
Example composite_rounds_the_double :
  Spec.composite Examples.two_hours_later (33 # 64) Examples.mem_a == 52125 # 100000 /\
  round4 (Spec.composite Examples.two_hours_later (33 # 64) Examples.mem_a)
  = 5212 # 10000 /\
  candidate.composite_score
    (retrieval.make_candidate Examples.two_hours_later (33 # 64) Examples.mem_a)
  = 5213 # 10000.
Proof.
  split; [| split]; vm_compute; reflexivity.
Qed.

(** The sample ranking within the bounds C1 gives. *)
Lemma C1_ranking_witness :
  exists out,
    retrieval.retrieve_relevant_memories
      Examples.embed_text retrieval.flat_ip_search
      Examples.clock "u" "what do i love" (Some 5%Z) Examples.world
    = (Return out, Examples.world) /\
    (Z.of_nat (length out) <= 5)%Z /\
    Spec.descending retrieval.score_key out.
Proof.
  destruct (C1_ranking_by_rounded_composite
              Examples.embed_text retrieval.flat_ip_search
              Examples.clock "u" "what do i love" 5%Z Examples.world
              ltac:(lia)) as (out & Hrun & Hlen & _ & Hsorted & _).
  exists out. repeat split; assumption.
Defined.

(** A user with no index files gets the empty ranking. *)
Lemma C5_empty_index_witness :
  retrieval.retrieve_relevant_memories
    Examples.embed_text retrieval.flat_ip_search
    Examples.clock "u" "what do i love" None Examples.empty_world
  = (Return [], Examples.empty_world).
Proof.
  apply C5_empty_index_yields_empty_ranking.
  left. reflexivity.
Defined.

(** ** Vector index store *)

Section IndexStore.

Import Spec retrieval.

Variable embed_text : string -> vec.

Lemma save_faiss_index_run user_id index memory_ids w :
  save_faiss_index user_id index memory_ids w
  = (Return tt,
     {| db := db w;
        index_files := <[user_id := index]> (index_files w);
        meta_files := <[user_id := memory_ids]> (meta_files w) |}).
Proof. reflexivity. Qed.

Lemma add_memory_to_index_run user_id memory_id content w :
  add_memory_to_index embed_text user_id memory_id content w
  = (Return (Z.of_nat (length (loaded_ids w user_id))),
     {| db := db w;
        index_files :=
          <[user_id :=
              match index_files w !! user_id, meta_files w !! user_id with
              | Some index, Some _ => index_add index [embed_text content]
              | _, _ => index_add (IndexFlatIP (Z.of_nat (length (embed_text content))))
                          [embed_text content]
              end]> (index_files w);
        meta_files := <[user_id := loaded_ids w user_id ++ [memory_id]]> (meta_files w) |}).
Proof.
  unfold add_memory_to_index, loaded_ids.
  rewrite (bind_run _ _ _ _ _ (load_faiss_index_run _ _)).
  destruct (index_files w !! user_id) as [index |]; [| reflexivity].
  destruct (meta_files w !! user_id) as [memory_ids |]; reflexivity.
Qed.

(** C8. Appending to a user's index returns the length the identifier list
    had before the call, appends the identifier and the vector at that
    position and leaves the earlier positions and the table alone; when
    vectors and identifiers were aligned before, they are aligned after,
    and the slot of the new vector is the ordinal returned. *)
Theorem C8_append_returns_next_ordinal :
  forall user_id memory_id content w,
    let n := length (loaded_ids w user_id) in
    exists w',
      add_memory_to_index embed_text user_id memory_id content w
      = (Return (Z.of_nat n), w') /\
      db w' = db w /\
      loaded_ids w' user_id = loaded_ids w user_id ++ [memory_id] /\
      loaded_vectors w' user_id = loaded_vectors w user_id ++ [embed_text content] /\
      loaded_ids w' user_id !! n = Some memory_id /\
      (forall i x, loaded_ids w user_id !! i = Some x ->
                   loaded_ids w' user_id !! i = Some x) /\
      (aligned w user_id ->
       aligned w' user_id /\
       loaded_vectors w' user_id !! n = Some (embed_text content)).
Proof.
  intros user_id memory_id content w n.
  rewrite add_memory_to_index_run. eexists. split; [reflexivity |].
  assert (Hids : loaded_ids
            {| db := db w;
               index_files :=
                 <[user_id :=
                     match index_files w !! user_id, meta_files w !! user_id with
                     | Some index, Some _ => index_add index [embed_text content]
                     | _, _ => index_add
                                 (IndexFlatIP (Z.of_nat (length (embed_text content))))
                                 [embed_text content]
                     end]> (index_files w);
               meta_files :=
                 <[user_id := loaded_ids w user_id ++ [memory_id]]> (meta_files w) |}
            user_id = loaded_ids w user_id ++ [memory_id]).
  { unfold loaded_ids at 1. cbn [index_files meta_files].
    now rewrite !lookup_insert_eq. }
  assert (Hvecs : loaded_vectors
            {| db := db w;
               index_files :=
                 <[user_id :=
                     match index_files w !! user_id, meta_files w !! user_id with
                     | Some index, Some _ => index_add index [embed_text content]
                     | _, _ => index_add
                                 (IndexFlatIP (Z.of_nat (length (embed_text content))))
                                 [embed_text content]
                     end]> (index_files w);
               meta_files :=
                 <[user_id := loaded_ids w user_id ++ [memory_id]]> (meta_files w) |}
            user_id = loaded_vectors w user_id ++ [embed_text content]).
  { unfold loaded_vectors. cbn [index_files meta_files].
    rewrite !lookup_insert_eq.
    destruct (index_files w !! user_id) as [index |]; [| reflexivity].
    now destruct (meta_files w !! user_id). }
  rewrite Hids, Hvecs.
  split; [reflexivity |]. split; [reflexivity |]. split; [reflexivity |].
  split; [| split].
  - subst n. now rewrite lookup_app_r, Nat.sub_diag.
  - intros i x Hx. now apply lookup_app_l_Some.
  - unfold aligned. rewrite Hids, Hvecs. intros Hal. split.
    + rewrite !length_app. cbn. lia.
    + subst n. rewrite <- Hal. now rewrite lookup_app_r, Nat.sub_diag.
Qed.

Lemma get_memories_by_user_run user_id w :
  memory_service.get_memories_by_user user_id (Some "semantic"%string) 100 w
  = (Return (semantic_memories w user_id), w).
Proof. reflexivity. Qed.

Lemma for_each_restamp start memories w :
  for_each (enumerate_from start memories)
    (fun im => set_faiss_index_id (snd im) (fst im)) w
  = (Return tt,
     {| db := map (restamp_row start memories) (db w);
        index_files := index_files w;
        meta_files := meta_files w |}).
Proof.
  revert start w. induction memories as [| mem memories IH]; intros start w.
  - cbn. rewrite map_id. now destruct w.
  - cbn [enumerate_from for_each].
    erewrite bind_run by reflexivity. rewrite IH. cbn [db index_files meta_files fst snd].
    now rewrite map_map.
Qed.

Lemma embed_texts_map texts : embed_texts embed_text texts = map embed_text texts.
Proof. now destruct texts. Qed.

(** A rebuild as one expression. *)
Lemma rebuild_user_index_run user_id w :
  rebuild_user_index embed_text user_id w
  = (Return tt,
     match semantic_memories w user_id with
     | [] => w
     | _ =>
         let memories := semantic_memories w user_id in
         let embeddings := map embed_text (map models.content memories) in
         {| db := map (restamp_row 0 memories) (db w);
            index_files :=
              <[user_id := {| d := shape1 embeddings; xb := embeddings |}]>
                (index_files w);
            meta_files := <[user_id := map models.id memories]> (meta_files w) |}
     end).
Proof.
  unfold rebuild_user_index.
  rewrite (bind_run _ _ _ _ _ (get_memories_by_user_run _ _)).
  destruct (semantic_memories w user_id) as [| mem memories] eqn:Hm; [reflexivity |].
  unfold enumerate.
  rewrite (bind_run _ _ _ _ _ (for_each_restamp _ _ _)).
  erewrite bind_run by reflexivity.
  rewrite save_faiss_index_run, embed_texts_map. reflexivity.
Qed.

Lemma restamp_row_same start memories r :
  same_memory r (restamp_row start memories r).
Proof.
  revert start r. induction memories as [| mem memories IH]; intros start r.
  - cbn. unfold same_memory. auto.
  - cbn [restamp_row].
    destruct (String.eqb (models.id r) (models.id mem)); [| apply IH].
    destruct (IH (start + 1)%Z (with_faiss_index_id r start)) as (H1 & H2 & H3 & H4 & H5).
    unfold same_memory. cbn in *. auto.
Qed.

Lemma filter_map_invariant {A} (P : A -> Prop) `{!forall x, Decision (P x)}
    (g : A -> A) (l : list A) :
  (forall x, P (g x) <-> P x) ->
  filter P (map g l) = map g (filter P l).
Proof.
  intros Hg. induction l as [| x l IH]; [reflexivity |].
  cbn [map]. rewrite !filter_cons.
  destruct (decide (P (g x))) as [Hy | Hn], (decide (P x)) as [Hy' | Hn'];
    cbn [map]; try (now rewrite IH); exfalso; firstorder.
Qed.

Lemma insert_desc_map_invariant {A} (key : A -> Q) (g : A -> A) x l :
  (forall x, key (g x) = key x) ->
  Py.insert_desc key (g x) (map g l) = map g (Py.insert_desc key x l).
Proof.
  intros Hg. induction l as [| y l IH]; [reflexivity |].
  cbn [map Py.insert_desc]. rewrite !Hg.
  destruct (Qle_bool (key y) (key x)); [reflexivity |].
  cbn [map]. now rewrite IH.
Qed.

Lemma sort_desc_map_invariant {A} (key : A -> Q) (g : A -> A) l :
  (forall x, key (g x) = key x) ->
  Py.sort_desc key (map g l) = map g (Py.sort_desc key l).
Proof.
  intros Hg. induction l as [| x l IH]; [reflexivity |].
  cbn [map Py.sort_desc]. rewrite IH. now apply insert_desc_map_invariant.
Qed.

(** The memories a rebuild works on do not depend on the slot column. *)
Lemma semantic_memories_map g user_id w w' :
  (forall r, same_memory r (g r)) ->
  db w' = map g (db w) ->
  semantic_memories w' user_id = map g (semantic_memories w user_id).
Proof.
  intros Hg Hdb. unfold semantic_memories. rewrite Hdb.
  rewrite (filter_map_invariant (fun m => models.user_id m = user_id) g).
  2: { intros r. destruct (Hg r) as (_ & -> & _). reflexivity. }
  rewrite (filter_map_invariant (fun m => models.memory_type m = "semantic"%string) g).
  2: { intros r. destruct (Hg r) as (_ & _ & -> & _). reflexivity. }
  rewrite sort_desc_map_invariant.
  2: { intros r. destruct (Hg r) as (_ & _ & _ & _ & ->). reflexivity. }
  symmetry. apply (fmap_take g).
Qed.

Lemma map_same_memory_id g (l : list models.Memory) :
  (forall r, same_memory r (g r)) -> map models.id (map g l) = map models.id l.
Proof.
  intros Hg. rewrite map_map. apply map_ext. intros r. now destruct (Hg r).
Qed.

Lemma map_same_memory_content g (l : list models.Memory) :
  (forall r, same_memory r (g r)) -> map models.content (map g l) = map models.content l.
Proof.
  intros Hg. rewrite map_map. apply map_ext. intros r.
  now destruct (Hg r) as (_ & _ & _ & -> & _).
Qed.

(** Two tables that differ only in the slot column rebuild to the same
    index and the same identifier list. *)
Lemma rebuild_same_memory_set g user_id w w' :
  (forall r, same_memory r (g r)) ->
  db w' = map g (db w) ->
  index_files w' = index_files w ->
  meta_files w' = meta_files w ->
  let w1 := snd (rebuild_user_index embed_text user_id w) in
  let w1' := snd (rebuild_user_index embed_text user_id w') in
  index_files w1' = index_files w1 /\ meta_files w1' = meta_files w1.
Proof.
  intros Hg Hdb Hi Hm. rewrite !rebuild_user_index_run. cbn [snd].
  rewrite (semantic_memories_map g user_id w w' Hg Hdb).
  destruct (semantic_memories w user_id) as [| mem memories]; [cbn; auto |].
  cbn [map]. cbv zeta. cbn [index_files meta_files]. rewrite Hi, Hm.
  rewrite (map_same_memory_id g memories Hg), (map_same_memory_content g memories Hg).
  destruct (Hg mem) as (-> & _ & _ & -> & _). auto.
Qed.

Lemma restamp_row_other start memories r :
  models.id r ∉ map models.id memories ->
  restamp_row start memories r = r.
Proof.
  revert start. induction memories as [| mem memories IH]; intros start Hn; [reflexivity |].
  cbn [restamp_row map] in *. apply not_elem_of_cons in Hn as [Hne Hn].
  destruct (String.eqb_spec (models.id r) (models.id mem)); [contradiction |].
  now apply IH.
Qed.

(** With distinct identifiers, the memory at position [i] ends up with
    ordinal [start + i]. *)
Lemma restamp_row_at start memories i mem :
  NoDup (map models.id memories) ->
  memories !! i = Some mem ->
  restamp_row start memories mem = with_faiss_index_id mem (start + Z.of_nat i).
Proof.
  revert start i. induction memories as [| m0 memories IH]; intros start i Hnd Hi;
    [discriminate |].
  cbn [map] in Hnd. apply NoDup_cons in Hnd as [Hfresh Hnd].
  destruct i as [| i]; cbn in Hi.
  - injection Hi as ->. cbn [restamp_row]. rewrite String.eqb_refl.
    rewrite restamp_row_other by exact Hfresh.
    now rewrite Z.add_0_r.
  - cbn [restamp_row].
    destruct (String.eqb_spec (models.id mem) (models.id m0)) as [Heq | Hne].
    + exfalso. apply Hfresh. rewrite <- Heq.
      apply list_elem_of_fmap. exists mem. split; [reflexivity |].
      eapply list_elem_of_lookup_2, Hi.
    + rewrite (IH (start + 1)%Z i Hnd Hi). f_equal. lia.
Qed.

Lemma NoDup_map_elem_eq {A B} (f : A -> B) (l : list A) x y :
  NoDup (map f l) -> x ∈ l -> y ∈ l -> f x = f y -> x = y.
Proof.
  clear embed_text. intros Hnd Hx Hy Hf.
  apply list_elem_of_lookup in Hx as [i Hi]. apply list_elem_of_lookup in Hy as [j Hj].
  assert (i = j).
  { eapply (NoDup_lookup _ i j (f x) Hnd).
    - change (map f l) with (f <$> l). now rewrite list_lookup_fmap, Hi.
    - change (map f l) with (f <$> l). now rewrite list_lookup_fmap, Hj, Hf. }
  subst j. congruence.
Qed.

Lemma semantic_memories_sub user_id w :
  exists l, semantic_memories w user_id `sublist_of` l /\ l ≡ₚ
    filter (fun m => models.memory_type m = "semantic"%string)
      (filter (fun m => models.user_id m = user_id) (db w)).
Proof.
  eexists. split; [apply sublist_take | apply sort_desc_perm].
Qed.

Lemma semantic_memories_NoDup user_id w :
  NoDup (map models.id (db w)) ->
  NoDup (map models.id (semantic_memories w user_id)).
Proof.
  intros Hnd. destruct (semantic_memories_sub user_id w) as (l & Hsub & Hperm).
  eapply sublist_NoDup; [| apply (fmap_sublist models.id), Hsub].
  rewrite Hperm.
  eapply sublist_NoDup; [exact Hnd |]. apply (fmap_sublist models.id).
  etransitivity; apply sublist_filter.
Qed.

Lemma semantic_memories_stored user_id w mem :
  mem ∈ semantic_memories w user_id -> mem ∈ db w.
Proof.
  intros Hin. destruct (semantic_memories_sub user_id w) as (l & Hsub & Hperm).
  eapply elem_of_sublist in Hin; [| exact Hsub].
  rewrite Hperm in Hin.
  apply list_elem_of_filter in Hin as [_ Hin].
  now apply list_elem_of_filter in Hin as [_ Hin].
Qed.

(** C9. A rebuild returns normally. Rebuilding a second time changes
    neither the index nor the identifier list. After a rebuild of a
    non-empty memory set the identifier at ordinal [i] is that of the
    memory at position [i] of the list the rebuild worked on, and the
    vector there is its embedding; with identifiers unique in the table,
    that memory has a row, and every row of its identifier has
    [faiss_index_id = i] and is otherwise the memory as it was. A user
    without semantic memories is left as found: nothing is written. *)
Theorem C9_rebuild_is_deterministic_and_restamps :
  forall user_id w,
    let memories := semantic_memories w user_id in
    let w1 := snd (rebuild_user_index embed_text user_id w) in
    let w2 := snd (rebuild_user_index embed_text user_id w1) in
    fst (rebuild_user_index embed_text user_id w) = Return tt /\
    (index_files w2 = index_files w1 /\ meta_files w2 = meta_files w1) /\
    (memories <> [] ->
     loaded_ids w1 user_id = map models.id memories /\
     loaded_vectors w1 user_id = map embed_text (map models.content memories)) /\
    (NoDup (map models.id (db w)) ->
     forall i mem,
       memories !! i = Some mem ->
       with_faiss_index_id mem (Z.of_nat i) ∈ db w1 /\
       semantic_memories w1 user_id !! i
       = Some (with_faiss_index_id mem (Z.of_nat i)) /\
       loaded_ids w1 user_id !! i = Some (models.id mem) /\
       (exists r, r ∈ db w1 /\ models.id r = models.id mem) /\
       (forall r, r ∈ db w1 -> models.id r = models.id mem ->
          models.faiss_index_id r = Some (Z.of_nat i) /\ same_memory mem r)) /\
    (memories = [] ->
     rebuild_user_index embed_text user_id w = (Return tt, w)).
Proof.
  intros user_id w. cbv zeta.
  set (w1 := snd (rebuild_user_index embed_text user_id w)).
  remember (semantic_memories w user_id) as memories eqn:Hmem.
  set (g := restamp_row 0 memories).
  assert (Hg : forall r, same_memory r (g r)) by (intros r; apply restamp_row_same).
  assert (Hw1 : w1 =
    match memories with
    | [] => w
    | _ =>
        {| db := map g (db w);
           index_files :=
             <[user_id := {| d := shape1 (map embed_text (map models.content memories));
                             xb := map embed_text (map models.content memories) |}]>
               (index_files w);
           meta_files := <[user_id := map models.id memories]> (meta_files w) |}
    end).
  { subst w1 g. rewrite rebuild_user_index_run, <- Hmem. reflexivity. }
  clearbody w1.
  assert (Hsem1 : semantic_memories w1 user_id = map g memories).
  { destruct memories as [| m0 ms].
    - rewrite Hw1. now rewrite <- Hmem.
    - rewrite Hmem. apply semantic_memories_map; [exact Hg | now rewrite Hw1]. }
  split; [now rewrite rebuild_user_index_run |].
  split; [| split; [| split]].
  - rewrite rebuild_user_index_run. cbn [snd]. rewrite Hsem1.
    destruct memories as [| m0 ms]; [auto |].
    set (memories := m0 :: ms) in *.
    change (map g memories) with (g m0 :: map g ms) at 1.
    cbv zeta. cbn [index_files meta_files].
    rewrite (map_same_memory_id g memories Hg).
    rewrite (map_same_memory_content g memories Hg).
    rewrite Hw1. cbn [index_files meta_files].
    now rewrite !insert_insert_eq.
  - intros Hne. rewrite Hw1. destruct memories as [| m0 ms]; [contradiction |].
    unfold loaded_ids, loaded_vectors. cbn [index_files meta_files].
    now rewrite !lookup_insert_eq.
  - intros Hnd i mem Hi.
    pose proof (semantic_memories_NoDup user_id w Hnd) as Hnd'.
    rewrite <- Hmem in Hnd'.
    pose proof (restamp_row_at 0 memories i mem Hnd' Hi) as Hrow.
    rewrite Z.add_0_l in Hrow. fold g in Hrow.
    assert (Hin : mem ∈ db w).
    { apply (semantic_memories_stored user_id w). rewrite <- Hmem.
      eapply list_elem_of_lookup_2, Hi. }
    destruct memories as [| m0 ms]; [discriminate |].
    set (memories := m0 :: ms) in *.
    split; [| split; [| split; [| split]]].
    + rewrite <- Hrow, Hw1. cbn [db].
      apply list_elem_of_fmap. exists mem. auto.
    + rewrite Hsem1, <- Hrow.
      change (map g memories) with (g <$> memories).
      now rewrite list_lookup_fmap, Hi.
    + rewrite Hw1. unfold loaded_ids. cbn [index_files meta_files].
      rewrite !lookup_insert_eq.
      change (map models.id memories) with (models.id <$> memories).
      now rewrite list_lookup_fmap, Hi.
    + exists (g mem). split; [| apply (Hg mem)].
      rewrite Hw1. cbn [db]. apply list_elem_of_fmap. exists mem. auto.
    + intros r Hr Hid. rewrite Hw1 in Hr. cbn [db] in Hr.
      apply list_elem_of_fmap in Hr as (r0 & -> & Hr0).
      assert (Hid0 : models.id r0 = models.id mem).
      { destruct (Hg r0) as (Hid0 & _). now rewrite <- Hid0. }
      rewrite (NoDup_map_elem_eq models.id (db w) r0 mem Hnd Hr0 Hin Hid0).
      split; [| apply (Hg mem)].
      rewrite Hrow. reflexivity.
  - intros Hnil. rewrite rebuild_user_index_run, <- Hmem, Hnil. reflexivity.
Qed.

End IndexStore.

(** ** Prompt assembler *)

Section PromptAssembler.

Import Spec prompt_builder.
Local Open Scope Z_scope.

Lemma len_app a b : Py.len (a +:+ b) = Py.len a + Py.len b.
Proof.
  assert (H : String.length (a +:+ b) = (String.length a + String.length b)%nat).
  { induction a as [| c a IH]; simpl; [reflexivity | now f_equal]. }
  unfold Py.len. rewrite H. lia.
Qed.

Lemma len_nonneg a : 0 <= Py.len a.
Proof. unfold Py.len. lia. Qed.

Lemma length_substring_0 n s :
  String.length (substring 0 n s) = Nat.min n (String.length s).
Proof.
  revert s. induction n as [| n IH]; intros [| c s]; cbn; try reflexivity.
  now rewrite IH.
Qed.

Lemma len_slice_to s stop :
  0 <= stop -> Py.len (Py.str_slice_to s stop) = Z.min stop (Py.len s).
Proof.
  intros H. unfold Py.str_slice_to, Py.len.
  destruct (0 <=? stop) eqn:E; [| lia].
  rewrite length_substring_0. lia.
Qed.

Lemma truthy_false s : Py.truthy s = false -> s = EmptyString.
Proof. now destruct s. Qed.

Lemma estimate_tokens_pos text : 1 <= estimate_tokens text.
Proof. unfold estimate_tokens. lia. Qed.

(** A text is never longer than four characters per estimated token, plus
    three. *)
Lemma len_le_estimate text : Py.len text <= 4 * estimate_tokens text + 3.
Proof.
  unfold estimate_tokens.
  pose proof (Z.div_mod (Py.len text) 4 ltac:(lia)).
  pose proof (Z.mod_pos_bound (Py.len text) 4 ltac:(lia)).
  lia.
Qed.

(** Truncation to a budget that is not negative. *)
Lemma truncate_to_tokens_spec text budget :
  0 <= budget ->
  (Py.len text <= budget * 4 -> truncate_to_tokens text budget = text) /\
  (budget * 4 < Py.len text ->
   truncate_to_tokens text budget
   = substring 0 (Z.to_nat (budget * 4)) text +:+ marker /\
   Py.len (substring 0 (Z.to_nat (budget * 4)) text) = budget * 4).
Proof.
  intros Hb. unfold truncate_to_tokens. split; intros H.
  - destruct (Py.len text <=? budget * 4) eqn:E; [reflexivity | lia].
  - destruct (Py.len text <=? budget * 4) eqn:E; [lia |].
    unfold Py.str_slice_to. destruct (0 <=? budget * 4) eqn:E2; [| lia].
    split; [reflexivity |].
    unfold Py.len in *. rewrite length_substring_0. lia.
Qed.

(** The cost of a section cut to a non-negative budget stays within the
    budget (or one token, the least an estimate can be). *)
Lemma capped_estimate text budget :
  0 <= budget -> estimate_tokens (capped text budget) <= Z.max 1 budget.
Proof.
  intros Hb. unfold capped.
  destruct (estimate_tokens text >? budget) eqn:E; [| lia].
  destruct (truncate_to_tokens_spec text budget Hb) as [Hkeep Hcut].
  destruct (Z_le_gt_dec (Py.len text) (budget * 4)) as [Hle | Hgt].
  - rewrite (Hkeep Hle). unfold estimate_tokens in *.
    assert (Py.len text / 4 <= budget) by (apply Z.div_le_upper_bound; lia). lia.
  - destruct Hcut as [-> Hlen]; [lia |].
    unfold estimate_tokens. rewrite len_app, Hlen.
    change (Py.len marker) with 3.
    assert ((budget * 4 + 3) / 4 < budget + 1)
      by (apply Z.div_lt_upper_bound; lia).
    lia.
Qed.

Lemma capped_len text budget :
  0 <= budget -> Py.len (capped text budget) <= 4 * budget + 3.
Proof.
  intros Hb. unfold capped.
  destruct (estimate_tokens text >? budget) eqn:E.
  - destruct (truncate_to_tokens_spec text budget Hb) as [Hkeep Hcut].
    destruct (Z_le_gt_dec (Py.len text) (budget * 4)) as [Hle | Hgt].
    + rewrite (Hkeep Hle). lia.
    + destruct Hcut as [-> Hlen]; [lia |].
      rewrite len_app, Hlen. change (Py.len marker) with 3. lia.
  - pose proof (len_le_estimate text). lia.
Qed.

(** The shape of every prompt: the system instruction, then those of the
    three budgeted sections that are not empty once cut (profile at a
    quarter of the budget left after the reservation, memories at half of
    what the profile leaves, session history at what is left then), then
    the query section, joined by blank lines. *)
Lemma build_prompt_layout user_query profile retrieved_memories session_messages max_tokens :
  let remaining := max_tokens - reserved_tokens user_query in
  let profile_text := capped (build_profile_summary profile) (remaining / 4) in
  let remaining := remaining - estimate_tokens profile_text in
  let memory_text := capped (build_memory_context retrieved_memories) (remaining / 2) in
  let remaining := remaining - estimate_tokens memory_text in
  let session_text := capped (build_session_summary session_messages) remaining in
  build_prompt user_query profile retrieved_memories session_messages max_tokens
  = Py.join (Py.nl +:+ Py.nl)
      ([SYSTEM_INSTRUCTION]
       ++ List.filter Py.truthy [profile_text; memory_text; session_text]
       ++ [query_section user_query]).
Proof.
  cbv zeta. unfold build_prompt. cbv zeta.
  fold (query_section user_query). fold (reserved_tokens user_query).
  set (r0 := max_tokens - reserved_tokens user_query).
  fold (capped (build_profile_summary profile) (r0 / 4)).
  set (p := capped (build_profile_summary profile) (r0 / 4)).
  fold (capped (build_memory_context retrieved_memories) ((r0 - estimate_tokens p) / 2)).
  set (m := capped (build_memory_context retrieved_memories) _).
  fold (capped (build_session_summary session_messages)
          (r0 - estimate_tokens p - estimate_tokens m)).
  set (t := capped (build_session_summary session_messages) _).
  cbn [List.filter].
  destruct (Py.truthy p), (Py.truthy m), (Py.truthy t); reflexivity.
Qed.

Lemma len_join_le sys sep q (mid : list string) (bound : Z) :
  fold_right (fun s acc => Py.len s + Py.len sep + acc) 0 mid <= bound ->
  Py.len (Py.join sep ([sys] ++ mid ++ [q]))
  <= Py.len sys + Py.len sep + Py.len q + bound.
Proof.
  revert sys bound. induction mid as [| x mid IH]; intros sys bound Hb.
  - cbn in *. rewrite !len_app. lia.
  - cbn [fold_right] in Hb.
    change (Py.join sep ([sys] ++ (x :: mid) ++ [q]))
      with (sys +:+ sep +:+ Py.join sep ([x] ++ mid ++ [q])).
    rewrite !len_app.
    specialize (IH x (bound - Py.len x - Py.len sep) ltac:(lia)). lia.
Qed.

Lemma build_prompt_len_le user_query profile retrieved_memories session_messages max_tokens :
  reserved_tokens user_query + 2 <= max_tokens ->
  Py.len (build_prompt user_query profile retrieved_memories session_messages max_tokens)
  <= 4 * max_tokens.
Proof.
  intros Hres. rewrite build_prompt_layout. cbv zeta.
  set (r0 := max_tokens - reserved_tokens user_query).
  set (p := capped (build_profile_summary profile) (r0 / 4)).
  set (m := capped (build_memory_context retrieved_memories) _).
  set (t := capped (build_session_summary session_messages) _).
  assert (Hr0 : 2 <= r0) by (subst r0; lia).
  assert (Hb0 : 0 <= r0 / 4) by (apply Z.div_pos; lia).
  pose proof (estimate_tokens_pos p) as Hp1.
  pose proof (capped_estimate (build_profile_summary profile) (r0 / 4) Hb0) as Hp2.
  fold p in Hp2.
  pose proof (len_le_estimate p) as Hp3.
  assert (Hq0 : r0 / 4 <= r0 - 2).
  { apply Z.lt_succ_r, Z.div_lt_upper_bound; lia. }
  assert (Hr1 : 1 <= r0 - estimate_tokens p) by lia.
  assert (Hb1 : 0 <= (r0 - estimate_tokens p) / 2) by (apply Z.div_pos; lia).
  pose proof (estimate_tokens_pos m) as Hm1.
  pose proof (capped_estimate (build_memory_context retrieved_memories)
                ((r0 - estimate_tokens p) / 2) Hb1) as Hm2.
  fold m in Hm2.
  pose proof (len_le_estimate m) as Hm3.
  assert (Hq1 : (r0 - estimate_tokens p) / 2 <= r0 - estimate_tokens p - 1).
  { apply Z.lt_succ_r, Z.div_lt_upper_bound; lia. }
  assert (Hr2 : 0 <= r0 - estimate_tokens p - estimate_tokens m) by lia.
  pose proof (capped_len (build_session_summary session_messages)
                (r0 - estimate_tokens p - estimate_tokens m) Hr2) as Ht.
  fold t in Ht.
  pose proof (len_join_le SYSTEM_INSTRUCTION (Py.nl +:+ Py.nl) (query_section user_query)
                (List.filter Py.truthy [p; m; t])
                (Py.len p + Py.len m + Py.len t + 6)) as Hjoin.
  pose proof (len_nonneg p). pose proof (len_nonneg m). pose proof (len_nonneg t).
  change (Py.len (Py.nl +:+ Py.nl)) with 2 in Hjoin.
  assert (Hfold : fold_right (fun s acc => Py.len s + 2 + acc) 0
                    (List.filter Py.truthy [p; m; t])
                  <= Py.len p + Py.len m + Py.len t + 6).
  { cbn [List.filter].
    destruct (Py.truthy p), (Py.truthy m), (Py.truthy t); cbn [fold_right]; lia. }
  specialize (Hjoin Hfold).
  pose proof (len_le_estimate SYSTEM_INSTRUCTION) as Hsys.
  pose proof (len_le_estimate (query_section user_query)) as Hq.
  unfold reserved_tokens in r0.
  set (es := estimate_tokens SYSTEM_INSTRUCTION) in *.
  set (eq := estimate_tokens (query_section user_query)) in *.
  set (ls := Py.len SYSTEM_INSTRUCTION) in *.
  set (lq := Py.len (query_section user_query)) in *.
  set (out := Py.len (Py.join _ _)) in *.
  clearbody es eq ls lq out.
  subst r0. lia.
Qed.

(** C2, as the code has it. When the token ceiling leaves at least two
    tokens after the reservation (system instruction, query section and
    the buffer of 50), the prompt measures at most [max_tokens] tokens at
    four characters per token, rounded up; one token lower the bound is
    lost (see the sample inputs below). Truncation to a budget that is
    not negative leaves a text alone when it has at most [4 * budget]
    characters; otherwise it keeps exactly the first [4 * budget]
    characters and appends the marker. *)
Theorem C2_prompt_within_token_ceiling :
  (forall user_query profile retrieved_memories session_messages max_tokens,
      reserved_tokens user_query + 2 <= max_tokens ->
      tokens (build_prompt user_query profile retrieved_memories
                session_messages max_tokens) <= max_tokens) /\
  (forall text budget,
      0 <= budget ->
      (Py.len text <= budget * 4 -> truncate_to_tokens text budget = text) /\
      (budget * 4 < Py.len text ->
       truncate_to_tokens text budget
       = substring 0 (Z.to_nat (budget * 4)) text +:+ marker /\
       Py.len (substring 0 (Z.to_nat (budget * 4)) text) = budget * 4)).
Proof.
  split; [| exact truncate_to_tokens_spec].
  intros user_query profile retrieved_memories session_messages max_tokens Hres.
  pose proof (build_prompt_len_le user_query profile retrieved_memories
                session_messages max_tokens Hres) as Hlen.
  unfold tokens.
  apply Z.lt_succ_r, Z.div_lt_upper_bound; lia.
Qed.

Lemma capped_empty_negative budget :
  budget < 0 -> capped EmptyString budget = marker.
Proof.
  intros Hb. unfold capped, truncate_to_tokens, estimate_tokens, Py.str_slice_to.
  change (Py.len EmptyString) with 0. cbn [Z.div Z.max].
  destruct (Z.max 1 (0 / 4) >? budget) eqn:E1; [| cbn in E1; lia].
  destruct (0 <=? budget * 4) eqn:E2; [lia |].
  destruct (0 <=? budget * 4) eqn:E3; [lia |].
  now destruct (Z.to_nat (0 + budget * 4)).
Qed.

(** C7, where the code departs from it. When the ceiling is below the
    reserved tokens, a prompt with no profile, no memories and no session
    history still carries three sections between the system instruction
    and the query: each empty section has become the bare marker. *)
Theorem C7_empty_sections_become_markers :
  forall user_query max_tokens,
    max_tokens < reserved_tokens user_query ->
    build_prompt user_query None [] [] max_tokens
    = Py.join (Py.nl +:+ Py.nl)
        [SYSTEM_INSTRUCTION; marker; marker; marker; query_section user_query].
Proof.
  intros user_query max_tokens Hlt. rewrite build_prompt_layout. cbv zeta.
  change (build_profile_summary None) with EmptyString.
  change (build_memory_context []) with EmptyString.
  change (build_session_summary []) with EmptyString.
  set (r0 := max_tokens - reserved_tokens user_query).
  assert (Hr0 : r0 < 0) by (subst r0; lia).
  assert (H0 : r0 / 4 < 0) by (apply Z.div_lt_upper_bound; lia).
  rewrite (capped_empty_negative (r0 / 4) H0).
  change (estimate_tokens marker) with 1.
  assert (H1 : (r0 - 1) / 2 < 0) by (apply Z.div_lt_upper_bound; lia).
  rewrite (capped_empty_negative ((r0 - 1) / 2) H1).
  change (estimate_tokens marker) with 1.
  rewrite (capped_empty_negative (r0 - 1 - 1)) by lia.
  reflexivity.
Qed.

End PromptAssembler.

(** *** The assembler on sample inputs *)

(** A ceiling of 100 tokens, below the 145 the reservation takes for the
    query "hi": the three empty sections come out as markers. *)
Lemma C7_failing_input_witness :
  prompt_builder.build_prompt "hi" None [] [] 100
  = Py.join (Py.nl +:+ Py.nl)
      [prompt_builder.SYSTEM_INSTRUCTION; Spec.marker; Spec.marker; Spec.marker;
       Spec.query_section "hi"].
Proof.
  apply C7_empty_sections_become_markers.
  vm_compute. reflexivity.
Defined.

(** C2 as stated fails: with a ceiling of 50 tokens the prompt still holds
    the whole system instruction and measures 100 tokens, beyond the
    ceiling by far more than a marker. It also fails one token below the
    ceiling of the corrected statement: the reservation for the query "hi"
    is 145 tokens, and at a ceiling of 146 the session history is cut with
    a negative budget, which only drops its last four characters; the
    prompt then measures 198 tokens. *)
Lemma C2_counterexample_small_ceiling :
  ~ (Spec.tokens (prompt_builder.build_prompt "" None [] [] 50)
     <= 50 + Py.len Spec.marker)%Z /\
  Spec.reserved_tokens "hi" = 145%Z /\
  ~ (Spec.tokens (prompt_builder.build_prompt "hi" (Some Samples.profile)
                    [Samples.ranked_memory] Samples.long_session 146)
     <= 146 + Py.len Spec.marker)%Z.
Proof.
  split; [| split].
  - vm_compute. intros H. apply H. reflexivity.
  - reflexivity.
  - vm_compute. intros H. apply H. reflexivity.
Qed.

(** At a ceiling of 147, two tokens above the reservation, the profile,
    the memories and the session history of the same input are all cut to
    their markers and the prompt stays within the ceiling. *)
Lemma C2_prompt_witness :
  (Spec.tokens (prompt_builder.build_prompt "hi" (Some Samples.profile)
                  [Samples.ranked_memory] Samples.long_session 147) <= 147)%Z.
Proof.
  apply (proj1 C2_prompt_within_token_ceiling).
  vm_compute. congruence.
Defined.

(** *** The index store on the sample data *)

(** Appending a third memory to the sample user's aligned index keeps it
    aligned. *)
Lemma C8_append_witness :
  Spec.aligned
    (snd (retrieval.add_memory_to_index Examples.embed_text
            "u" "c" "i like tea" Examples.world)) "u".
Proof.
  destruct (C8_append_returns_next_ordinal Examples.embed_text
              "u" "c" "i like tea" Examples.world)
    as (w' & Hrun & _ & _ & _ & _ & _ & Hal).
  rewrite Hrun. apply Hal. reflexivity.
Defined.

(** A rebuild after a newer memory was stored: the newer memory comes
    first, so the first sample memory, which had slot 0, is stamped slot 1. *)
Lemma C9_rebuild_witness :
  Forall (fun r => models.id r = "a"%string -> models.faiss_index_id r = Some 1%Z)
    (db (snd (retrieval.rebuild_user_index Examples.embed_text "u"
                Samples.world_with_newer))).
Proof.
  destruct (C9_rebuild_is_deterministic_and_restamps Examples.embed_text
              "u" Samples.world_with_newer) as (_ & _ & _ & Hstamp & _).
  destruct (Hstamp ltac:(apply (bool_decide_unpack _); vm_compute; exact I)
              1%nat Examples.mem_a ltac:(reflexivity)) as (_ & _ & _ & _ & Hfield).
  apply Forall_forall. intros r Hr Hid. now destruct (Hfield r Hr Hid).
Defined.

(** ** Memory rows *)

Section MemoryRows.

Import Spec Laws memory_crud.

Lemma create_memory_run new_id utcnow user_id memory_type content session_id metadata
    faiss_index_id w :
  let mem := new_memory new_id utcnow user_id memory_type content
               (memory_service.compute_importance_score content 1)
               session_id faiss_index_id
               (match metadata with Some md => md | None => [] end) in
  create_memory new_id utcnow user_id memory_type content session_id metadata
    faiss_index_id w
  = (Return mem,
     {| db := db w ++ [mem];
        index_files := index_files w;
        meta_files := meta_files w |}).
Proof. reflexivity. Qed.

Lemma update_memory_access_run utcnow memory w :
  update_memory_access utcnow memory w
  = (Return tt,
     {| db := map (fun r => if String.eqb (models.id r) (models.id memory)
                            then accessed utcnow memory r else r) (db w);
        index_files := index_files w;
        meta_files := meta_files w |}).
Proof. reflexivity. Qed.

Lemma get_memory_by_id_run memory_id user_id w :
  get_memory_by_id memory_id user_id w = (Return (stored w user_id memory_id), w).
Proof. reflexivity. Qed.

Lemma delete_memory_run memory_id user_id w :
  delete_memory memory_id user_id w
  = match stored w user_id memory_id with
    | None => (Return false, w)
    | Some mem =>
        (Return true,
         {| db := List.filter
                    (fun r => negb (String.eqb (models.id r) (models.id mem))) (db w);
            index_files := index_files w;
            meta_files := meta_files w |})
    end.
Proof.
  unfold delete_memory.
  rewrite (bind_run _ _ _ _ _ (get_memory_by_id_run _ _ _)).
  now destruct (stored w user_id memory_id).
Qed.

Lemma stored_none_iff w user_id memory_id :
  stored w user_id memory_id = None <->
  forall r, r ∈ db w -> ~ (models.id r = memory_id /\ models.user_id r = user_id).
Proof.
  unfold stored. split.
  - intros Hnone r Hin [Hid Hu].
    apply list_elem_of_In in Hin.
    pose proof (find_none _ _ Hnone r Hin) as Hf. cbn in Hf.
    rewrite <- Hid, <- Hu, !String.eqb_refl in Hf. discriminate.
  - intros Hall.
    destruct (find _ (db w)) as [mem |] eqn:Hf; [| reflexivity].
    apply find_some in Hf as [Hin Hp].
    apply andb_true_iff in Hp as [H1 H2]. apply String.eqb_eq in H1, H2.
    exfalso. apply (Hall mem); [now apply list_elem_of_In | auto].
Qed.

(** The rows a deletion leaves: those of another identifier. *)
Lemma deleted_rows w user_id memory_id mem :
  stored w user_id memory_id = Some mem ->
  forall r,
    r ∈ List.filter (fun r => negb (String.eqb (models.id r) (models.id mem))) (db w)
    <-> r ∈ db w /\ models.id r <> memory_id.
Proof.
  intros Hs r. apply stored_sound in Hs as (_ & Hid & _).
  rewrite !list_elem_of_In, filter_In, Hid.
  rewrite negb_true_iff. rewrite <- not_true_iff_false, String.eqb_eq. tauto.
Qed.

(** X1. Deleting a memory the user does not own, or one that is not there,
    answers [False] and changes nothing. Deleting a stored one answers
    [True]; afterwards it cannot be fetched, the rows with other
    identifiers are all still there, and the index files are untouched. *)
Theorem X1_delete_memory_then_lookup :
  forall memory_id user_id w,
    (stored w user_id memory_id = None ->
     delete_memory memory_id user_id w = (Return false, w)) /\
    (forall mem,
        stored w user_id memory_id = Some mem ->
        exists w',
          delete_memory memory_id user_id w = (Return true, w') /\
          get_memory_by_id memory_id user_id w' = (Return None, w') /\
          (forall r, r ∈ db w' <-> r ∈ db w /\ models.id r <> memory_id) /\
          index_files w' = index_files w /\
          meta_files w' = meta_files w).
Proof.
  intros memory_id user_id w. rewrite delete_memory_run. split.
  - now intros ->.
  - intros mem Hs. rewrite Hs. eexists. split; [reflexivity |].
    pose proof (deleted_rows w user_id memory_id mem Hs) as Hrows.
    split; [| split; [exact Hrows | split; reflexivity]].
    rewrite get_memory_by_id_run. do 2 f_equal. apply stored_none_iff.
    cbn [db]. intros r Hin [Hr _]. apply Hrows in Hin. tauto.
Qed.

Lemma list_slice_to_elem {A} (l : list A) stop x :
  x ∈ Py.list_slice_to l stop -> x ∈ l.
Proof.
  unfold Py.list_slice_to.
  destruct (0 <=? stop)%Z; intros H; apply elem_of_take in H as (i & H & _);
    eapply list_elem_of_lookup_2, H.
Qed.

Lemma retrieve_returns embed_text search utcnow user_id query top_k w :
  (1 <= count_given top_k)%Z ->
  exists out,
    retrieval.retrieve_relevant_memories
      embed_text search utcnow user_id query top_k w = (Return out, w).
Proof. intros Hk. rewrite retrieve_spec, (search_refused_false _ _ _ Hk). eauto. Qed.

(** Whatever ranking returns stands for a row now stored for the user. *)
Lemma ranked_candidates_stored embed_text search utcnow user_id query top_k w out c :
  fst (retrieval.retrieve_relevant_memories
         embed_text search utcnow user_id query top_k w) = Return out ->
  c ∈ out ->
  exists mem, mem ∈ db w /\ models.user_id mem = user_id /\
              models.id mem = candidate.id c.
Proof.
  rewrite retrieve_spec. cbn [fst].
  destruct (search_refused w user_id (count_given top_k)); [discriminate |].
  intros Hout Hc. injection Hout as <-.
  apply list_slice_to_elem in Hc.
  rewrite (sort_desc_perm retrieval.score_key) in Hc.
  apply list_elem_of_lookup in Hc as [n Hn].
  destruct (search_order_candidates_sound _ _ _ _ _ _ _ _ _ Hn)
    as (index & memory_ids & dist & idx & mem & _ & _ & _ & _ & _ & Hin & Hu & ->).
  exists mem. auto.
Qed.

(** X2. Once a memory is deleted, ranking never returns it, although the
    index still holds its vector and identifier: whatever the search
    reports, no candidate of a ranking that returns carries the deleted
    identifier; and the ranking does return when the count is at least 1
    or left to its default. *)
Theorem X2_deleted_memory_is_never_ranked :
  forall embed_text search utcnow memory_id user_id query top_k w,
    fst (delete_memory memory_id user_id w) = Return true ->
    let w' := snd (delete_memory memory_id user_id w) in
    index_files w' = index_files w /\
    meta_files w' = meta_files w /\
    (forall out,
        fst (retrieval.retrieve_relevant_memories
               embed_text search utcnow user_id query top_k w') = Return out ->
        forall c, c ∈ out -> candidate.id c <> memory_id) /\
    ((1 <= count_given top_k)%Z ->
     exists out,
       retrieval.retrieve_relevant_memories
         embed_text search utcnow user_id query top_k w' = (Return out, w')).
Proof.
  intros embed_text search utcnow memory_id user_id query top_k w Hdel w'.
  subst w'. rewrite delete_memory_run in Hdel |- *.
  destruct (stored w user_id memory_id) as [mem |] eqn:Hs; [| discriminate Hdel].
  pose proof (deleted_rows w user_id memory_id mem Hs) as Hrows.
  cbn [snd]. set (w1 := {| db := _ |}) in *.
  split; [reflexivity |]. split; [reflexivity |]. split.
  - intros out Hout c Hc.
    destruct (ranked_candidates_stored embed_text search utcnow user_id query top_k
                w1 out c Hout Hc) as (r & Hin & _ & Hid).
    apply Hrows in Hin. rewrite <- Hid. tauto.
  - apply retrieve_returns.
Qed.

(** The row an upsert reinforces: the first near-duplicate in table order. *)
Lemma upsert_find user_id memory_type content (l : list models.Memory) :
  find (fun mem => String.eqb (content_key (models.content mem)) (content_key content))
       (List.filter (fun m => String.eqb (models.user_id m) user_id
                              && String.eqb (models.memory_type m) memory_type)%bool l)
  = find (near_duplicate user_id memory_type content) l.
Proof.
  induction l as [| r l IH]; [reflexivity |].
  cbn [List.filter find]. unfold near_duplicate at 1.
  destruct (String.eqb (models.user_id r) user_id
            && String.eqb (models.memory_type r) memory_type)%bool; cbn [andb find].
  - destruct (String.eqb _ _); [reflexivity | exact IH].
  - exact IH.
Qed.

Lemma upsert_run new_id utcnow user_id memory_type content session_id metadata w :
  upsert_memory_by_content new_id utcnow user_id memory_type content
    session_id metadata w
  = match find (near_duplicate user_id memory_type content) (db w) with
    | Some mem =>
        (Return (accessed utcnow mem mem),
         {| db := map (fun r => if String.eqb (models.id r) (models.id mem)
                                then accessed utcnow mem r else r) (db w);
            index_files := index_files w;
            meta_files := meta_files w |})
    | None =>
        let mem := new_memory new_id utcnow user_id memory_type content
                     (memory_service.compute_importance_score content 1)
                     session_id None
                     (match metadata with Some md => md | None => [] end) in
        (Return mem,
         {| db := db w ++ [mem];
            index_files := index_files w;
            meta_files := meta_files w |})
    end.
Proof.
  unfold upsert_memory_by_content.
  rewrite (bind_run _ _ _ w w) by reflexivity.
  rewrite upsert_find.
  destruct (find (near_duplicate user_id memory_type content) (db w)); reflexivity.
Qed.

Lemma unique_ids_eq w r m :
  unique_ids w -> r ∈ db w -> m ∈ db w -> models.id r = models.id m -> r = m.
Proof.
  unfold unique_ids. intros Hnd Hr Hm Hid.
  apply list_elem_of_lookup in Hr as [i Hi]. apply list_elem_of_lookup in Hm as [j Hj].
  assert (i = j).
  { eapply (NoDup_lookup _ i j (models.id r) Hnd).
    - change (map models.id (db w)) with (models.id <$> db w).
      now rewrite list_lookup_fmap, Hi.
    - change (map models.id (db w)) with (models.id <$> db w).
      now rewrite list_lookup_fmap, Hj, Hid. }
  subst j. congruence.
Qed.

Lemma find_elem {A} (p : A -> bool) (l : list A) x :
  find p l = Some x -> x ∈ l /\ p x = true.
Proof.
  intros H. apply find_some in H as [Hin Hp]. split; [now apply list_elem_of_In | exact Hp].
Qed.

(** X3. An upsert keeps the data-model invariant: if identifiers are unique
    and every row's importance is the importance function of its content
    and reinforcement count, the same holds of every row afterwards,
    whether the call reinforced a row or created one. *)
Theorem X3_upsert_keeps_importance_consistent :
  forall new_id utcnow user_id memory_type content session_id metadata w,
    unique_ids w ->
    Forall importance_consistent (db w) ->
    Forall importance_consistent
      (db (snd (upsert_memory_by_content new_id utcnow user_id memory_type content
                  session_id metadata w))).
Proof.
  intros new_id utcnow user_id memory_type content session_id metadata w Hnd Hall.
  rewrite upsert_run.
  destruct (find (near_duplicate user_id memory_type content) (db w)) as [mem |] eqn:Hf.
  - cbn [snd db]. apply find_elem in Hf as [Hin _].
    rewrite Forall_forall in Hall |- *. intros r' Hr'.
    apply list_elem_of_fmap in Hr' as (r & -> & Hr).
    destruct (String.eqb_spec (models.id r) (models.id mem)) as [Hid | _].
    + rewrite (unique_ids_eq w r mem Hnd Hr Hin Hid). reflexivity.
    + now apply Hall.
  - cbv zeta. cbn [snd db]. apply Forall_app. split; [exact Hall |].
    constructor; [reflexivity | constructor].
Qed.

(** X4. Upserting content whose lower-cased first 120 characters equal
    those of the content just upserted (same user, same type) never adds a
    row: it reinforces the very row the first call created or reinforced,
    whose count goes up by one. The first call adds at most one row. *)
Theorem X4_upsert_twice_reinforces :
  forall id1 id2 t1 t2 user_id memory_type content content' sid sid' md md' w,
    content_key content' = content_key content ->
    exists m1 w1 m2 w2,
      upsert_memory_by_content id1 t1 user_id memory_type content sid md w
      = (Return m1, w1) /\
      upsert_memory_by_content id2 t2 user_id memory_type content' sid' md' w1
      = (Return m2, w2) /\
      (length (db w1) <= length (db w) + 1)%nat /\
      length (db w2) = length (db w1) /\
      models.id m2 = models.id m1 /\
      models.reinforcement_count m2 = (models.reinforcement_count m1 + 1)%Z.
Proof.
  intros id1 id2 t1 t2 user_id memory_type content content' sid sid' md md' w Hkey.
  assert (Hnd : forall r, near_duplicate user_id memory_type content' r
                          = near_duplicate user_id memory_type content r).
  { intros r. unfold near_duplicate. now rewrite Hkey. }
  rewrite upsert_run.
  destruct (find (near_duplicate user_id memory_type content) (db w)) as [mem |] eqn:Hf.
  - (* the first call reinforces [mem] *)
    exists (accessed t1 mem mem),
      {| db := map (fun r => if String.eqb (models.id r) (models.id mem)
                             then accessed t1 mem r else r) (db w);
         index_files := index_files w;
         meta_files := meta_files w |},
      (accessed t2 (accessed t1 mem mem) (accessed t1 mem mem)).
    eexists. split; [reflexivity |].
    rewrite upsert_run. cbn [db].
    assert (Hf2 : find (near_duplicate user_id memory_type content')
                    (map (fun r => if String.eqb (models.id r) (models.id mem)
                                   then accessed t1 mem r else r) (db w))
                  = Some (accessed t1 mem mem)).
    { clear -Hf Hnd. induction (db w) as [| r l IH]; [discriminate |].
      cbn [find map] in *. rewrite Hnd.
      assert (Hsame : forall x, near_duplicate user_id memory_type content
                                  (accessed t1 mem x)
                                = near_duplicate user_id memory_type content x)
        by reflexivity.
      destruct (near_duplicate user_id memory_type content r) eqn:Hr.
      - injection Hf as ->. rewrite String.eqb_refl, Hsame, Hr. reflexivity.
      - destruct (String.eqb (models.id r) (models.id mem));
          [rewrite Hsame |]; rewrite Hr; apply IH, Hf. }
    rewrite Hf2. split; [reflexivity |]. cbn [db].
    rewrite !length_map. repeat split; lia.
  - (* the first call creates a row *)
    cbv zeta.
    set (m1 := new_memory id1 t1 user_id memory_type content _ sid None _).
    exists m1, {| db := db w ++ [m1];
                  index_files := index_files w;
                  meta_files := meta_files w |}, (accessed t2 m1 m1).
    eexists. split; [reflexivity |].
    rewrite upsert_run. cbn [db].
    assert (Hf2 : find (near_duplicate user_id memory_type content') (db w ++ [m1])
                  = Some m1).
    { clear -Hf Hnd. induction (db w) as [| r l IH].
      - cbn. rewrite Hnd. unfold near_duplicate, m1. cbn.
        now rewrite !String.eqb_refl.
      - cbn [find app] in *. rewrite Hnd.
        destruct (near_duplicate user_id memory_type content r); [discriminate |].
        apply IH, Hf. }
    rewrite Hf2. split; [reflexivity |]. cbn [db].
    rewrite length_map, length_app. cbn. repeat split; lia.
Qed.

Lemma filter_map_fixed {A} (p : A -> bool) (f : A -> A) (l : list A) :
  (forall x, p (f x) = p x) ->
  (forall x, x ∈ l -> p x = true -> f x = x) ->
  List.filter p (map f l) = List.filter p l.
Proof.
  intros Hp Hfix. induction l as [| x l IH]; [reflexivity |].
  cbn [map List.filter]. rewrite Hp.
  rewrite IH by (intros y Hy; apply Hfix; now right).
  destruct (p x) eqn:Hx; [| reflexivity].
  rewrite (Hfix x) by (auto; left). reflexivity.
Qed.

(** X5. An upsert for one user leaves every other user's rows exactly as
    they were, in the same order, and does not touch the index files
    (identifiers being unique). *)
Theorem X5_upsert_leaves_other_users_alone :
  forall new_id utcnow user_id memory_type content session_id metadata w,
    unique_ids w ->
    let w' := snd (upsert_memory_by_content new_id utcnow user_id memory_type content
                     session_id metadata w) in
    List.filter (fun r => negb (String.eqb (models.user_id r) user_id)) (db w')
    = List.filter (fun r => negb (String.eqb (models.user_id r) user_id)) (db w) /\
    index_files w' = index_files w /\
    meta_files w' = meta_files w.
Proof.
  intros new_id utcnow user_id memory_type content session_id metadata w Hnd.
  rewrite upsert_run.
  destruct (find (near_duplicate user_id memory_type content) (db w)) as [mem |] eqn:Hf.
  - cbn [snd db index_files meta_files]. split; [| auto].
    apply find_elem in Hf as [Hin Hdup].
    assert (Hu : models.user_id mem = user_id).
    { unfold near_duplicate in Hdup.
      apply andb_true_iff in Hdup as [Hdup _]. apply andb_true_iff in Hdup as [Hdup _].
      now apply String.eqb_eq. }
    apply filter_map_fixed.
    + intros r. now destruct (String.eqb (models.id r) (models.id mem)).
    + intros r Hr Hother.
      destruct (String.eqb_spec (models.id r) (models.id mem)) as [Hid | _]; [| reflexivity].
      rewrite (unique_ids_eq w r mem Hnd Hr Hin Hid), Hu, String.eqb_refl in Hother.
      discriminate.
  - cbv zeta. cbn [snd db index_files meta_files]. split; [| auto].
    rewrite List.filter_app. cbn. rewrite String.eqb_refl. cbn. apply app_nil_r.
Qed.

Lemma sort_desc_elem {A} (key : A -> Q) (l : list A) x :
  x ∈ Py.sort_desc key l <-> x ∈ l.
Proof. now rewrite (sort_desc_perm key l). Qed.

(** X6. Listing a user's memories changes nothing and returns rows of that
    user only (of the requested type, unless the type is absent or the
    empty string), newest first, as many as there are such rows up to the
    limit. *)
Theorem X6_get_memories_by_user :
  forall user_id memory_type limit w,
    (0 <= limit)%Z ->
    exists out,
      memory_service.get_memories_by_user user_id memory_type limit w
      = (Return out, w) /\
      (forall m, m ∈ out -> m ∈ db w /\ selected user_id memory_type m) /\
      descending (fun m => inject_Z (models.timestamp m)) out /\
      Z.of_nat (length out)
      = Z.min limit (Z.of_nat (length (filter (selected user_id memory_type) (db w)))).
Proof.
  intros user_id memory_type limit w Hlimit.
  unfold memory_service.get_memories_by_user.
  rewrite (bind_run _ _ _ w w) by reflexivity. unfold ret.
  set (q := match memory_type with
            | Some t => if Py.truthy t
                        then filter (fun m => models.memory_type m = t)
                               (filter (fun m => models.user_id m = user_id) (db w))
                        else filter (fun m => models.user_id m = user_id) (db w)
            | None => filter (fun m => models.user_id m = user_id) (db w)
            end).
  assert (Hq : q = filter (selected user_id memory_type) (db w)).
  { subst q. unfold selected. destruct memory_type as [t |].
    - destruct t as [| c t]; cbn [Py.truthy].
      + apply list_filter_iff. intros m. tauto.
      + rewrite list_filter_filter. apply list_filter_iff. intros m.
        split; [intros [? ?]; auto | intros [? [? | ?]]; [discriminate | auto]].
    - apply list_filter_iff. intros m. tauto. }
  eexists. split; [reflexivity |]. rewrite Hq. split; [| split].
  - intros m Hm. apply elem_of_take in Hm as (i & Hm & _).
    apply list_elem_of_lookup_2 in Hm. apply sort_desc_elem in Hm.
    apply list_elem_of_filter in Hm. tauto.
  - apply descending_firstn, sort_desc_descending.
  - rewrite length_take, sort_desc_length. lia.
Qed.

End MemoryRows.

(** ** Index files and stored memories *)

Section StoredMemories.

Import Spec Laws retrieval retrieval_store.

Variable embed_text : string -> vec.
Variable fails : models.Memory -> bool.

(** X7. What is saved for a user is what the next load returns; loads of
    other users see what they saw before; the table is not touched. *)
Theorem X7_save_then_load :
  forall user_id index memory_ids w,
    let w' := snd (save_faiss_index user_id index memory_ids w) in
    load_faiss_index user_id w' = (Return (Some index, memory_ids), w') /\
    (forall other, other <> user_id ->
                   fst (load_faiss_index other w') = fst (load_faiss_index other w)) /\
    db w' = db w.
Proof.
  intros user_id index memory_ids w. rewrite save_faiss_index_run. cbn [snd].
  split; [| split; [| reflexivity]].
  - rewrite load_faiss_index_run. cbn [index_files meta_files].
    now rewrite !lookup_insert_eq.
  - intros other Hne. rewrite !load_faiss_index_run. cbn [fst index_files meta_files].
    now rewrite !lookup_insert_ne by congruence.
Qed.

(** What one append does to the index and its identifier list. *)
Lemma add_memory_to_index_effect :
  forall user_id memory_id content w,
    let n := length (loaded_ids w user_id) in
    exists w',
      add_memory_to_index embed_text user_id memory_id content w
      = (Return (Z.of_nat n), w') /\
      db w' = db w /\
      loaded_ids w' user_id = loaded_ids w user_id ++ [memory_id] /\
      loaded_vectors w' user_id = loaded_vectors w user_id ++ [embed_text content] /\
      loaded_ids w' user_id !! n = Some memory_id /\
      (forall i x, loaded_ids w user_id !! i = Some x ->
                   loaded_ids w' user_id !! i = Some x) /\
      (aligned w user_id ->
       aligned w' user_id /\
       loaded_vectors w' user_id !! n = Some (embed_text content)).
Proof.
  intros user_id memory_id content w n.
  rewrite add_memory_to_index_run. eexists. split; [reflexivity |].
  assert (Hids : loaded_ids
            {| db := db w;
               index_files :=
                 <[user_id :=
                     match index_files w !! user_id, meta_files w !! user_id with
                     | Some index, Some _ => index_add index [embed_text content]
                     | _, _ => index_add
                                 (IndexFlatIP (Z.of_nat (length (embed_text content))))
                                 [embed_text content]
                     end]> (index_files w);
               meta_files :=
                 <[user_id := loaded_ids w user_id ++ [memory_id]]> (meta_files w) |}
            user_id = loaded_ids w user_id ++ [memory_id]).
  { unfold loaded_ids at 1. cbn [index_files meta_files].
    now rewrite !lookup_insert_eq. }
  assert (Hvecs : loaded_vectors
            {| db := db w;
               index_files :=
                 <[user_id :=
                     match index_files w !! user_id, meta_files w !! user_id with
                     | Some index, Some _ => index_add index [embed_text content]
                     | _, _ => index_add
                                 (IndexFlatIP (Z.of_nat (length (embed_text content))))
                                 [embed_text content]
                     end]> (index_files w);
               meta_files :=
                 <[user_id := loaded_ids w user_id ++ [memory_id]]> (meta_files w) |}
            user_id = loaded_vectors w user_id ++ [embed_text content]).
  { unfold loaded_vectors. cbn [index_files meta_files].
    rewrite !lookup_insert_eq.
    destruct (index_files w !! user_id) as [index |]; [| reflexivity].
    now destruct (meta_files w !! user_id). }
  rewrite Hids, Hvecs.
  split; [reflexivity |]. split; [reflexivity |]. split; [reflexivity |].
  split; [| split].
  - subst n. now rewrite lookup_app_r, Nat.sub_diag.
  - intros i x Hx. now apply lookup_app_l_Some.
  - unfold aligned. rewrite Hids, Hvecs. intros Hal. split.
    + rewrite !length_app. cbn. lia.
    + subst n. rewrite <- Hal. now rewrite lookup_app_r, Nat.sub_diag.
Qed.

Lemma embed_and_store_memory_run user_id mem w :
  fails mem = false ->
  embed_and_store_memory embed_text fails user_id mem w
  = (Return tt,
     let w1 := snd (add_memory_to_index embed_text user_id
                      (models.id mem) (models.content mem) w) in
     {| db := map (fun r => if String.eqb (models.id r) (models.id mem)
                            then with_faiss_index_id r
                                   (Z.of_nat (length (loaded_ids w user_id)))
                            else r) (db w1);
        index_files := index_files w1;
        meta_files := meta_files w1 |}).
Proof.
  intros Hf. unfold embed_and_store_memory. rewrite Hf.
  rewrite (bind_run _ _ _ _ _ (add_memory_to_index_run embed_text _ _ _ _)).
  rewrite add_memory_to_index_run. reflexivity.
Qed.

Lemma embed_and_store_memory_fails user_id mem w :
  fails mem = true ->
  embed_and_store_memory embed_text fails user_id mem w = (Raise RuntimeError, w).
Proof. intros Hf. unfold embed_and_store_memory. now rewrite Hf. Qed.

Lemma loaded_ids_ext w w' user_id :
  index_files w' = index_files w -> meta_files w' = meta_files w ->
  loaded_ids w' user_id = loaded_ids w user_id /\
  loaded_vectors w' user_id = loaded_vectors w user_id.
Proof. unfold loaded_ids, loaded_vectors. now intros -> ->. Qed.

(** X8. When reading the index or embedding the content fails, embedding
    and storing a memory raises and leaves the world as it was. Otherwise
    it returns normally, puts the memory's identifier and vector at the
    end of the user's index, and every row of that identifier (there is
    one) has [faiss_index_id] equal to the length the identifier list had;
    with an aligned index and unique identifiers, that ordinal resolves
    back to the stamped row. *)
Theorem X8_embed_and_store_round_trip :
  forall user_id mem w,
    mem ∈ db w ->
    let n := length (loaded_ids w user_id) in
    let w' := snd (embed_and_store_memory embed_text fails user_id mem w) in
    (fails mem = true ->
     embed_and_store_memory embed_text fails user_id mem w = (Raise RuntimeError, w)) /\
    (fails mem = false ->
     fst (embed_and_store_memory embed_text fails user_id mem w) = Return tt /\
     (exists r, r ∈ db w' /\ models.id r = models.id mem) /\
     (forall r, r ∈ db w' -> models.id r = models.id mem ->
                models.faiss_index_id r = Some (Z.of_nat n)) /\
     (forall r, r ∈ db w -> models.id r <> models.id mem -> r ∈ db w') /\
     with_faiss_index_id mem (Z.of_nat n) ∈ db w' /\
     loaded_ids w' user_id = loaded_ids w user_id ++ [models.id mem] /\
     (aligned w user_id ->
      aligned w' user_id /\
      loaded_vectors w' user_id !! n = Some (embed_text (models.content mem))) /\
     (unique_ids w -> models.user_id mem = user_id ->
      forall dist,
        resolve w' user_id (loaded_ids w' user_id) (dist, Z.of_nat n)
        = Some (dist, with_faiss_index_id mem (Z.of_nat n)))).
Proof.
  intros user_id mem w Hin n w'.
  split; [apply embed_and_store_memory_fails |]. intros Hf.
  destruct (add_memory_to_index_effect user_id (models.id mem)
              (models.content mem) w)
    as (w1 & Hrun & Hdb & Hids & Hvecs & Hnth & _ & Hal).
  subst w'. rewrite (embed_and_store_memory_run user_id mem w Hf). cbn [fst snd].
  rewrite Hrun. cbn [snd]. cbv zeta.
  set (w' := {| db := _; index_files := index_files w1; meta_files := meta_files w1 |}).
  destruct (loaded_ids_ext w1 w' user_id eq_refl eq_refl) as [Hids' Hvecs'].
  assert (Hrow : with_faiss_index_id mem (Z.of_nat n) ∈ db w').
  { subst w'. cbn [db]. rewrite Hdb. apply list_elem_of_fmap.
    exists mem. rewrite String.eqb_refl. auto. }
  split; [reflexivity |].
  split; [exists (with_faiss_index_id mem (Z.of_nat n)); split; [exact Hrow | reflexivity] |].
  split.
  { intros r Hr Hid. subst w'. cbn [db] in Hr. rewrite Hdb in Hr.
    apply list_elem_of_fmap in Hr as (r0 & -> & Hr0).
    destruct (String.eqb_spec (models.id r0) (models.id mem)) as [Hid0 | Hne];
      [reflexivity | contradiction]. }
  split.
  { intros r Hr Hne. subst w'. cbn [db]. rewrite Hdb.
    apply list_elem_of_fmap. exists r. split; [| exact Hr].
    now destruct (String.eqb_spec (models.id r) (models.id mem)). }
  split; [exact Hrow |].
  split; [now rewrite Hids', Hids |]. split.
  - intros Haligned. destruct (Hal Haligned) as [Hal1 Hv].
    unfold aligned. rewrite Hids', Hvecs'. auto.
  - intros Hnd Hu dist. unfold resolve. cbn [fst snd].
    rewrite Hids', Hids.
    assert (Hr : in_range (loaded_ids w user_id ++ [models.id mem]) (Z.of_nat n) = true).
    { unfold in_range. rewrite length_app. subst n.
      change (length [models.id mem]) with 1%nat.
      apply andb_true_intro. split; [apply Z.leb_le | apply Z.ltb_lt]; lia. }
    rewrite Hr, Nat2Z.id. subst n.
    rewrite lookup_app_r, Nat.sub_diag by lia. cbn [lookup list_lookup].
    assert (Hst : stored w' user_id (models.id mem)
                  = Some (with_faiss_index_id mem
                            (Z.of_nat (length (loaded_ids w user_id))))).
    { destruct (stored w' user_id (models.id mem)) as [r |] eqn:Hs.
      - apply stored_sound in Hs as (Hr' & Hid & _).
        subst w'. cbn [db] in Hr'. rewrite Hdb in Hr'.
        apply list_elem_of_fmap in Hr' as (r0 & -> & Hr0).
        destruct (String.eqb_spec (models.id r0) (models.id mem)) as [Hid0 | Hne].
        + now rewrite (unique_ids_eq w r0 mem Hnd Hr0 Hin Hid0).
        + contradiction.
      - exfalso. rewrite stored_none_iff in Hs.
        apply (Hs _ Hrow). cbn. auto. }
    now rewrite Hst.
Qed.

Lemma embed_and_store_world user_id mem w :
  fails mem = false ->
  let n := Z.of_nat (length (loaded_ids w user_id)) in
  let w' := snd (embed_and_store_memory embed_text fails user_id mem w) in
  embed_and_store_memory embed_text fails user_id mem w = (Return tt, w') /\
  db w' = map (fun r => if String.eqb (models.id r) (models.id mem)
                        then with_faiss_index_id r n else r) (db w) /\
  loaded_ids w' user_id = loaded_ids w user_id ++ [models.id mem] /\
  loaded_vectors w' user_id
  = loaded_vectors w user_id ++ [embed_text (models.content mem)] /\
  (forall other, other <> user_id ->
     index_files w' !! other = index_files w !! other /\
     meta_files w' !! other = meta_files w !! other).
Proof.
  intros Hf. cbv zeta.
  destruct (add_memory_to_index_effect user_id (models.id mem) (models.content mem) w)
    as (w1 & Hrun & Hdb & Hids & Hvecs & _).
  rewrite (embed_and_store_memory_run user_id mem w Hf). cbn [fst snd]. cbv zeta.
  rewrite Hrun. cbn [snd].
  set (w' := {| db := _; index_files := index_files w1; meta_files := meta_files w1 |}).
  destruct (loaded_ids_ext w1 w' user_id eq_refl eq_refl) as [Hids' Hvecs'].
  split; [reflexivity |]. split; [subst w'; cbn [db]; now rewrite Hdb |].
  split; [now rewrite Hids', Hids |]. split; [now rewrite Hvecs', Hvecs |].
  intros other Hne. subst w'. cbn [index_files meta_files].
  rewrite add_memory_to_index_run in Hrun. injection Hrun as <-.
  cbn [index_files meta_files]. now rewrite !lookup_insert_ne by congruence.
Qed.

(** The indexing loop over any list of memories, as one expression: the
    memories for which the call fails are passed over. *)
Lemma embed_loop_world user_id (mems : list models.Memory) w :
  exists w',
    for_each mems
      (fun mem => chat_indexing.try_pass
                    (embed_and_store_memory embed_text fails user_id mem)) w
    = (Return tt, w') /\
    db w' = map (restamp_row (Z.of_nat (length (loaded_ids w user_id)))
                   (List.filter (fun m => negb (fails m)) mems)) (db w) /\
    loaded_ids w' user_id
    = loaded_ids w user_id
      ++ map models.id (List.filter (fun m => negb (fails m)) mems) /\
    loaded_vectors w' user_id
    = loaded_vectors w user_id
      ++ map (fun m => embed_text (models.content m))
           (List.filter (fun m => negb (fails m)) mems).
Proof.
  revert w. induction mems as [| mem mems IH]; intros w.
  - exists w. cbn. rewrite map_id, !app_nil_r. auto.
  - cbn [List.filter]. destruct (fails mem) eqn:Hf; cbn [negb].
    + destruct (IH w) as (w' & Hloop & Hrest). exists w'. split; [| exact Hrest].
      cbn [for_each]. unfold bind, chat_indexing.try_pass.
      rewrite (embed_and_store_memory_fails user_id mem w Hf). exact Hloop.
    + destruct (embed_and_store_world user_id mem w Hf) as (Hrun & Hdb & Hids & Hvecs & _).
      set (w1 := snd (embed_and_store_memory embed_text fails user_id mem w)) in *.
      destruct (IH w1) as (w' & Hloop & Hdb' & Hids' & Hvecs').
      exists w'. split; [| split; [| split]].
      * cbn [for_each]. unfold bind, chat_indexing.try_pass. rewrite Hrun. exact Hloop.
      * rewrite Hdb', Hdb, Hids, length_app, map_map. cbn [length restamp_row].
        replace (Z.of_nat (length (loaded_ids w user_id) + 1))
          with (Z.of_nat (length (loaded_ids w user_id)) + 1)%Z by lia.
        reflexivity.
      * rewrite Hids', Hids. cbn [map]. now rewrite <- app_assoc.
      * rewrite Hvecs', Hvecs. cbn [map]. now rewrite <- app_assoc.
Qed.

(** A loop over memories that all fail changes nothing. *)
Lemma embed_loop_all_fail user_id (mems : list models.Memory) w :
  (forall m, m ∈ mems -> fails m = true) ->
  for_each mems
    (fun mem => chat_indexing.try_pass
                  (embed_and_store_memory embed_text fails user_id mem)) w
  = (Return tt, w).
Proof.
  induction mems as [| mem mems IH]; intros Hall; [reflexivity |].
  cbn [for_each]. unfold bind, chat_indexing.try_pass.
  rewrite (embed_and_store_memory_fails user_id mem w) by (apply Hall; left).
  apply IH. intros m Hm. apply Hall. now right.
Qed.

Lemma NoDup_map_filter {A B} (f : A -> B) (p : A -> bool) (l : list A) :
  NoDup (map f l) -> NoDup (map f (List.filter p l)).
Proof.
  clear embed_text fails.
  induction l as [| x l IH]; [auto |].
  cbn [map List.filter]. intros Hnd. apply NoDup_cons in Hnd as [Hx Hnd].
  destruct (p x); [| auto].
  cbn [map]. apply NoDup_cons. split; [| auto].
  intros Hin. apply Hx.
  apply list_elem_of_fmap in Hin as (y & -> & Hy).
  apply list_elem_of_fmap. exists y. split; [reflexivity |].
  apply list_elem_of_In in Hy. apply filter_In in Hy as [Hy _].
  now apply list_elem_of_In.
Qed.

Lemma restamp_row_keeps_slot start memories r :
  models.faiss_index_id r <> None ->
  models.faiss_index_id (restamp_row start memories r) <> None.
Proof.
  revert start r. induction memories as [| mem memories IH]; intros start r Hr; [exact Hr |].
  cbn [restamp_row]. apply IH.
  destruct (String.eqb (models.id r) (models.id mem)); [discriminate | exact Hr].
Qed.

Lemma embed_new_semantic_memories_run user_id w :
  chat_indexing.embed_new_semantic_memories embed_text fails user_id w
  = for_each (List.filter (unindexed user_id) (db w))
      (fun mem => chat_indexing.try_pass
                    (embed_and_store_memory embed_text fails user_id mem)) w.
Proof. reflexivity. Qed.

(** X9. The indexing step that ends a chat turn returns normally whatever
    fails. Identifiers being unique, each semantic memory of the user that
    had no slot and for which the call goes through is appended to the
    user's index, in table order, and every row of its identifier has
    [faiss_index_id] equal to the ordinal at which its identifier now
    sits; a memory for which the call fails keeps its row as it was, still
    without a slot, and is not in the index; no other row is without a
    slot afterwards. Running the step again in the same environment
    changes nothing. *)
Theorem X9_new_semantic_memories_get_indexed :
  forall user_id w,
    unique_ids w ->
    let w' := snd (chat_indexing.embed_new_semantic_memories
                     embed_text fails user_id w) in
    let stored_now :=
      List.filter (fun m => negb (fails m)) (List.filter (unindexed user_id) (db w)) in
    chat_indexing.embed_new_semantic_memories embed_text fails user_id w
    = (Return tt, w') /\
    (forall r, r ∈ db w' -> unindexed user_id r = true ->
               r ∈ db w /\ fails r = true) /\
    (forall m, m ∈ db w -> unindexed user_id m = true -> fails m = false ->
       exists n : nat,
         loaded_ids w' user_id !! n = Some (models.id m) /\
         with_faiss_index_id m (Z.of_nat n) ∈ db w' /\
         forall r, r ∈ db w' -> models.id r = models.id m ->
                   models.faiss_index_id r = Some (Z.of_nat n)) /\
    (forall m, m ∈ db w -> unindexed user_id m = true -> fails m = true ->
       m ∈ db w' /\ (models.id m ∉ map models.id stored_now)) /\
    loaded_ids w' user_id = loaded_ids w user_id ++ map models.id stored_now /\
    chat_indexing.embed_new_semantic_memories embed_text fails user_id w'
    = (Return tt, w').
Proof.
  intros user_id w Hnd. cbv zeta. rewrite embed_new_semantic_memories_run.
  set (mems := List.filter (unindexed user_id) (db w)).
  destruct (embed_loop_world user_id mems w) as (w' & Hloop & Hdb & Hids & _).
  rewrite Hloop. cbn [snd].
  set (ok := List.filter (fun m => negb (fails m)) mems) in *.
  set (n0 := length (loaded_ids w user_id)) in *.
  assert (Hok : NoDup (map models.id ok)) by now do 2 apply NoDup_map_filter.
  assert (Hok_in : forall m, m ∈ ok <->
                     m ∈ db w /\ unindexed user_id m = true /\ fails m = false).
  { intros m. unfold ok, mems.
    rewrite !list_elem_of_In, !filter_In, negb_true_iff. tauto. }
  assert (Hat : forall m, m ∈ db w -> unindexed user_id m = true -> fails m = false ->
                  exists i, ok !! i = Some m /\
                    restamp_row (Z.of_nat n0) ok m
                    = with_faiss_index_id m (Z.of_nat (n0 + i))).
  { intros m Hm Hun Hf.
    assert (Hin : m ∈ ok) by (apply Hok_in; auto).
    apply list_elem_of_lookup in Hin as [i Hi]. exists i. split; [exact Hi |].
    rewrite (restamp_row_at (Z.of_nat n0) ok i m Hok Hi). f_equal. lia. }
  assert (Hother : forall r, r ∈ db w -> r ∉ ok ->
                     (models.id r ∉ map models.id ok) /\
                     restamp_row (Z.of_nat n0) ok r = r).
  { intros r Hr Hnot.
    assert (Hfresh : models.id r ∉ map models.id ok).
    { intros Hid. apply list_elem_of_fmap in Hid as (m & Hidm & Hm).
      apply Hnot. destruct (proj1 (Hok_in m) Hm) as (Hmdb & _).
      now rewrite (unique_ids_eq w r m Hnd Hr Hmdb Hidm). }
    split; [exact Hfresh | now apply restamp_row_other]. }
  assert (Hleft : forall r, r ∈ db w' -> unindexed user_id r = true ->
                    r ∈ db w /\ fails r = true).
  { intros r' Hr' Hun'. rewrite Hdb in Hr'.
    apply list_elem_of_fmap in Hr' as (r & -> & Hr).
    destruct (unindexed user_id r) eqn:Hun.
    - destruct (fails r) eqn:Hf.
      + destruct (Hother r Hr) as [_ Hsame].
        { intros Hin. apply Hok_in in Hin as (_ & _ & Hf'). congruence. }
        rewrite Hsame. auto.
      + exfalso. destruct (Hat r Hr Hun Hf) as (i & _ & Hrow).
        rewrite Hrow in Hun'. unfold unindexed in Hun'. cbn in Hun'.
        now rewrite andb_false_r in Hun'.
    - exfalso.
      destruct (restamp_row_same (Z.of_nat n0) ok r) as (_ & Hu & Ht & _).
      unfold unindexed in Hun, Hun'. rewrite Hu, Ht in Hun'.
      destruct (String.eqb (models.user_id r) user_id
                && String.eqb (models.memory_type r) "semantic")%bool;
        [| discriminate].
      cbn [andb] in *.
      pose proof (restamp_row_keeps_slot (Z.of_nat n0) ok r) as Hk.
      destruct (models.faiss_index_id r); [| discriminate].
      destruct (models.faiss_index_id (restamp_row (Z.of_nat n0) ok r));
        [discriminate | now apply Hk]. }
  split; [reflexivity |]. split; [exact Hleft |].
  split; [| split; [| split; [exact Hids |]]].
  - intros m Hm Hun Hf. destruct (Hat m Hm Hun Hf) as (i & Hi & Hrow).
    exists (n0 + i)%nat. split; [| split].
    + rewrite Hids. rewrite lookup_app_r by (subst n0; lia).
      replace (n0 + i - length (loaded_ids w user_id))%nat with i by (subst n0; lia).
      change (map models.id ok) with (models.id <$> ok).
      now rewrite list_lookup_fmap, Hi.
    + rewrite <- Hrow, Hdb. apply list_elem_of_fmap. eauto.
    + intros r' Hr' Hid. rewrite Hdb in Hr'.
      apply list_elem_of_fmap in Hr' as (r & -> & Hr).
      assert (Hid0 : models.id r = models.id m).
      { destruct (restamp_row_same (Z.of_nat n0) ok r) as (Hid0 & _).
        now rewrite <- Hid0. }
      rewrite (unique_ids_eq w r m Hnd Hr Hm Hid0), Hrow. reflexivity.
  - intros m Hm Hun Hf.
    destruct (Hother m Hm) as [Hfresh Hsame].
    { intros Hin. apply Hok_in in Hin as (_ & _ & Hf'). congruence. }
    split; [| exact Hfresh].
    rewrite Hdb. apply list_elem_of_fmap. exists m. auto.
  - rewrite embed_new_semantic_memories_run.
    apply embed_loop_all_fail. intros m Hm.
    apply list_elem_of_In, filter_In in Hm as [Hm Hun].
    apply list_elem_of_In in Hm. now destruct (Hleft m Hm Hun).
Qed.

Lemma semantic_memories_filter user_id w :
  semantic_memories w user_id
  = firstn 100 (Py.sort_desc (fun m => inject_Z (models.timestamp m))
                  (filter (semantic_of user_id) (db w))).
Proof.
  clear embed_text fails. unfold semantic_memories. do 2 f_equal.
  rewrite list_filter_filter. apply list_filter_iff. intros m.
  unfold semantic_of. tauto.
Qed.

Lemma rebuild_world_nonempty user_id w :
  semantic_memories w user_id <> [] ->
  snd (rebuild_user_index embed_text user_id w)
  = {| db := map (restamp_row 0 (semantic_memories w user_id)) (db w);
       index_files :=
         <[user_id :=
             {| d := shape1 (map embed_text
                           (map models.content (semantic_memories w user_id)));
                xb := map embed_text
                        (map models.content (semantic_memories w user_id)) |}]>
           (index_files w);
       meta_files :=
         <[user_id := map models.id (semantic_memories w user_id)]> (meta_files w) |}.
Proof.
  intros Hne. rewrite rebuild_user_index_run. cbn [snd].
  destruct (semantic_memories w user_id); [contradiction | reflexivity].
Qed.

(** X10. Rebuilding the index of a user who has a semantic memory leaves
    an aligned index that holds the user's semantic memories and nothing
    else, the 100 newest when there are more (the identifier list is that
    of the first 100 of them, newest first); the files of other users are
    not touched. *)
Theorem X10_rebuild_indexes_newest_hundred :
  forall user_id w,
    (exists m, m ∈ db w /\ semantic_of user_id m) ->
    let w1 := snd (rebuild_user_index embed_text user_id w) in
    aligned w1 user_id /\
    Z.of_nat (length (loaded_ids w1 user_id))
    = Z.min 100 (Z.of_nat (length (filter (semantic_of user_id) (db w)))) /\
    (forall mem_id, mem_id ∈ loaded_ids w1 user_id ->
       exists m, m ∈ db w /\ semantic_of user_id m /\ models.id m = mem_id) /\
    (forall other, other <> user_id ->
       index_files w1 !! other = index_files w !! other /\
       meta_files w1 !! other = meta_files w !! other) /\
    loaded_ids w1 user_id
    = map models.id
        (firstn 100 (Py.sort_desc (fun m => inject_Z (models.timestamp m))
                       (filter (semantic_of user_id) (db w)))).
Proof.
  intros user_id w (m0 & Hm0 & Hsem0). cbv zeta.
  pose proof (semantic_memories_filter user_id w) as Hsm.
  set (rows := filter (semantic_of user_id) (db w)) in *.
  assert (Hrows : (1 <= length rows)%nat).
  { assert (Hin : m0 ∈ rows) by (apply list_elem_of_filter; auto).
    destruct rows; [inversion Hin | cbn [length]; lia]. }
  assert (Hlen : length (semantic_memories w user_id) = Nat.min 100 (length rows)).
  { rewrite Hsm, length_take, sort_desc_length. reflexivity. }
  assert (Hne : semantic_memories w user_id <> []).
  { intros E. rewrite E in Hlen. cbn [length] in Hlen. lia. }
  rewrite (rebuild_world_nonempty user_id w Hne).
  unfold aligned, loaded_ids, loaded_vectors. cbn [index_files meta_files].
  rewrite !lookup_insert_eq. cbn [xb].
  split; [now rewrite !length_map |].
  split; [rewrite length_map; lia |].
  split.
  - intros mem_id Hid.
    change (map models.id (semantic_memories w user_id))
      with (models.id <$> semantic_memories w user_id) in Hid.
    apply list_elem_of_fmap in Hid as (m & -> & Hm).
    rewrite Hsm in Hm. apply elem_of_take in Hm as (i & Hm & _).
    apply list_elem_of_lookup_2 in Hm.
    rewrite (sort_desc_perm _ rows) in Hm.
    apply list_elem_of_filter in Hm as [Hs Hin]. eauto.
  - split; [| now rewrite Hsm].
    intros other Hne'. now rewrite !lookup_insert_ne by congruence.
Qed.

End StoredMemories.

(** ** Score ranges *)

Section ScoreRanges.

Import Spec retrieval.
Local Open Scope Q_scope.

Lemma recency_range utcnow timestamp :
  1 # 10 <= memory_service.compute_recency_score utcnow timestamp <= 1.
Proof.
  unfold memory_service.compute_recency_score.
  repeat match goal with
         | |- context [Qltb ?a ?b] => destruct (Qltb a b)
         end; split; unfold Qle; cbn; lia.
Qed.

Lemma personal_range memory_type :
  5 # 10 <= personal memory_type <= 8 # 10.
Proof.
  unfold personal. destruct (decide _); split; unfold Qle; cbn; lia.
Qed.

Lemma fl_0 : binary64.fl 0 = 0.
Proof. reflexivity. Qed.

Lemma fl_nonneg x : 0 <= x -> 0 <= binary64.fl x.
Proof. intros H. rewrite <- fl_0. now apply fl_mono. Qed.

Lemma add_mono a a' b b' :
  a <= a' -> b <= b' -> binary64.add a b <= binary64.add a' b'.
Proof.
  intros Ha Hb. unfold binary64.add. apply fl_mono.
  apply Qplus_le_compat; now apply fl_mono.
Qed.

Lemma mul_mono_r w x y :
  0 <= w -> x <= y -> binary64.mul w x <= binary64.mul w y.
Proof.
  intros Hw Hxy. unfold binary64.mul. apply fl_mono.
  rewrite !(Qmult_comm (binary64.fl w)).
  apply Qmult_le_compat_r; [now apply fl_mono | now apply fl_nonneg].
Qed.

(** The sum on doubles grows with each of its five terms. *)
Lemma weighted_sum_float_mono s s' r r' i i' f f' p p' :
  s <= s' -> r <= r' -> i <= i' -> f <= f' -> p <= p' ->
  weighted_sum_float s r i f p <= weighted_sum_float s' r' i' f' p'.
Proof.
  intros Hs Hr Hi Hf Hp. unfold weighted_sum_float.
  apply add_mono; [apply add_mono; [apply add_mono; [apply add_mono |] |] |];
    apply mul_mono_r; try assumption; vm_compute; discriminate.
Qed.

Lemma frequency_float_range count :
  (0 <= count)%Z -> 0 <= frequency_float count <= 1.
Proof.
  intros Hc. unfold frequency_float. apply Qmin_range; [| vm_compute; discriminate].
  unfold binary64.div. apply fl_nonneg.
  apply Qle_shift_div_l; [vm_compute; reflexivity |].
  rewrite Qmult_0_l. apply fl_nonneg.
  unfold Qle, inject_Z. cbn. lia.
Qed.

(** X11. For a similarity between -1 and 1, a stored importance between 0
    and 1 and a reinforcement count that is not negative, the composite
    score of a candidate lies between -0.33 and 0.98: the personal term
    is at most 0.08, so no candidate scores 1. *)
Theorem X11_composite_score_range :
  forall utcnow dist mem,
    -1 <= dist <= 1 ->
    0 <= models.importance_score mem <= 1 ->
    (0 <= models.reinforcement_count mem)%Z ->
    - (33 # 100)
    <= candidate.composite_score (make_candidate utcnow dist mem)
    <= 98 # 100.
Proof.
  intros utcnow dist mem Hd Hi Hc.
  rewrite (make_candidate_composite utcnow dist mem).
  pose proof (recency_range utcnow (models.timestamp mem)) as Hr.
  pose proof (frequency_float_range _ Hc) as Hf.
  pose proof (personal_range (models.memory_type mem)) as Hp.
  unfold composite_float, binary64.round4.
  set (x := weighted_sum_float _ _ _ _ _).
  assert (Hlo : weighted_sum_float (-1) (1 # 10) 0 0 (5 # 10) <= x).
  { apply weighted_sum_float_mono; tauto. }
  assert (Hhi : x <= weighted_sum_float 1 1 1 1 (8 # 10)).
  { apply weighted_sum_float_mono; tauto. }
  clearbody x. split.
  - apply Qle_trans
      with (round4 (binary64.fl (weighted_sum_float (-1) (1 # 10) 0 0 (5 # 10))));
      [vm_compute; discriminate |].
    apply round4_mono, fl_mono, Hlo.
  - apply Qle_trans
      with (round4 (binary64.fl (weighted_sum_float 1 1 1 1 (8 # 10))));
      [| vm_compute; discriminate].
    apply round4_mono, fl_mono, Hhi.
Qed.

End ScoreRanges.

(** ** Prompt sections *)

Section PromptSections.

Import Spec Laws prompt_builder.
Local Open Scope Z_scope.

(** X12. The profile summary is empty exactly when there is no profile or
    none of name, expertise, style, interests and goals is set; interests
    beyond the fifth and goals beyond the third never reach it. *)
Theorem X12_profile_summary :
  build_profile_summary None = EmptyString /\
  (forall p, build_profile_summary (Some p) = EmptyString <-> blank_profile p) /\
  (forall p, build_profile_summary (Some p)
             = build_profile_summary (Some (clipped_profile p))).
Proof.
  split; [reflexivity |]. split.
  - intros [name level style interests goals]. unfold blank_profile. cbn [models.display_name
      models.expertise_level models.communication_style models.interests models.goals].
    split.
    + unfold build_profile_summary.
      cbn [models.display_name models.expertise_level models.communication_style
           models.interests models.goals].
      destruct name, level, style, interests, goals; cbn; intros H;
        try discriminate; auto.
    + intros (-> & -> & -> & -> & ->). reflexivity.
  - intros [name level style interests goals]. unfold build_profile_summary, clipped_profile.
    cbn [models.display_name models.expertise_level models.communication_style
         models.interests models.goals].
    unfold Py.list_slice_to. cbn [Z.leb Z.compare Z.to_nat Pos.to_nat Pos.iter_op Nat.add].
    rewrite !firstn_firstn. cbn [Nat.min].
    destruct interests, goals; reflexivity.
Qed.

Lemma len_join_cons sep x (l : list string) :
  Py.len (Py.join sep (x :: l))
  = Py.len x + fold_right (fun y acc => Py.len sep + Py.len y + acc) 0 l.
Proof.
  revert x. induction l as [| y l IH]; intros x.
  - cbn. lia.
  - change (Py.join sep (x :: y :: l)) with (x +:+ sep +:+ Py.join sep (y :: l)).
    rewrite !len_app, IH. cbn [fold_right]. lia.
Qed.

Lemma session_line_len msg :
  Py.len ((if String.eqb (message.role msg) "user" then "User" else "Assistant")
          +:+ ": " +:+ Py.str_slice_to (message.content msg) 300) <= 311.
Proof.
  rewrite !len_app, len_slice_to by lia.
  change (Py.len ": ") with 2.
  destruct (String.eqb (message.role msg) "user");
    [change (Py.len "User") with 4 | change (Py.len "Assistant") with 9]; lia.
Qed.

(** X13. The session summary of no turns is empty; that of [n] turns has
    at most [20 + 312 n] characters however long the turns are, since each
    turn's content is clipped to 300 characters. *)
Theorem X13_session_summary_length :
  build_session_summary [] = EmptyString /\
  forall session_messages,
    Py.len (build_session_summary session_messages)
    <= 20 + 312 * Z.of_nat (length session_messages).
Proof.
  split; [reflexivity |].
  intros [| msg msgs]; [vm_compute; discriminate |].
  unfold build_session_summary.
  set (line := fun msg : message.Message => _ +:+ ": " +:+ _).
  rewrite len_join_cons. change (Py.len "RECENT CONVERSATION:") with 20.
  change (Py.len Py.nl) with 1.
  generalize (msg :: msgs). intros l.
  induction l as [| m l IH]; [cbn; lia |].
  cbn [map fold_right length].
  pose proof (session_line_len m) as Hm. fold (line m) in Hm. lia.
Qed.

Lemma str_app_assoc (a b c : string) : (a +:+ b) +:+ c = a +:+ (b +:+ c).
Proof.
  induction a as [| x a IH]; [reflexivity |].
  change (String x ((a +:+ b) +:+ c) = String x (a +:+ (b +:+ c))).
  now rewrite IH.
Qed.

Lemma join_ends sep a q (mid : list string) :
  exists middle, Py.join sep ([a] ++ mid ++ [q]) = a +:+ sep +:+ middle +:+ q.
Proof.
  revert a. induction mid as [| x mid IH]; intros a.
  - exists EmptyString. reflexivity.
  - destruct (IH x) as [middle Hm].
    exists (x +:+ sep +:+ middle).
    change (Py.join sep ([a] ++ (x :: mid) ++ [q]))
      with (a +:+ sep +:+ Py.join sep ([x] ++ mid ++ [q])).
    rewrite Hm. now rewrite <- !str_app_assoc.
Qed.

(** X14. Whatever the inputs and the ceiling, the prompt begins with the
    whole system instruction followed by a blank line and ends with the
    whole query section: neither is ever cut. *)
Theorem X14_prompt_keeps_instruction_and_query :
  forall user_query profile retrieved_memories session_messages max_tokens,
    exists middle,
      build_prompt user_query profile retrieved_memories session_messages max_tokens
      = SYSTEM_INSTRUCTION +:+ Py.nl +:+ Py.nl +:+ middle
        +:+ Py.nl +:+ "User: " +:+ user_query +:+ Py.nl +:+ "Assistant:".
Proof.
  intros user_query profile retrieved_memories session_messages max_tokens.
  rewrite build_prompt_layout. cbv zeta.
  destruct (join_ends (Py.nl +:+ Py.nl) SYSTEM_INSTRUCTION (query_section user_query)
              (List.filter Py.truthy
                 [capped (build_profile_summary profile)
                    ((max_tokens - reserved_tokens user_query) / 4);
                  capped (build_memory_context retrieved_memories)
                    ((max_tokens - reserved_tokens user_query
                      - estimate_tokens
                          (capped (build_profile_summary profile)
                             ((max_tokens - reserved_tokens user_query) / 4))) / 2);
                  capped (build_session_summary session_messages)
                    (max_tokens - reserved_tokens user_query
                     - estimate_tokens
                         (capped (build_profile_summary profile)
                            ((max_tokens - reserved_tokens user_query) / 4))
                     - estimate_tokens
                         (capped (build_memory_context retrieved_memories)
                            ((max_tokens - reserved_tokens user_query
                              - estimate_tokens
                                  (capped (build_profile_summary profile)
                                     ((max_tokens - reserved_tokens user_query) / 4)))
                             / 2)))]))
    as [middle Hm].
  exists middle. rewrite Hm. unfold query_section.
  now rewrite <- !str_app_assoc.
Qed.

Lemma substring_app_length (a b : string) :
  substring 0 (String.length a) (a +:+ b) = a.
Proof.
  induction a as [| c a IH]; [now destruct b |].
  change (String c (substring 0 (String.length a) (a +:+ b)) = String c a).
  now rewrite IH.
Qed.

(** X15. Truncating to a budget that is not negative gives at most
    [4 * budget + 3] characters, and truncating the result again to the
    same budget changes nothing. *)
Theorem X15_truncate_is_idempotent :
  forall text budget,
    0 <= budget ->
    Py.len (truncate_to_tokens text budget) <= 4 * budget + 3 /\
    truncate_to_tokens (truncate_to_tokens text budget) budget
    = truncate_to_tokens text budget.
Proof.
  intros text budget Hb.
  destruct (truncate_to_tokens_spec text budget Hb) as [Hkeep Hcut].
  destruct (Z_le_gt_dec (Py.len text) (budget * 4)) as [Hle | Hgt].
  - rewrite (Hkeep Hle). split; [lia |]. now rewrite (Hkeep Hle).
  - destruct Hcut as [Heq Hlen]; [lia |]. rewrite Heq.
    set (head := substring 0 (Z.to_nat (budget * 4)) text) in *.
    assert (Hl : Py.len (head +:+ marker) = budget * 4 + 3).
    { rewrite len_app, Hlen. reflexivity. }
    split; [lia |].
    destruct (truncate_to_tokens_spec (head +:+ marker) budget Hb) as [_ Hcut2].
    destruct Hcut2 as [-> _]; [lia |].
    f_equal. clearbody head. unfold Py.len in Hlen.
    assert (Hn : Z.to_nat (budget * 4) = String.length head) by lia.
    rewrite Hn. apply substring_app_length.
Qed.

End PromptSections.

(** ** Sessions and turns *)

Section Sessions.

Import Spec Laws chat_service.
Local Open Scope Z_scope.

Lemma string_length_of_list (l : list ascii) :
  String.length (string_of_list_ascii l) = length l.
Proof. induction l as [| c l IH]; [reflexivity | cbn; now rewrite IH]. Qed.

Lemma list_length_of_string (s0 : string) :
  length (list_ascii_of_string s0) = String.length s0.
Proof. induction s0 as [| c s0 IH]; [reflexivity | cbn; now rewrite IH]. Qed.

Lemma lstrip_chars_length l : (length (Py2.lstrip_chars l) <= length l)%nat.
Proof.
  induction l as [| c l IH]; [reflexivity |].
  cbn [Py2.lstrip_chars]. destruct (Py2.isspace c); cbn [length]; lia.
Qed.

Lemma strip_len s0 : Py.len (Py2.strip s0) <= Py.len s0.
Proof.
  unfold Py.len, Py2.strip.
  rewrite string_length_of_list, length_rev.
  pose proof (lstrip_chars_length (rev (Py2.lstrip_chars (list_ascii_of_string s0)))).
  rewrite length_rev in H.
  pose proof (lstrip_chars_length (list_ascii_of_string s0)).
  rewrite list_length_of_string in *. lia.
Qed.

(** X16. Retitling touches only sessions still called "New Conversation":
    any other session leaves the tables as they are. For a new session,
    the rows of other identifiers stay, the row of that identifier gets a
    title of at most 63 characters and the time of the call, and users,
    profiles and messages are not touched. *)
Theorem X16_update_session_title :
  forall utcnow db session first_message,
    let db' := update_session_title utcnow db session first_message in
    (session_row.title session <> "New Conversation"%string -> db' = db) /\
    (session_row.title session = "New Conversation"%string ->
     (forall s', s' ∈ sessions db' ->
        session_row.id s' = session_row.id session ->
        Py.len (session_row.title s') <= 63 /\ session_row.updated_at s' = utcnow) /\
     (forall s0, s0 ∈ sessions db ->
        session_row.id s0 <> session_row.id session -> s0 ∈ sessions db') /\
     length (sessions db') = length (sessions db) /\
     users db' = users db /\ profiles db' = profiles db /\ messages db' = messages db).
Proof.
  intros utcnow db session first_message. cbv zeta. unfold update_session_title.
  destruct (String.eqb_spec (session_row.title session) "New Conversation") as [Ht | Ht].
  - split; [contradiction |]. intros _. cbn [sessions users profiles messages].
    split; [| split; [| split; [apply length_map | auto]]].
    + intros s' Hs' Hid. apply list_elem_of_fmap in Hs' as (s0 & -> & _).
      destruct (String.eqb_spec (session_row.id s0) (session_row.id session)) as [_ | Hne].
      * cbn [session_row.title session_row.updated_at]. split; [| reflexivity].
        pose proof (strip_len (Py.str_slice_to first_message 60)) as Hs.
        pose proof (len_nonneg first_message) as Hn.
        rewrite len_slice_to in Hs by lia.
        destruct (60 <? Py.len first_message) eqn:E.
        -- rewrite len_app. change (Py.len "...") with 3. lia.
        -- lia.
      * contradiction.
    + intros s0 Hs0 Hne. apply list_elem_of_fmap. exists s0. split; [| exact Hs0].
      destruct (String.eqb_spec (session_row.id s0) (session_row.id session));
        [contradiction | reflexivity].
  - split; [reflexivity | contradiction].
Qed.

(** X17. Asking for a session gives back one that belongs to the asking
    user and is in the table afterwards: either the stored session of
    that identifier and owner, with nothing changed, or, also when the
    identifier is another user's, a new session with the fresh
    identifier appended to the table. *)
Theorem X17_get_or_create_session :
  forall new_id utcnow db user_id session_id,
    let session := fst (get_or_create_session new_id utcnow db user_id session_id) in
    let db' := snd (get_or_create_session new_id utcnow db user_id session_id) in
    session_row.user_id session = user_id /\
    session ∈ sessions db' /\
    messages db' = messages db /\
    ((session ∈ sessions db /\ db' = db /\ session_id = Some (session_row.id session)) \/
     (sessions db' = sessions db ++ [session] /\
      session_row.id session = new_id /\
      session_row.title session = "New Conversation"%string /\
      forall sid, session_id = Some sid ->
        forall s0, s0 ∈ sessions db ->
          ~ (sid <> EmptyString /\ session_row.id s0 = sid
             /\ session_row.user_id s0 = user_id))).
Proof.
  intros new_id utcnow db user_id session_id. cbv zeta. unfold get_or_create_session.
  set (found := match session_id with Some sid => _ | None => None end).
  destruct found as [session |] eqn:Hfound; cbn [fst snd].
  - subst found. destruct session_id as [sid |]; [| discriminate].
    destruct (Py.truthy sid); [| discriminate].
    apply find_some in Hfound as [Hin Hp].
    apply andb_true_iff in Hp as [H1 H2]. apply String.eqb_eq in H1, H2.
    apply list_elem_of_In in Hin. subst sid. auto 8.
  - cbn [sessions messages session_row.user_id session_row.id session_row.title].
    split; [reflexivity |]. split; [apply elem_of_app; right; left |].
    split; [reflexivity |]. right. repeat split.
    intros sid -> s0 Hs0 (Hne & Hid & Hu). subst found.
    destruct sid as [| c sid]; [contradiction |]. cbn [Py.truthy] in Hfound.
    apply list_elem_of_In in Hs0.
    pose proof (find_none _ _ Hfound s0 Hs0) as Hf. cbn in Hf.
    rewrite Hid, Hu, !String.eqb_refl in Hf. discriminate.
Qed.

Lemma insert_desc_snoc {A} (key : A -> Q) (x y : A) (l : list A) :
  (key x <= key y)%Q ->
  Py.insert_desc key y (l ++ [x]) = Py.insert_desc key y l ++ [x].
Proof.
  intros Hxy. induction l as [| z l IH].
  - cbn. apply Qle_bool_iff in Hxy. now rewrite Hxy.
  - cbn [app Py.insert_desc]. destruct (Qle_bool (key z) (key y)); [reflexivity |].
    cbn [app]. now rewrite IH.
Qed.

(** An element whose key is not above any other, arriving last, is sorted
    last. *)
Lemma sort_desc_snoc {A} (key : A -> Q) (x : A) (l : list A) :
  (forall y, y ∈ l -> (key x <= key y)%Q) ->
  Py.sort_desc key (l ++ [x]) = Py.sort_desc key l ++ [x].
Proof.
  induction l as [| y l IH]; intros Hx; [reflexivity |].
  cbn [app Py.sort_desc]. rewrite IH by (intros z Hz; apply Hx; now right).
  apply insert_desc_snoc, Hx. left.
Qed.

Lemma find_session_by_id db session_id :
  session_exists db session_id ->
  exists s, find (fun s => String.eqb (session_row.id s) session_id) (sessions db) = Some s
            /\ session_row.id s = session_id.
Proof.
  intros (s0 & Hin & Hid).
  destruct (find _ (sessions db)) as [s1 |] eqn:Hf.
  - exists s1. split; [reflexivity |].
    apply find_some in Hf as [_ Hp]. now apply String.eqb_eq.
  - apply list_elem_of_In in Hin.
    pose proof (find_none _ _ Hf s0 Hin) as Hn. cbn in Hn.
    rewrite Hid, String.eqb_refl in Hn. discriminate.
Qed.

Lemma get_session_context_found db session_id window :
  session_exists db session_id ->
  get_session_context db session_id window
  = map turn_of (Py2.list_slice_from (messages_of db session_id) (- window)).
Proof.
  intros Hex. unfold get_session_context.
  destruct (find_session_by_id db session_id Hex) as (s & -> & ->). reflexivity.
Qed.

(** X18. A message saved to an existing session at a time not before the
    session's other messages is the last turn of the session context, for
    every window of at least one; the context never has more turns than
    the window. *)
Theorem X18_saved_message_ends_the_context :
  forall new_id utcnow db session_id role content window,
    session_exists db session_id ->
    1 <= window ->
    (forall m, m ∈ messages db -> message_row.session_id m = session_id ->
               message_row.timestamp m <= utcnow) ->
    let db' := snd (save_message new_id utcnow db session_id role content) in
    last (get_session_context db' session_id window)
    = Some {| message.role := role; message.content := content |} /\
    Z.of_nat (length (get_session_context db' session_id window)) <= window.
Proof.
  intros new_id utcnow db session_id role content window Hex Hw Hclock. cbv zeta.
  unfold save_message. cbn [snd].
  set (msg := {| message_row.id := new_id; message_row.session_id := session_id;
                 message_row.role := role; message_row.content := content;
                 message_row.timestamp := utcnow |}).
  set (db' := {| users := users db; profiles := profiles db;
                 sessions := sessions db; messages := messages db ++ [msg] |}).
  assert (Hex' : session_exists db' session_id) by exact Hex.
  rewrite (get_session_context_found db' session_id window Hex').
  assert (Hmsgs : messages_of db' session_id = messages_of db session_id ++ [msg]).
  { unfold messages_of, Py2.sort_asc. subst db'. cbn [messages].
    rewrite List.filter_app. cbn [List.filter message_row.session_id msg].
    rewrite String.eqb_refl. apply sort_desc_snoc.
    intros y Hy. apply list_elem_of_In, filter_In in Hy as [Hy Hs].
    apply String.eqb_eq in Hs. apply list_elem_of_In in Hy.
    specialize (Hclock y Hy Hs). cbn [message_row.timestamp msg].
    unfold Qle, Qopp, inject_Z. cbn. lia. }
  rewrite Hmsgs. unfold Py2.list_slice_from.
  destruct (0 <=? - window) eqn:E; [lia |].
  rewrite length_app. cbn [length].
  set (old := messages_of db session_id).
  set (k := Z.to_nat (Z.of_nat (length old + 1) + - window)).
  assert (Hk : (k <= length old)%nat) by (subst k; lia).
  rewrite drop_app_le by exact Hk. rewrite map_app. cbn [map].
  split; [apply last_snoc |].
  rewrite length_app, length_map, length_drop. cbn [length]. subst k. lia.
Qed.

(** X19. The context of a session that is not stored is empty. For a
    stored session and a window of at least one it is the last
    [min(window, n)] of the session's [n] turns, oldest first; for a
    window of zero it is all of them. *)
Theorem X19_session_context_window :
  forall db session_id window,
    (~ session_exists db session_id -> get_session_context db session_id window = []) /\
    (session_exists db session_id ->
     let all_turns := map turn_of (messages_of db session_id) in
     (window = 0 -> get_session_context db session_id window = all_turns) /\
     (1 <= window ->
      exists earlier,
        all_turns = earlier ++ get_session_context db session_id window /\
        Z.of_nat (length (get_session_context db session_id window))
        = Z.min window (Z.of_nat (length all_turns)))).
Proof.
  intros db session_id window. split.
  - intros Hno. unfold get_session_context.
    destruct (find _ (sessions db)) as [s |] eqn:Hf; [| reflexivity].
    exfalso. apply Hno. apply find_some in Hf as [Hin Hp].
    exists s. split; [now apply list_elem_of_In | now apply String.eqb_eq].
  - intros Hex. cbv zeta. rewrite (get_session_context_found db session_id window Hex).
    unfold Py2.list_slice_from. split.
    + intros ->. reflexivity.
    + intros Hw. destruct (0 <=? - window) eqn:E; [lia |].
      set (all := messages_of db session_id).
      set (k := Z.to_nat (Z.of_nat (length all) + - window)).
      exists (map turn_of (firstn k all)). split.
      * rewrite <- map_app. now rewrite firstn_skipn.
      * rewrite !length_map, length_drop. subst k. lia.
Qed.

End Sessions.

(** ** Profiles *)

Section Profiles.

Import Spec Laws profile_service.

Lemma new_profile_owned new_id utcnow user_id display_name :
  owned_by user_id (new_profile new_id utcnow user_id display_name) = true.
Proof.
  unfold owned_by, new_profile. cbn [list_to_map foldr fst snd curry uncurry].
  rewrite lookup_insert_ne by discriminate.
  rewrite lookup_insert_eq. apply String.eqb_refl.
Qed.

Lemma find_app_none {A} (p : A -> bool) (l : list A) x :
  find p l = None -> find p (l ++ [x]) = if p x then Some x else None.
Proof.
  induction l as [| y l IH]; [reflexivity |].
  cbn [find app]. destruct (p y); [discriminate | exact IH].
Qed.

Lemma find_app_some {A} (p : A -> bool) (l k : list A) x :
  find p l = Some x -> find p (l ++ k) = Some x.
Proof.
  induction l as [| y l IH]; [discriminate |].
  cbn [find app]. destruct (p y); [auto | exact IH].
Qed.

Lemma get_or_create_profile_frame new_id utcnow db user_id :
  users (snd (get_or_create_profile new_id utcnow db user_id)) = users db /\
  sessions (snd (get_or_create_profile new_id utcnow db user_id)) = sessions db /\
  messages (snd (get_or_create_profile new_id utcnow db user_id)) = messages db.
Proof.
  unfold get_or_create_profile.
  destruct (find (owned_by user_id) (profiles db)); cbn; auto.
Qed.

(** X20. Fetching a user's profile always yields a row owned by that user
    that is the user's first row in the table afterwards; it adds at most
    one row and only when the user had none, keeps every other row, and
    asking again returns the same row without changing the tables. *)
Theorem X20_get_or_create_profile :
  forall id1 id2 t1 t2 db user_id,
    let profile := fst (get_or_create_profile id1 t1 db user_id) in
    let db' := snd (get_or_create_profile id1 t1 db user_id) in
    owned_by user_id profile = true /\
    find (owned_by user_id) (profiles db') = Some profile /\
    (profiles db' = profiles db \/
     (find (owned_by user_id) (profiles db) = None /\
      profiles db' = profiles db ++ [profile])) /\
    users db' = users db /\ sessions db' = sessions db /\ messages db' = messages db /\
    get_or_create_profile id2 t2 db' user_id = (profile, db').
Proof.
  intros id1 id2 t1 t2 db user_id. cbv zeta.
  remember (get_or_create_profile id1 t1 db user_id) as r eqn:Hr.
  unfold get_or_create_profile in Hr.
  destruct (find (owned_by user_id) (profiles db)) as [profile |] eqn:Hf;
    subst r; cbn [fst snd].
  - pose proof (find_some _ _ Hf) as [_ Hp].
    split; [exact Hp |]. split; [exact Hf |].
    split; [now left |]. split; [reflexivity |]. split; [reflexivity |].
    split; [reflexivity |].
    unfold get_or_create_profile. now rewrite Hf.
  - cbn [profiles users sessions messages].
    pose proof (new_profile_owned id1 t1 user_id "") as Hown.
    assert (Hf' : find (owned_by user_id)
                    (profiles db ++ [new_profile id1 t1 user_id ""])
                  = Some (new_profile id1 t1 user_id "")).
    { rewrite (find_app_none _ _ _ Hf). now rewrite Hown. }
    split; [exact Hown |]. split; [exact Hf' |].
    split; [right; auto |]. split; [reflexivity |]. split; [reflexivity |].
    split; [reflexivity |].
    unfold get_or_create_profile. cbn [profiles]. now rewrite Hf'.
Qed.

Lemma apply_updates_lookup updates (profile : gmap string value) k :
  apply_updates updates profile !! k
  = if bool_decide (k ∈ allowed_fields)
    then match last_binding updates k with
         | Some v => Some v
         | None => profile !! k
         end
    else profile !! k.
Proof.
  revert profile. induction updates as [| [k0 v0] rest IH]; intros profile.
  - cbn. now destruct (bool_decide _).
  - cbn [apply_updates last_binding]. rewrite IH.
    destruct (bool_decide (k ∈ allowed_fields)) eqn:Hk.
    + destruct (last_binding rest k); [reflexivity |].
      destruct (String.eqb_spec k0 k) as [-> | Hne].
      * rewrite Hk. apply lookup_insert_eq.
      * destruct (bool_decide (k0 ∈ allowed_fields)); [| reflexivity].
        now apply lookup_insert_ne.
    + destruct (bool_decide (k0 ∈ allowed_fields)) eqn:Hk0; [| reflexivity].
      apply lookup_insert_ne. intros ->. congruence.
Qed.

(** X21. Updating a profile assigns only the eight allowed columns: each of
    them takes the last value the updates give it, or keeps its value when
    they give none; [updated_at] becomes the time of the call; every other
    column, the row's identifier and owner among them, keeps its value
    whatever the updates say. Users, sessions and messages are not
    touched. *)
Theorem X21_update_profile_assigns_allowed_columns_only :
  forall new_id utcnow db user_id updates,
    let before := fst (get_or_create_profile new_id utcnow db user_id) in
    let after := fst (update_profile new_id utcnow db user_id updates) in
    let db' := snd (update_profile new_id utcnow db user_id updates) in
    after !! "updated_at"%string = Some (VTime utcnow) /\
    (forall k, k ∈ allowed_fields ->
       after !! k = match last_binding updates k with
                    | Some v => Some v
                    | None => before !! k
                    end) /\
    (forall k, k ∉ allowed_fields -> k <> "updated_at"%string ->
       after !! k = before !! k) /\
    after !! "id"%string = before !! "id"%string /\
    after !! "user_id"%string = before !! "user_id"%string /\
    users db' = users db /\ sessions db' = sessions db /\ messages db' = messages db.
Proof.
  intros new_id utcnow db user_id updates. cbv zeta. unfold update_profile.
  destruct (get_or_create_profile_frame new_id utcnow db user_id) as (Hu & Hs & Hm).
  destruct (get_or_create_profile new_id utcnow db user_id) as [before db1].
  cbn [fst snd users sessions messages] in *.
  assert (Hallowed : forall k, k ∈ allowed_fields ->
            <["updated_at"%string := VTime utcnow]> (apply_updates updates before) !! k
            = match last_binding updates k with
              | Some v => Some v
              | None => before !! k
              end).
  { intros k Hk. rewrite lookup_insert_ne, apply_updates_lookup.
    - now rewrite bool_decide_eq_true_2.
    - intros <-. revert Hk. apply (bool_decide_unpack _). vm_compute. exact I. }
  assert (Hother : forall k, k ∉ allowed_fields -> k <> "updated_at"%string ->
            <["updated_at"%string := VTime utcnow]> (apply_updates updates before) !! k
            = before !! k).
  { intros k Hk Hne. rewrite lookup_insert_ne by congruence.
    rewrite apply_updates_lookup. now rewrite bool_decide_eq_false_2. }
  split; [apply lookup_insert_eq |]. split; [exact Hallowed |]. split; [exact Hother |].
  split; [| split; [| auto]].
  - apply Hother; [| discriminate]. apply (bool_decide_unpack _). vm_compute. exact I.
  - apply Hother; [| discriminate]. apply (bool_decide_unpack _). vm_compute. exact I.
Qed.

End Profiles.

(** ** Accounts *)

Section Accounts.

Import Spec Laws auth.

Variable hash_password : string -> string.
Variable verify_password : string -> string -> bool.
Variable jwt_encode : list (string * string) -> datetime -> string.
Variable jwt_decode : datetime -> string -> option (list (string * string)).

Lemma find_none_by {A} (key : A -> string) (l : list A) (name : string) :
  find (fun u => String.eqb (key u) name) l = None ->
  name ∉ map key l.
Proof.
  intros Hf Hin. apply list_elem_of_fmap in Hin as (u & -> & Hu).
  apply list_elem_of_In in Hu. pose proof (find_none _ _ Hf u Hu) as Hn.
  cbn in Hn. rewrite String.eqb_refl in Hn. discriminate.
Qed.

Lemma NoDup_snoc_fresh (l : list string) x :
  NoDup l -> x ∉ l -> NoDup (l ++ [x]).
Proof.
  intros Hl Hx. apply NoDup_app. split; [exact Hl |].
  split; [| apply NoDup_singleton].
  intros y Hy Hy'. apply list_elem_of_singleton in Hy'. now subst y.
Qed.

(** X22. A signup either fails with status 400, when the user name or the
    e-mail address is taken, and leaves the tables as they are; or it
    appends one user with the requested name and address and one profile
    owned by that user and displaying that name, and user names and
    e-mail addresses are unique afterwards if they were before. *)
Theorem X22_signup_keeps_names_unique :
  forall uid pid utcnow request db,
    unique_names db ->
    let db' := snd (signup_user hash_password uid pid utcnow request db) in
    match fst (signup_user hash_password uid pid utcnow request db) with
    | Ok user =>
        users db' = users db ++ [user] /\
        user_row.id user = uid /\
        user_row.username user = signup_username request /\
        user_row.email user = signup_email request /\
        user_row.is_active user = true /\
        unique_names db' /\
        exists profile,
          profiles db' = profiles db ++ [profile] /\
          profile_service.owned_by uid profile = true /\
          profile !! "display_name"%string = Some (VStr (signup_username request))
    | Failed e =>
        db' = db /\
        exists detail, e = HTTPException 400 detail /\
        exists u, u ∈ users db /\
          (user_row.username u = signup_username request \/
           user_row.email u = signup_email request)
    end.
Proof.
  intros uid pid utcnow request db [Hnames Hmails]. cbv zeta. unfold signup_user.
  destruct (find (fun u => String.eqb (user_row.username u) (signup_username request))
              (users db)) as [u |] eqn:Hfu; cbn [fst snd].
  { split; [reflexivity |]. eexists. split; [reflexivity |].
    apply find_some in Hfu as [Hin Hp]. apply String.eqb_eq in Hp.
    exists u. split; [now apply list_elem_of_In | auto]. }
  destruct (find (fun u => String.eqb (user_row.email u) (signup_email request))
              (users db)) as [u |] eqn:Hfe; cbn [fst snd].
  { split; [reflexivity |]. eexists. split; [reflexivity |].
    apply find_some in Hfe as [Hin Hp]. apply String.eqb_eq in Hp.
    exists u. split; [now apply list_elem_of_In | auto]. }
  cbn [users profiles user_row.id user_row.username user_row.email user_row.is_active].
  repeat (split; [reflexivity |]). split.
  - unfold unique_names. cbn [users]. rewrite !map_app. cbn [map user_row.username
      user_row.email].
    split; (apply NoDup_snoc_fresh; [assumption |]);
      [now apply (find_none_by user_row.username)
      | now apply (find_none_by user_row.email)].
  - eexists. split; [reflexivity |]. split.
    + apply (new_profile_owned pid utcnow uid).
    + unfold profile_service.new_profile. cbn [list_to_map foldr fst snd curry uncurry].
      rewrite !lookup_insert_ne by discriminate. apply lookup_insert_eq.
Qed.

(** X23. With a hashing context that verifies what it hashed, logging in
    with the name and password of a signup that succeeded succeeds and
    names the new user; a login under a name no user has fails with
    status 401. *)
Theorem X23_signup_then_login :
  forall uid pid t1 t2 request db user,
    (forall password, verify_password password (hash_password password) = true) ->
    fst (signup_user hash_password uid pid t1 request db) = Ok user ->
    let db' := snd (signup_user hash_password uid pid t1 request db) in
    (exists token,
        login_user verify_password jwt_encode t2
          {| login_username := signup_username request;
             login_password := signup_password request |} db'
        = Ok {| access_token := token;
                token_type := "bearer";
                token_user_id := uid;
                token_username := signup_username request |}) /\
    (forall name password,
        name ∉ map user_row.username (users db') ->
        login_user verify_password jwt_encode t2
          {| login_username := name; login_password := password |} db'
        = Failed (HTTPException 401 "Invalid credentials")).
Proof.
  intros uid pid t1 t2 request db user Hverify Hok. cbv zeta. split.
  - revert Hok. unfold signup_user.
    destruct (find (fun u => String.eqb (user_row.username u) (signup_username request))
                (users db)) as [u |] eqn:Hfu; cbn [fst snd]; [discriminate |].
    destruct (find (fun u => String.eqb (user_row.email u) (signup_email request))
                (users db)) as [u |] eqn:Hfe; cbn [fst snd]; [discriminate |].
    intros _. unfold login_user. cbn [login_username login_password users].
    rewrite (find_app_none _ _ _ Hfu). cbn [user_row.username].
    rewrite String.eqb_refl. cbn [user_row.hashed_password user_row.id
      user_row.username]. rewrite Hverify. cbn [negb]. eauto.
  - intros name password Hname. unfold login_user. cbn [login_username].
    destruct (find (fun u => String.eqb (user_row.username u) name)
                (users (snd (signup_user hash_password uid pid t1 request db))))
      as [u |] eqn:Hf; [| reflexivity].
    exfalso. apply Hname. apply find_some in Hf as [Hin Hp].
    apply String.eqb_eq in Hp. apply list_elem_of_fmap.
    exists u. split; [auto | now apply list_elem_of_In].
Qed.

Lemma find_unique_id (l : list user_row.User) user :
  NoDup (map user_row.id l) -> user ∈ l ->
  find (fun u => String.eqb (user_row.id u) (user_row.id user)) l = Some user.
Proof.
  induction l as [| u l IH]; intros Hnd Hin; [inversion Hin |].
  cbn [map] in Hnd. apply NoDup_cons in Hnd as [Hfresh Hnd]. cbn [find].
  apply elem_of_cons in Hin as [-> | Hin].
  - now rewrite String.eqb_refl.
  - destruct (String.eqb_spec (user_row.id u) (user_row.id user)) as [Heq | _];
      [| now apply IH].
    exfalso. apply Hfresh. rewrite Heq. apply list_elem_of_fmap. eauto.
Qed.

(** X24. Whoever a token authenticates is a stored, active user whose
    identifier is the token's [sub] claim; every refusal is the 401
    credentials error; and, user identifiers being unique, a token that
    decodes to the identifier of a stored active user authenticates
    that user. *)
Theorem X24_get_current_user :
  forall utcnow token db,
    (forall user,
        get_current_user jwt_decode utcnow token db = Ok user ->
        user ∈ users db /\
        user_row.is_active user = true /\
        exists payload,
          jwt_decode utcnow token = Some payload /\
          payload_get payload "sub" = Some (user_row.id user)) /\
    (forall e,
        get_current_user jwt_decode utcnow token db = Failed e ->
        e = HTTPException 401 "Could not validate credentials") /\
    (forall user payload,
        NoDup (map user_row.id (users db)) ->
        user ∈ users db ->
        user_row.is_active user = true ->
        jwt_decode utcnow token = Some payload ->
        payload_get payload "sub" = Some (user_row.id user) ->
        get_current_user jwt_decode utcnow token db = Ok user).
Proof.
  intros utcnow token db. unfold get_current_user. split; [| split].
  - intros user.
    destruct (jwt_decode utcnow token) as [payload |]; [| discriminate].
    destruct (payload_get payload "sub") as [sub |] eqn:Hsub; [| discriminate].
    destruct (find (fun u => String.eqb (user_row.id u) sub) (users db)) as [u |] eqn:Hf;
      [| discriminate].
    pose proof (find_some _ _ Hf) as [Hin Hp]. apply String.eqb_eq in Hp.
    apply list_elem_of_In in Hin.
    destruct (user_row.is_active u) eqn:Hact; cbn [negb]; [| discriminate].
    intros [= <-]. split; [exact Hin |]. split; [exact Hact |].
    exists payload. split; [reflexivity |]. now rewrite Hsub, Hp.
  - intros e.
    destruct (jwt_decode utcnow token) as [payload |]; [| now intros [= <-]].
    destruct (payload_get payload "sub") as [sub |]; [| now intros [= <-]].
    destruct (find _ (users db)) as [u |]; [| now intros [= <-]].
    destruct (negb (user_row.is_active u)); [now intros [= <-] | discriminate].
  - intros user payload Hnd Hin Hact -> ->.
    rewrite (find_unique_id _ _ Hnd Hin). now rewrite Hact.
Qed.

End Accounts.

(** ** Fact extraction *)

Section Facts.

Import fact_extraction.

Variable findall : string -> string -> list string.

Lemma unique_facts_keys seen facts :
  NoDup (map fact_key (unique_facts seen facts)) /\
  (forall f, f ∈ unique_facts seen facts -> (fact_key f ∉ seen) /\ (f ∈ facts)).
Proof.
  revert seen. induction facts as [| f rest IH]; intros seen.
  - cbn. split; [constructor | intros f Hf; inversion Hf].
  - cbn [unique_facts]. destruct (bool_decide (fact_key f ∈ seen)) eqn:Hseen.
    + destruct (IH seen) as [Hnd Hin]. split; [exact Hnd |].
      intros g Hg. destruct (Hin g Hg). split; [assumption | now right].
    + apply bool_decide_eq_false in Hseen.
      destruct (IH ({[fact_key f]} ∪ seen)) as [Hnd Hin]. split.
      * cbn [map]. apply NoDup_cons. split; [| exact Hnd].
        intros Hk. apply list_elem_of_fmap in Hk as (g & Hkey & Hg).
        destruct (Hin g Hg) as [Hfresh _]. apply Hfresh. rewrite <- Hkey.
        apply elem_of_union. left. now apply elem_of_singleton.
      * intros g Hg. apply elem_of_cons in Hg as [-> | Hg].
        -- split; [exact Hseen | left].
        -- destruct (Hin g Hg) as [Hfresh Hrest].
           split; [| now right].
           intros Hs. apply Hfresh, elem_of_union. now right.
Qed.

Lemma message_facts_from msg f :
  f ∈ message_facts findall msg ->
  message.role msg = "user"%string /\ f = Py2.strip (message.content msg).
Proof.
  unfold message_facts.
  destruct (String.eqb_spec (message.role msg) "user") as [Hrole | Hrole]; cbn [negb];
    [| intros H; inversion H].
  intros Hf. split; [exact Hrole |].
  apply elem_of_app in Hf as [Hf | Hf].
  - apply list_elem_of_In, in_flat_map in Hf as (pattern & _ & Hf).
    unfold pattern_facts in Hf. destruct (existsb _ _); [| contradiction].
    destruct Hf as [<- | []]. reflexivity.
  - destruct (existsb _ PREFERENCE_KEYWORDS); [| inversion Hf].
    destruct (Py.len (message.content msg) <? 500)%Z; [| inversion Hf].
    apply list_elem_of_singleton in Hf. exact Hf.
Qed.

Lemma no_user_no_facts messages :
  (forall msg, msg ∈ messages -> message.role msg <> "user"%string) ->
  flat_map (message_facts findall) messages = [].
Proof.
  induction messages as [| msg msgs IH]; intros Hnone; [reflexivity |].
  cbn [flat_map]. rewrite IH by (intros m Hm; apply Hnone; now right).
  unfold message_facts.
  destruct (String.eqb_spec (message.role msg) "user") as [Hrole | _];
    [| reflexivity].
  exfalso. apply (Hnone msg); [left | exact Hrole].
Qed.

(** X25. Whatever the pattern matcher finds, a conversation yields at most
    ten facts; no two of them agree on their lower-cased first 80
    characters; each is the stripped content of a message of the user; and
    a conversation without user messages yields none. *)
Theorem X25_extracted_facts :
  forall messages,
    let facts := extract_facts_from_conversation findall messages in
    (length facts <= 10)%nat /\
    NoDup (map fact_key facts) /\
    (forall f, f ∈ facts ->
       exists msg, msg ∈ messages /\ message.role msg = "user"%string /\
                   f = Py2.strip (message.content msg)) /\
    ((forall msg, msg ∈ messages -> message.role msg <> "user"%string) -> facts = []).
Proof.
  intros messages. cbv zeta. unfold extract_facts_from_conversation.
  change (Py.list_slice_to ?l 10) with (firstn 10 l).
  set (all := flat_map (message_facts findall) messages).
  destruct (unique_facts_keys ∅ all) as [Hnd Hin].
  split; [rewrite length_take; lia |]. split; [| split].
  - eapply sublist_NoDup; [exact Hnd |].
    apply (fmap_sublist fact_key), sublist_take.
  - intros f Hf. apply elem_of_take in Hf as (i & Hf & _).
    apply list_elem_of_lookup_2 in Hf. destruct (Hin f Hf) as [_ Hall].
    subst all. apply list_elem_of_In, in_flat_map in Hall as (msg & Hmsg & Hfm).
    apply list_elem_of_In in Hmsg, Hfm.
    destruct (message_facts_from msg f Hfm). eauto.
  - intros Hnone. subst all. now rewrite (no_user_no_facts messages Hnone).
Qed.

Lemma unique_facts_repeated seen x facts :
  (forall f, f ∈ facts -> f = x) ->
  unique_facts seen facts
  = if bool_decide (fact_key x ∈ seen) then []
    else match facts with [] => [] | _ => [x] end.
Proof.
  revert seen. induction facts as [| f rest IH]; intros seen Hall.
  - cbn. now destruct (bool_decide _).
  - assert (f = x) by (apply Hall; left). subst f.
    cbn [unique_facts]. destruct (bool_decide (fact_key x ∈ seen)) eqn:Hseen.
    + rewrite IH by (intros g Hg; apply Hall; now right). now rewrite Hseen.
    + rewrite IH by (intros g Hg; apply Hall; now right).
      rewrite bool_decide_eq_true_2; [reflexivity |].
      apply elem_of_union. left. now apply elem_of_singleton.
Qed.

(** X26. A conversation of one user message shorter than 500 characters
    that holds one of the preference phrases ("i prefer", "i like", "i
    dislike", "i want", "i need", in any case) yields exactly one fact,
    the message stripped, however many patterns match it as well. *)
Theorem X26_single_preference_message :
  forall content,
    existsb (fun kw => Py.contains kw (Py.lower content)) PREFERENCE_KEYWORDS = true ->
    (Py.len content < 500)%Z ->
    extract_facts_from_conversation findall
      [{| message.role := "user"; message.content := content |}]
    = [Py2.strip content].
Proof.
  intros content Hpref Hlen. unfold extract_facts_from_conversation.
  cbn [flat_map]. rewrite app_nil_r.
  set (msg := {| message.role := "user"; message.content := content |}).
  rewrite (unique_facts_repeated ∅ (Py2.strip content)).
  - rewrite bool_decide_eq_false_2 by apply not_elem_of_empty.
    unfold message_facts. cbn [message.role message.content msg String.eqb Ascii.eqb
      Bool.eqb negb]. rewrite Hpref.
    replace (Py.len content <? 500)%Z with true by lia.
    destruct (flat_map _ IDENTITY_PATTERNS); reflexivity.
  - intros f Hf. now destruct (message_facts_from msg f Hf).
Qed.

End Facts.

(** ** Usage metrics *)

Section Metrics.

Import Spec Laws analytics.
Local Open Scope Z_scope.

Lemma count_cons {A} (p : A -> bool) x (l : list A) :
  count p (x :: l) = Z.b2z (p x) + count p l.
Proof.
  unfold count. cbn [List.filter]. destruct (p x); cbn [length Z.b2z]; lia.
Qed.

Lemma count_nonneg {A} (p : A -> bool) (l : list A) : 0 <= count p l.
Proof. unfold count. lia. Qed.

(** Counting by a predicate that is the disjoint union of two others. *)
Lemma count_split {A} (p q r : A -> bool) (l : list A) :
  (forall x, Z.b2z (p x) = Z.b2z (q x) + Z.b2z (r x)) ->
  count p l = count q l + count r l.
Proof.
  intros Hsplit. induction l as [| x l IH]; [reflexivity |].
  rewrite !count_cons, IH, Hsplit. lia.
Qed.

Lemma count_le {A} (p q : A -> bool) (l : list A) :
  (forall x, p x = true -> q x = true) -> count p l <= count q l.
Proof.
  intros Himp. induction l as [| x l IH]; [reflexivity |].
  rewrite !count_cons. specialize (Himp x).
  destruct (p x); [rewrite (Himp eq_refl) | destruct (q x)]; cbn [Z.b2z]; lia.
Qed.

Lemma known_type_split t :
  Z.b2z (known_type t)
  = Z.b2z (String.eqb t "session") + Z.b2z (String.eqb t "episodic")
    + Z.b2z (String.eqb t "semantic") + Z.b2z (String.eqb t "profile").
Proof.
  unfold known_type.
  destruct (String.eqb_spec t "session") as [-> | _]; [reflexivity |].
  destruct (String.eqb_spec t "episodic") as [-> | _]; [reflexivity |].
  destruct (String.eqb_spec t "semantic") as [-> | _]; [reflexivity |].
  destruct (String.eqb_spec t "profile") as [-> | _]; reflexivity.
Qed.

(** X27. The memory breakdown lists the four memory types in order, and
    the total it adds up to is the number of the user's memories of those
    four types: memories of any other type are not counted, so the total
    never exceeds the number of the user's memories. *)
Theorem X27_memory_totals :
  forall utcnow utcnow' memories db user_id,
    let m := get_user_metrics utcnow utcnow' memories db user_id in
    map fst (memory_breakdown m) = MEMORY_TYPES /\
    total_memories (overview m)
    = count (fun r => String.eqb (models.user_id r) user_id
                      && known_type (models.memory_type r))%bool memories /\
    total_memories (overview m)
    <= count (fun r => String.eqb (models.user_id r) user_id) memories.
Proof.
  intros utcnow utcnow' memories db user_id. cbv zeta.
  unfold get_user_metrics. cbn [overview total_memories memory_breakdown].
  split; [reflexivity |].
  assert (Htotal :
    fold_right Z.add 0
      (map snd
         (map (fun mtype =>
                 (mtype,
                  count (fun m => String.eqb (models.user_id m) user_id
                                  && String.eqb (models.memory_type m) mtype)%bool
                        memories)) MEMORY_TYPES))
    = count (fun r => String.eqb (models.user_id r) user_id
                      && known_type (models.memory_type r))%bool memories).
  { cbn [MEMORY_TYPES map snd fold_right].
    induction memories as [| r l IH]; [reflexivity |].
    rewrite !count_cons. rewrite Z.add_0_r in *.
    pose proof (known_type_split (models.memory_type r)) as Hk.
    destruct (String.eqb (models.user_id r) user_id); cbn [andb Z.b2z] in *; lia. }
  rewrite Htotal. split; [reflexivity |].
  apply count_le. intros r Hr. now apply andb_true_iff in Hr as [Hr _].
Qed.

(** X28. The metrics show at most five memories, all of the user, most
    reinforced first, and each preview has at most 103 characters. *)
Theorem X28_top_memories :
  forall utcnow utcnow' memories db user_id,
    let tops := top_memories (get_user_metrics utcnow utcnow' memories db user_id) in
    (length tops <= 5)%nat /\
    descending (fun t => inject_Z (top_reinforcement_count t)) tops /\
    forall t, t ∈ tops ->
      Py.len (top_content t) <= 103 /\
      exists r, r ∈ memories /\ models.user_id r = user_id /\ models.id r = top_id t.
Proof.
  intros utcnow utcnow' memories db user_id. cbv zeta.
  unfold get_user_metrics. cbn [top_memories].
  set (mine := List.filter (fun m => String.eqb (models.user_id m) user_id) memories).
  set (sorted := Py.sort_desc (fun m => inject_Z (models.reinforcement_count m)) mine).
  set (preview := fun m : models.Memory => {| top_id := models.id m; top_content := _;
                     top_memory_type := _; top_importance_score := _;
                     top_reinforcement_count := _ |}).
  split; [rewrite length_map, length_take; lia |]. split.
  - pose proof (descending_firstn (fun m => inject_Z (models.reinforcement_count m)) 5
                  sorted (sort_desc_descending _ mine)) as Hd.
    unfold descending in *. induction Hd as [| x l Hs IH Hx]; cbn [map]; constructor.
    + exact IH.
    + apply Forall_fmap. eapply Forall_impl; [exact Hx |]. intros y Hy. exact Hy.
  - intros t Ht. apply list_elem_of_fmap in Ht as (r & -> & Hr).
    apply elem_of_take in Hr as (i & Hr & _). apply list_elem_of_lookup_2 in Hr.
    subst sorted. rewrite (sort_desc_perm _ mine) in Hr.
    apply list_elem_of_In, filter_In in Hr as [Hin Hu]. apply String.eqb_eq in Hu.
    split; [| exists r; split; [now apply list_elem_of_In | auto]].
    cbn [top_content preview]. rewrite len_app, len_slice_to by lia.
    pose proof (len_nonneg (models.content r)).
    destruct (100 <? Py.len (models.content r));
      [change (Py.len "...") with 3 | change (Py.len "") with 0]; lia.
Qed.

Lemma completeness_of_fields (profile : gmap string value) :
  py_int ((inject_Z (Z.of_nat (length (List.filter (fun f : bool => f)
             [value_truthy (profile !! "display_name"%string);
              value_differs (profile !! "expertise_level"%string) "intermediate";
              value_truthy (profile !! "goals"%string);
              value_truthy (profile !! "interests"%string);
              value_differs (profile !! "communication_style"%string)
                "conversational"])))
           / inject_Z (Z.of_nat 5)) * 100)%Q
  = 20 * fields_set profile.
Proof.
  unfold fields_set.
  destruct (value_truthy (profile !! "display_name"%string)),
    (value_differs (profile !! "expertise_level"%string) "intermediate"),
    (value_truthy (profile !! "goals"%string)),
    (value_truthy (profile !! "interests"%string)),
    (value_differs (profile !! "communication_style"%string) "conversational");
    vm_compute; reflexivity.
Qed.

Lemma fields_set_range (profile : gmap string value) : 0 <= fields_set profile <= 5.
Proof.
  unfold fields_set.
  destruct (value_truthy (profile !! "display_name"%string)),
    (value_differs (profile !! "expertise_level"%string) "intermediate"),
    (value_truthy (profile !! "goals"%string)),
    (value_truthy (profile !! "interests"%string)),
    (value_differs (profile !! "communication_style"%string) "conversational");
    cbn [Z.b2z]; lia.
Qed.

(** X29. The profile completeness is 0 for a user with no profile row and
    otherwise 20 for each of the five fields that is set, so it is one of
    0, 20, ..., 100; the row [get_or_create_profile] inserts counts as 0 and
    the row [signup_user] inserts as 20 when the user name is not empty. *)
Theorem X29_profile_completeness :
  forall utcnow utcnow' memories db user_id,
    let pct :=
      profile_completeness_pct
        (overview (get_user_metrics utcnow utcnow' memories db user_id)) in
    pct = match find (profile_service.owned_by user_id) (profiles db) with
          | None => 0
          | Some profile => 20 * fields_set profile
          end /\
    0 <= pct <= 100 /\
    (forall new_id t display_name,
        find (profile_service.owned_by user_id) (profiles db)
        = Some (profile_service.new_profile new_id t user_id display_name) ->
        pct = if Py.truthy display_name then 20 else 0).
Proof.
  intros utcnow utcnow' memories db user_id. cbv zeta.
  unfold get_user_metrics. cbn [overview profile_completeness_pct].
  assert (Hpct :
    match find (profile_service.owned_by user_id) (profiles db) with
    | None => 0
    | Some profile =>
        py_int ((inject_Z (Z.of_nat (length (List.filter (fun f : bool => f)
                   [value_truthy (profile !! "display_name"%string);
                    value_differs (profile !! "expertise_level"%string) "intermediate";
                    value_truthy (profile !! "goals"%string);
                    value_truthy (profile !! "interests"%string);
                    value_differs (profile !! "communication_style"%string)
                      "conversational"])))
                 / inject_Z (Z.of_nat (length
                   [value_truthy (profile !! "display_name"%string);
                    value_differs (profile !! "expertise_level"%string) "intermediate";
                    value_truthy (profile !! "goals"%string);
                    value_truthy (profile !! "interests"%string);
                    value_differs (profile !! "communication_style"%string)
                      "conversational"]))) * 100)%Q
    end
    = match find (profile_service.owned_by user_id) (profiles db) with
      | None => 0
      | Some profile => 20 * fields_set profile
      end).
  { destruct (find _ (profiles db)) as [profile |]; [| reflexivity].
    exact (completeness_of_fields profile). }
  rewrite Hpct. clear Hpct. split; [reflexivity |]. split.
  - destruct (find _ (profiles db)) as [profile |]; [| lia].
    pose proof (fields_set_range profile). lia.
  - intros new_id t display_name ->.
    unfold fields_set, profile_service.new_profile.
    replace (_ !! "display_name"%string) with (Some (VStr display_name))
      by (vm_compute; reflexivity).
    replace (_ !! "expertise_level"%string) with (Some (VStr "intermediate"))
      by (vm_compute; reflexivity).
    replace (_ !! "goals"%string) with (Some (VList [])) by (vm_compute; reflexivity).
    replace (_ !! "interests"%string) with (Some (VList [])) by (vm_compute; reflexivity).
    replace (_ !! "communication_style"%string) with (Some (VStr "conversational"))
      by (vm_compute; reflexivity).
    cbn [value_truthy value_differs]. destruct (Py.truthy display_name); reflexivity.
Qed.

Lemma sum_app (l l' : list Z) :
  fold_right Z.add 0 (l ++ l') = fold_right Z.add 0 l + fold_right Z.add 0 l'.
Proof. induction l as [| y l IH]; cbn [app fold_right]; lia. Qed.

(** The counts of [n] consecutive days add up to the count of the whole
    stretch: the days are disjoint and leave no gap. *)
Lemma day_counts_sum {A} (owned : A -> bool) (created_at : A -> Z) (start : Z)
    (rows : list A) (n : nat) :
  fold_right Z.add 0
    (map snd
       (map (fun i =>
               let day_start := start + days i in
               let day_end := day_start + days 1 in
               (day_start,
                count (fun s => owned s && (day_start <=? created_at s)
                                && (created_at s <? day_end))%bool rows))
            (map Z.of_nat (seq 0 n))))
  = count (fun s => owned s && (start <=? created_at s)
                    && (created_at s <? start + days (Z.of_nat n)))%bool rows.
Proof.
  induction n as [| n IH].
  - cbn [seq map fold_right]. unfold count.
    replace (List.filter _ rows) with (@nil A); [reflexivity |].
    symmetry. induction rows as [| r rows IHr]; [reflexivity |].
    cbn [List.filter]. unfold days. change (Z.of_nat 0) with 0.
    destruct (owned r); cbn [andb]; [| exact IHr].
    destruct (Z.leb_spec start (created_at r)), (Z.ltb_spec (created_at r) (start + 0 * 86400000000));
      cbn [andb]; try exact IHr; lia.
  - rewrite seq_S, !map_app, sum_app, IH.
    cbn [map fold_right snd Nat.add]. rewrite Z.add_0_r. symmetry. apply count_split. intros s.
    unfold days. destruct (owned s); cbn [andb Z.b2z]; [| reflexivity].
    destruct (Z.leb_spec start (created_at s)),
      (Z.ltb_spec (created_at s) (start + Z.of_nat (S n) * 86400000000)),
      (Z.ltb_spec (created_at s) (start + Z.of_nat n * 86400000000)),
      (Z.leb_spec (start + Z.of_nat n * 86400000000) (created_at s)),
      (Z.ltb_spec (created_at s) (start + Z.of_nat n * 86400000000 + 1 * 86400000000));
      cbn [andb Z.b2z]; lia.
Qed.

(** X30. The activity series has thirty entries, one for each of the
    thirty days that end at the time of the call, oldest first; their counts
    add up to the number of the user's sessions created in those thirty
    days (a session created at the very time of the call is not counted),
    which is at most the total number of the user's sessions. *)
Theorem X30_sessions_per_day :
  forall utcnow utcnow' memories db user_id,
    let m := get_user_metrics utcnow utcnow' memories db user_id in
    let per_day := sessions_per_day_30d m in
    map fst per_day
    = map (fun i => utcnow' - days 30 + days (Z.of_nat i)) (seq 0 30) /\
    fold_right Z.add 0 (map snd per_day)
    = count (fun s => String.eqb (session_row.user_id s) user_id
                      && (utcnow' - days 30 <=? session_row.created_at s)
                      && (session_row.created_at s <? utcnow'))%bool (sessions db) /\
    fold_right Z.add 0 (map snd per_day) <= total_sessions (overview m).
Proof.
  intros utcnow utcnow' memories db user_id. cbv zeta.
  unfold get_user_metrics. cbn [sessions_per_day_30d overview total_sessions].
  pose proof (day_counts_sum (fun s => String.eqb (session_row.user_id s) user_id)
                session_row.created_at (utcnow' - days 30) (sessions db) 30) as Hsum.
  cbv beta zeta in Hsum.
  replace (utcnow' - days 30 + days (Z.of_nat 30)) with utcnow' in Hsum
    by (unfold days; lia).
  split; [rewrite !map_map; reflexivity |]. split; [exact Hsum |].
  etransitivity; [apply Z.eq_le_incl; exact Hsum |].
  apply count_le. intros s Hs.
  apply andb_true_iff in Hs as [Hs _]. now apply andb_true_iff in Hs as [Hs _].
Qed.

End Metrics.

(** ** The properties above on the sample data *)

Lemma X1_delete_witness :
  exists w',
    memory_crud.delete_memory "a" "u" Examples.world = (Return true, w') /\
    memory_crud.get_memory_by_id "a" "u" w' = (Return None, w').
Proof.
  destruct (X1_delete_memory_then_lookup "a" "u" Examples.world) as [_ Hsome].
  destruct (Hsome Examples.mem_a ltac:(reflexivity)) as (w' & Hrun & Hget & _).
  exists w'. split; assumption.
Defined.

Lemma X2_deleted_witness :
  exists out,
    retrieval.retrieve_relevant_memories
      Examples.embed_text retrieval.flat_ip_search Examples.clock
      "u" "what do i love" (Some 5%Z)
      (snd (memory_crud.delete_memory "a" "u" Examples.world))
    = (Return out, snd (memory_crud.delete_memory "a" "u" Examples.world)) /\
    Forall (fun c => candidate.id c <> "a"%string) out.
Proof.
  destruct (X2_deleted_memory_is_never_ranked
              Examples.embed_text retrieval.flat_ip_search Examples.clock
              "a" "u" "what do i love" (Some 5%Z) Examples.world
              ltac:(reflexivity)) as (_ & _ & Hnever & Hreturns).
  destruct (Hreturns ltac:(simpl; lia)) as (out & Hout).
  exists out. split; [exact Hout |].
  apply Forall_forall. intros c Hc. apply (Hnever out); [| exact Hc].
  now rewrite Hout.
Defined.

Lemma X3_upsert_witness :
  Forall Laws.importance_consistent
    (db (snd (memory_crud.upsert_memory_by_content
                "n" 5%Z "u" "semantic" "LOVE hate fear" None None Examples.world))).
Proof.
  apply X3_upsert_keeps_importance_consistent.
  - apply (bool_decide_unpack _). vm_compute. exact I.
  - repeat constructor.
Defined.

Lemma X4_upsert_witness :
  exists m1 w1 m2 w2,
    memory_crud.upsert_memory_by_content
      "n1" 5%Z "u" "episodic" "I like tea" None None Examples.world
    = (Return m1, w1) /\
    memory_crud.upsert_memory_by_content
      "n2" 6%Z "u" "episodic" "i LIKE tea" None None w1
    = (Return m2, w2) /\
    models.id m2 = models.id m1 /\
    models.reinforcement_count m2 = (models.reinforcement_count m1 + 1)%Z.
Proof.
  destruct (X4_upsert_twice_reinforces
              "n1" "n2" 5%Z 6%Z "u" "episodic" "I like tea" "i LIKE tea"
              None None None None Examples.world ltac:(reflexivity))
    as (m1 & w1 & m2 & w2 & H1 & H2 & _ & _ & Hid & Hcount).
  exists m1, w1, m2, w2. repeat split; assumption.
Defined.

Lemma X5_upsert_witness :
  index_files
    (snd (memory_crud.upsert_memory_by_content
            "n" 5%Z "v" "semantic" "i like tea" None None Examples.world))
  = index_files Examples.world.
Proof.
  destruct (X5_upsert_leaves_other_users_alone
              "n" 5%Z "v" "semantic" "i like tea" None None Examples.world
              ltac:(apply (bool_decide_unpack _); vm_compute; exact I))
    as (_ & Hindex & _).
  exact Hindex.
Defined.

Lemma X6_newest_witness :
  exists out,
    memory_service.get_memories_by_user "u" (Some "semantic"%string) 1%Z Examples.world
    = (Return out, Examples.world) /\
    Z.of_nat (length out) = 1%Z.
Proof.
  destruct (X6_get_memories_by_user "u" (Some "semantic"%string) 1%Z Examples.world
              ltac:(lia)) as (out & Hrun & _ & _ & Hlen).
  exists out. split; [exact Hrun |]. rewrite Hlen. reflexivity.
Defined.

Lemma X8_store_witness :
  Forall (fun r => models.id r = "c"%string -> models.faiss_index_id r = Some 2%Z)
    (db (snd (retrieval_store.embed_and_store_memory
                Examples.embed_text Samples.rejects "u" Samples.mem_c
                Samples.world_after_two_turns))) /\
  retrieval_store.embed_and_store_memory
    Examples.embed_text Samples.rejects "u" Samples.mem_e Samples.world_after_two_turns
  = (Raise RuntimeError, Samples.world_after_two_turns).
Proof.
  split.
  - destruct (X8_embed_and_store_round_trip
                Examples.embed_text Samples.rejects "u" Samples.mem_c
                Samples.world_after_two_turns ltac:(repeat constructor))
      as (_ & Hstored).
    destruct (Hstored ltac:(reflexivity)) as (_ & _ & Hfield & _).
    apply Forall_forall. intros r Hr Hid. exact (Hfield r Hr Hid).
  - destruct (X8_embed_and_store_round_trip
                Examples.embed_text Samples.rejects "u" Samples.mem_e
                Samples.world_after_two_turns ltac:(repeat constructor))
      as (Hfails & _).
    exact (Hfails ltac:(reflexivity)).
Defined.

Lemma X9_indexing_witness :
  Spec.loaded_ids
    (snd (chat_indexing.embed_new_semantic_memories
            Examples.embed_text Samples.rejects "u" Samples.world_after_two_turns)) "u"
  = ["a"; "b"; "c"]%string /\
  Samples.mem_e
  ∈ db (snd (chat_indexing.embed_new_semantic_memories
               Examples.embed_text Samples.rejects "u" Samples.world_after_two_turns)).
Proof.
  destruct (X9_new_semantic_memories_get_indexed
              Examples.embed_text Samples.rejects "u" Samples.world_after_two_turns
              ltac:(apply (bool_decide_unpack _); vm_compute; exact I))
    as (_ & _ & _ & Hfailed & Hids & _).
  split.
  - rewrite Hids. reflexivity.
  - apply (Hfailed Samples.mem_e); [repeat constructor | reflexivity | reflexivity].
Defined.

Lemma X10_rebuild_witness :
  Spec.aligned
    (snd (retrieval.rebuild_user_index Examples.embed_text "u" Examples.world)) "u".
Proof.
  destruct (X10_rebuild_indexes_newest_hundred
              Examples.embed_text "u" Examples.world
              ltac:(exists Examples.mem_a; split;
                    [repeat constructor | split; reflexivity]))
    as (Hal & _).
  exact Hal.
Defined.

Lemma X11_score_witness :
  (- (33 # 100)
   <= candidate.composite_score
        (retrieval.make_candidate Examples.two_hours_later (33 # 64) Examples.mem_a)
   <= 98 # 100)%Q.
Proof.
  apply X11_composite_score_range.
  - split; vm_compute; discriminate.
  - split; vm_compute; discriminate.
  - vm_compute; discriminate.
Defined.

Lemma X15_truncate_witness :
  prompt_builder.truncate_to_tokens
    (prompt_builder.truncate_to_tokens "remember the milk" 2) 2
  = prompt_builder.truncate_to_tokens "remember the milk" 2.
Proof.
  destruct (X15_truncate_is_idempotent "remember the milk" 2 ltac:(lia)) as [_ Hidem].
  exact Hidem.
Defined.

Lemma X16_title_witness :
  length (sessions (chat_service.update_session_title
                      30%Z Samples.app_db Samples.session1 "   hello there"))
  = length (sessions Samples.app_db).
Proof.
  destruct (X16_update_session_title 30%Z Samples.app_db Samples.session1
              "   hello there") as [_ Hnew].
  destruct (Hnew ltac:(reflexivity)) as (_ & _ & Hlen & _).
  exact Hlen.
Defined.

Lemma X18_context_witness :
  last (chat_service.get_session_context
          (snd (chat_service.save_message
                  "m3" 30%Z Samples.app_db "s1" "user" "and you?")) "s1" 6%Z)
  = Some {| message.role := "user"; message.content := "and you?" |}.
Proof.
  assert (Hexists : Laws.session_exists Samples.app_db "s1").
  { exists Samples.session1. split; [repeat constructor | reflexivity]. }
  assert (Hearlier : forall m, m ∈ messages Samples.app_db ->
                               message_row.session_id m = "s1"%string ->
                               (message_row.timestamp m <= 30)%Z).
  { intros m Hm _. apply list_elem_of_In in Hm. simpl in Hm.
    destruct Hm as [<- | [<- | []]]; simpl; lia. }
  destruct (X18_saved_message_ends_the_context
              "m3" 30%Z Samples.app_db "s1" "user" "and you?" 6%Z
              Hexists ltac:(lia) Hearlier) as [Hlast _].
  exact Hlast.
Defined.

Lemma X19_window_witness :
  Z.of_nat (length (chat_service.get_session_context Samples.app_db "s1" 1%Z)) = 1%Z.
Proof.
  assert (Hexists : Laws.session_exists Samples.app_db "s1").
  { exists Samples.session1. split; [repeat constructor | reflexivity]. }
  destruct (X19_session_context_window Samples.app_db "s1" 1%Z) as [_ Hfound].
  pose proof (Hfound Hexists) as Hwindow. cbv zeta in Hwindow.
  destruct Hwindow as [_ Hwindow].
  destruct (Hwindow ltac:(lia)) as (earlier & _ & Hlen).
  rewrite Hlen. reflexivity.
Defined.

Lemma X22_signup_witness :
  Laws.unique_names
    (snd (auth.signup_user Samples.hash_password "u2" "p2" 50%Z
            Samples.bob_request Samples.app_db)).
Proof.
  assert (Hunique : Laws.unique_names Samples.app_db).
  { split; apply (bool_decide_unpack _); vm_compute; exact I. }
  pose proof (X22_signup_keeps_names_unique Samples.hash_password "u2" "p2" 50%Z
                Samples.bob_request Samples.app_db Hunique) as Hsignup.
  cbv zeta in Hsignup.
  change (fst (auth.signup_user Samples.hash_password "u2" "p2" 50%Z
                 Samples.bob_request Samples.app_db))
    with (Ok Samples.bob) in Hsignup.
  destruct Hsignup as (_ & _ & _ & _ & _ & Hnames & _).
  exact Hnames.
Defined.

Lemma X23_login_witness :
  exists token,
    auth.login_user Samples.verify_password Samples.jwt_encode 60%Z
      {| auth.login_username := "bob"; auth.login_password := "hunter2" |}
      (snd (auth.signup_user Samples.hash_password "u2" "p2" 50%Z
              Samples.bob_request Samples.app_db))
    = Ok {| auth.access_token := token;
            auth.token_type := "bearer";
            auth.token_user_id := "u2";
            auth.token_username := "bob" |}.
Proof.
  assert (Hverify : forall password,
             Samples.verify_password password (Samples.hash_password password) = true).
  { intros password. apply String.eqb_refl. }
  destruct (X23_signup_then_login
              Samples.hash_password Samples.verify_password Samples.jwt_encode
              "u2" "p2" 50%Z 60%Z Samples.bob_request Samples.app_db Samples.bob
              Hverify ltac:(reflexivity)) as [Hlogin _].
  exact Hlogin.
Defined.

Lemma X24_current_user_witness :
  auth.get_current_user Samples.jwt_decode 0%Z "u1" Samples.app_db = Ok Samples.alice.
Proof.
  destruct (X24_get_current_user Samples.jwt_decode 0%Z "u1" Samples.app_db)
    as (_ & _ & Hok).
  apply (Hok Samples.alice [("sub"%string, "u1"%string)]).
  - apply (bool_decide_unpack _). vm_compute. exact I.
  - repeat constructor.
  - reflexivity.
  - reflexivity.
  - reflexivity.
Defined.

Lemma X26_preference_witness :
  fact_extraction.extract_facts_from_conversation Samples.findall
    [{| message.role := "user"; message.content := "  I like tea " |}]
  = ["I like tea"%string].
Proof.
  rewrite (X26_single_preference_message Samples.findall "  I like tea ").
  - reflexivity.
  - reflexivity.
  - reflexivity.
Defined.

Lemma X29_completeness_witness :
  analytics.profile_completeness_pct
    (analytics.overview
       (analytics.get_user_metrics 100%Z 100%Z [] Samples.app_db "u1"))
  = 20%Z.
Proof.
  destruct (X29_profile_completeness 100%Z 100%Z [] Samples.app_db "u1")
    as (_ & _ & Hnew).
  exact (Hnew "p1"%string 0%Z "alice"%string ltac:(vm_compute; reflexivity)).
Defined.
